(** * Spendbit: statement parsing, categorisation and the transaction store

    A shallow embedding of the TypeScript sources

      - [src/lib/transaction-categorizer.ts]   (module [Categorizer])
      - [src/lib/simple-transaction-parser.ts] (module [SimpleParser])
      - [src/lib/pdf-transaction-parser.ts]    (module [PdfParser])
      - [src/app/api/transactions/upload/route.ts] (module [UploadRoute])
      - the transaction store, [src/unnamed/part_002] (module [Store])

    together with the properties of the specification that concern them.

    Conventions of the embedding.

    - A JavaScript string is the list of its UTF-16 code units ([jstring]);
      [.length], [substring], [includes] and the regular expressions of the
      sources all work on code units.
    - A JavaScript [number] is [NaN], an infinity or an exact rational
      ([number]).  Arithmetic on rationals is exact: the rounding of IEEE 754
      doubles, their overflow and underflow, and the sign of zero are not
      modelled, except in the duplicate test of the store, whose comparison
      of two amounts is decided by the rounding: there the amounts are the
      doubles nearest to them and their difference is rounded
      ([JS.toDouble]).
    - A [Date] held by a transaction is its time value in milliseconds; the
      parsers reject an invalid [Date] before a transaction is built.
    - What the host provides (the clock, the [Date] constructor, the random
      identifier) is passed explicitly. *)

From Stdlib Require Import ZArith NArith QArith Qabs Qminmax Qround Qpower List Sorted
  Bool String Ascii Lia Lqa.
From stdpp Require Import base option list gmap.
Import ListNotations.

Set Default Proof Using "Type".
Local Open Scope Z_scope.

(* ================================================================== *)
(** * JavaScript values *)
(* ================================================================== *)

Module JS.

(** ** Strings *)

(** A string is a list of UTF-16 code units. *)
Abbreviation jstring := (list N).

(** An ASCII literal of the sources. *)
Definition str (s : string) : jstring :=
  List.map N_of_ascii (list_ascii_of_string s).

Definition cu_eqb (a b : N) : bool := N.eqb a b.

Fixpoint jeqb (a b : jstring) : bool :=
  match a, b with
  | [], [] => true
  | x :: a', y :: b' => N.eqb x y && jeqb a' b'
  | _, _ => false
  end.

Definition inRange (lo hi c : N) : bool := (N.leb lo c && N.leb c hi)%bool.

Definition isDigit (c : N) : bool := inRange 48 57 c.
Definition isUpper (c : N) : bool := inRange 65 90 c.
Definition isLower (c : N) : bool := inRange 97 122 c.
Definition isAlpha (c : N) : bool := (isUpper c || isLower c)%bool.
(** [\w] *)
Definition isWord (c : N) : bool := (isAlpha c || isDigit c || N.eqb c 95)%bool.

(** [\s], which is also what [trim] strips: the WhiteSpace and
    LineTerminator code points of ECMAScript. *)
Definition isSpace (c : N) : bool :=
  (inRange 9 13 c || N.eqb c 32 || N.eqb c 160 || N.eqb c 5760
   || inRange 8192 8202 c || N.eqb c 8232 || N.eqb c 8233 || N.eqb c 8239
   || N.eqb c 8287 || N.eqb c 12288 || N.eqb c 65279)%bool.

(** LineTerminator: what [.] does not match. *)
Definition isLineTerminator (c : N) : bool :=
  (N.eqb c 10 || N.eqb c 13 || N.eqb c 8232 || N.eqb c 8233)%bool.

(** [toLowerCase] on one code unit.  ASCII capitals are folded; so are the
    two code units outside ASCII whose lower case contains an ASCII letter
    (U+0130 and the Kelvin sign U+212A).  Every other code unit is returned
    as it is: the lower case of a cased letter outside ASCII is again
    outside ASCII, and the sources only ever compare lower-cased text with
    ASCII keywords or strip everything outside [a-z0-9\s]. *)
Definition lowerUnit (c : N) : jstring :=
  if isUpper c then [(c + 32)%N]
  else if N.eqb c 304 then [105%N; 775%N]
  else if N.eqb c 8490 then [107%N]
  else [c].

Definition toLowerCase (s : jstring) : jstring := List.concat (List.map lowerUnit s).

(** [toUpperCase] of a single [\w] code unit. *)
Definition upperUnit (c : N) : N := if isLower c then (c - 32)%N else c.

Fixpoint trimStart (s : jstring) : jstring :=
  match s with
  | c :: s' => if isSpace c then trimStart s' else s
  | [] => []
  end.

Definition trimEnd (s : jstring) : jstring := List.rev (trimStart (List.rev s)).

Definition trim (s : jstring) : jstring := trimEnd (trimStart s).

Fixpoint startsWith (s p : jstring) {struct p} : bool :=
  match p, s with
  | [], _ => true
  | x :: p', y :: s' => N.eqb x y && startsWith s' p'
  | _ :: _, [] => false
  end.

Definition endsWith (s p : jstring) : bool := startsWith (List.rev s) (List.rev p).

Fixpoint includes (s p : jstring) : bool :=
  startsWith s p ||
  match s with
  | [] => false
  | _ :: s' => includes s' p
  end.

(** [arr.includes(x)] on an array of strings. *)
Definition arrIncludes (l : list jstring) (x : jstring) : bool :=
  List.existsb (jeqb x) l.

(** [s.substring(a, b)] for [0 <= a <= b]. *)
Definition substring (a b : nat) (s : jstring) : jstring :=
  List.firstn (b - a) (List.skipn a s).

(** [s.substring(a)] *)
Definition substringFrom (a : nat) (s : jstring) : jstring := List.skipn a s.

(** [s.slice(-n)] and [s.slice(0, -n)] *)
Definition sliceLast (n : nat) (s : jstring) : jstring :=
  List.skipn (List.length s - n) s.
Definition sliceButLast (n : nat) (s : jstring) : jstring :=
  List.firstn (List.length s - n) s.

(** [s.split(sep)] for a one-unit separator. *)
Fixpoint splitOn (sep : N) (s : jstring) : list jstring :=
  match s with
  | [] => [[]]
  | c :: s' =>
      if N.eqb c sep then [] :: splitOn sep s'
      else match splitOn sep s' with
           | w :: ws => (c :: w) :: ws
           | [] => [[c]]
           end
  end.

(** [s.split(/\s+/)]: the pieces between maximal runs of white space; a run
    at either end leaves an empty piece there. *)
Fixpoint splitSpaces (s : jstring) : list jstring :=
  match s with
  | [] => [[]]
  | c :: s' =>
      if isSpace c then
        match s' with
        | d :: _ => if isSpace d then splitSpaces s' else [] :: splitSpaces s'
        | [] => [[]; []]
        end
      else match splitSpaces s' with
           | w :: ws => (c :: w) :: ws
           | [] => [[c]]
           end
  end.

(** [parts.join(sep)] *)
Fixpoint join (sep : jstring) (l : list jstring) : jstring :=
  match l with
  | [] => []
  | [w] => w
  | w :: ws => w ++ sep ++ join sep ws
  end.

(** The value of a string of decimal digits ([Number], [parseInt] on
    [\d+]). *)
Definition digitsValue (s : jstring) : Z :=
  List.fold_left (fun acc c => 10 * acc + (Z.of_N c - 48)) s 0.

(** ** Numbers *)

Inductive number :=
| NaN
| Num (q : Q)
| Inf (negative : bool).

Definition isNaN (x : number) : bool :=
  match x with NaN => true | _ => false end.

(** [x === y] on numbers *)
Definition strictEq (x y : number) : bool :=
  match x, y with
  | Num a, Num b => Qeq_bool a b
  | Inf s, Inf t => Bool.eqb s t
  | _, _ => false
  end.

(** [x < y] *)
Definition lt (x y : number) : bool :=
  match x, y with
  | NaN, _ | _, NaN => false
  | Num a, Num b => negb (Qle_bool b a)
  | Num _, Inf s => negb s
  | Inf s, Num _ => s
  | Inf s, Inf t => (s && negb t)%bool
  end.

Definition gt (x y : number) : bool := lt y x.

(** [x <= y] *)
Definition le (x y : number) : bool :=
  match x, y with
  | NaN, _ | _, NaN => false
  | Num a, Num b => Qle_bool a b
  | Num _, Inf s => negb s
  | Inf s, Num _ => s
  | Inf s, Inf t => (s || negb t)%bool
  end.

Definition neg (x : number) : number :=
  match x with
  | NaN => NaN
  | Num a => Num (- a)
  | Inf s => Inf (negb s)
  end.

(** [Math.abs] *)
Definition abs (x : number) : number :=
  match x with
  | NaN => NaN
  | Num a => Num (Qabs a)
  | Inf _ => Inf false
  end.

Definition add (x y : number) : number :=
  match x, y with
  | NaN, _ | _, NaN => NaN
  | Num a, Num b => Num (a + b)
  | Num _, Inf s | Inf s, Num _ => Inf s
  | Inf s, Inf t => if Bool.eqb s t then Inf s else NaN
  end.

Definition sub (x y : number) : number := add x (neg y).

Definition qsign (a : Q) : comparison := (a ?= 0)%Q.

Definition mul (x y : number) : number :=
  match x, y with
  | NaN, _ | _, NaN => NaN
  | Num a, Num b => Num (a * b)
  | Num a, Inf s | Inf s, Num a =>
      match qsign a with
      | Eq => NaN
      | Gt => Inf s
      | Lt => Inf (negb s)
      end
  | Inf s, Inf t => Inf (xorb s t)
  end.

Definition div (x y : number) : number :=
  match x, y with
  | NaN, _ | _, NaN => NaN
  | Num a, Num b =>
      match qsign b with
      | Eq => match qsign a with Eq => NaN | Gt => Inf false | Lt => Inf true end
      | _ => Num (a / b)
      end
  | Num _, Inf _ => Num 0
  | Inf s, Num b => Inf (if Qle_bool 0 b then s else negb s)
  | Inf _, Inf _ => NaN
  end.

(** [arr.reduce((sum, x) => sum + x, 0)] *)
Definition sum (l : list number) : number :=
  List.fold_left add l (Num 0).

(** ** Doubles

    The Number value of a rational: the IEEE 754 binary64 value nearest to
    it, ties going to the even significand.  A finite double is
    [significand * 2 ^ exponent] with [significand < 2 ^ 53] and
    [-1074 <= exponent <= 971]; what rounds to [2 ^ 1024] or beyond is an
    infinity. *)

(** Rounding to the nearest integer, ties to even. *)
Definition roundHalfEven (x : Q) : Z :=
  let f := Qfloor x in
  match (x - inject_Z f ?= 1 # 2)%Q with
  | Lt => f
  | Gt => f + 1
  | Eq => if Z.even f then f else f + 1
  end.

(** The integer part of the binary logarithm of a positive rational. *)
Definition floorLog2 (x : Q) : Z :=
  let l := Z.log2 (Qnum x) - Z.log2 (Zpos (Qden x)) in
  if Qle_bool (2 ^ l) x then l else l - 1.

Definition toDouble (x : Q) : number :=
  if Qeq_bool x 0 then Num 0
  else
    let a := Qabs x in
    let exponent := Z.max (floorLog2 a - 52) (-1074) in
    let significand := roundHalfEven (a / 2 ^ exponent) in
    let magnitude := Qred (inject_Z significand * 2 ^ exponent) in
    if Qle_bool (2 ^ 1024) magnitude then Inf (negb (Qle_bool 0 x))
    else Num (if Qle_bool 0 x then magnitude else - magnitude).

(** The double that a number of the model stands for.  An amount is kept
    as the rational that [parseFloat] read; the JavaScript value is the
    double nearest to it.  A rational that is a double stands for itself
    (lemma [JSFacts.asDouble_idempotent]). *)
Definition asDouble (x : number) : number :=
  match x with
  | Num q => toDouble q
  | _ => x
  end.

(** [x - y] on doubles *)
Definition subDouble (x y : number) : number :=
  asDouble (sub (asDouble x) (asDouble y)).

(** ** [parseFloat] *)

Fixpoint takeWhile (p : N -> bool) (s : jstring) : jstring :=
  match s with
  | c :: s' => if p c then c :: takeWhile p s' else []
  | [] => []
  end.

Fixpoint dropWhile (p : N -> bool) (s : jstring) : jstring :=
  match s with
  | c :: s' => if p c then dropWhile p s' else s
  | [] => []
  end.

Definition pow10 (e : Z) : Q :=
  if (0 <=? e)%Z then inject_Z (10 ^ e) else / inject_Z (10 ^ (- e)).

(** The exponent part [e[+-]digits] at the head of [s], if it is complete. *)
Definition exponentOf (s : jstring) : Z :=
  match s with
  | c :: s' =>
      if (N.eqb c 101 || N.eqb c 69)%bool then
        match s' with
        | d :: s'' =>
            if N.eqb d 45 then
              match takeWhile isDigit s'' with
              | [] => 0
              | ds => - digitsValue ds
              end
            else if N.eqb d 43 then digitsValue (takeWhile isDigit s'')
            else digitsValue (takeWhile isDigit s')
        | [] => 0
        end
      else 0
  | [] => 0
  end.

(** The unsigned StrDecimalLiteral at the head of [s]. *)
Definition unsignedLiteral (s : jstring) : number :=
  if startsWith s (str "Infinity") then Inf false
  else
    let ip := takeWhile isDigit s in
    let r := dropWhile isDigit s in
    match r with
    | c :: r' =>
        if N.eqb c 46 then
          let fp := takeWhile isDigit r' in
          match ip, fp with
          | [], [] => NaN
          | _, _ =>
              let mant :=
                (inject_Z (digitsValue ip)
                 + inject_Z (digitsValue fp) * pow10 (- Z.of_nat (List.length fp)))%Q in
              Num (mant * pow10 (exponentOf (dropWhile isDigit r')))
          end
        else
          match ip with
          | [] => NaN
          | _ => Num (inject_Z (digitsValue ip) * pow10 (exponentOf r))
          end
    | [] =>
        match ip with
        | [] => NaN
        | _ => Num (inject_Z (digitsValue ip))
        end
    end.

(** [parseFloat(s)]: leading white space is skipped, then the longest
    prefix that is a decimal literal is read; [NaN] when there is none. *)
Definition parseFloat (s : jstring) : number :=
  match trimStart s with
  | c :: s' =>
      if N.eqb c 45 then neg (unsignedLiteral s')
      else if N.eqb c 43 then unsignedLiteral s'
      else unsignedLiteral (c :: s')
  | [] => NaN
  end.

End JS.

Import JS.

(* ================================================================== *)
(** * Regular expressions *)
(* ================================================================== *)

(** The regular expressions of the sources are written as terms of [re] and
    run by a backtracking matcher with the priorities of ECMAScript: a
    greedy quantifier tries one more iteration first, a lazy one tries to
    stop first, an alternation tries its branches from left to right, and
    an iteration that consumes nothing is rejected. *)

Module Regex.

Inductive re :=
| Eps
| Chr (c : N)
| Cls (p : N -> bool)
| Seq (a b : re)
| Alt (a b : re)
| Star (greedy : bool) (r : re)
| Grp (i : nat) (r : re)
| Bol
| Eol
| WordB.

(** A position in the subject: the units before it (nearest first) and the
    units from it on. *)
Definition pos : Type := jstring * jstring.
Definition caps : Type := list (nat * jstring).

Definition asciiLower (c : N) : N := if isUpper c then (c + 32)%N else c.

(** Comparison of a pattern character with a subject unit; under the [i]
    flag ASCII letters match in either case (a unit outside ASCII is never
    canonicalised to an ASCII one). *)
Definition chrEq (ci : bool) (x y : N) : bool :=
  if ci then N.eqb (asciiLower x) (asciiLower y) else N.eqb x y.

Definition clsOk (ci : bool) (p : N -> bool) (y : N) : bool :=
  if ci then (p y || p (asciiLower y) || p (upperUnit y))%bool else p y.

Definition wordBefore (p : pos) : bool :=
  match fst p with c :: _ => isWord c | [] => false end.
Definition wordAfter (p : pos) : bool :=
  match snd p with c :: _ => isWord c | [] => false end.

Definition consumed (p p' : pos) : jstring :=
  List.firstn (List.length (snd p) - List.length (snd p')) (snd p).

Section Matcher.
Context {A : Type}.
Variable ci : bool.

Fixpoint run (r : re) (p : pos) (c : caps) (k : pos -> caps -> option A)
  {struct r} : option A :=
  match r with
  | Eps => k p c
  | Chr x =>
      match snd p with
      | y :: rest => if chrEq ci x y then k (y :: fst p, rest) c else None
      | [] => None
      end
  | Cls f =>
      match snd p with
      | y :: rest => if clsOk ci f y then k (y :: fst p, rest) c else None
      | [] => None
      end
  | Seq a b => run a p c (fun p' c' => run b p' c' k)
  | Alt a b =>
      match run a p c k with
      | Some x => Some x
      | None => run b p c k
      end
  | Star g r' =>
      (fix loop (n : nat) (p : pos) (c : caps) {struct n} : option A :=
         match n with
         | O => k p c
         | S n' =>
             let again :=
               fun (_ : unit) =>
                 run r' p c (fun p' c' =>
                   if (List.length (snd p') <? List.length (snd p))%nat
                   then loop n' p' c' else None) in
             if g then
               match again tt with
               | Some x => Some x
               | None => k p c
               end
             else
               match k p c with
               | Some x => Some x
               | None => again tt
               end
         end) (List.length (snd p)) p c
  | Grp i r' => run r' p c (fun p' c' => k p' ((i, consumed p p') :: c'))
  | Bol => match fst p with [] => k p c | _ :: _ => None end
  | Eol => match snd p with [] => k p c | _ :: _ => None end
  | WordB => if xorb (wordBefore p) (wordAfter p) then k p c else None
  end.
End Matcher.

(** A match: where it starts, where it ends, and the captures. *)
Record found := { m_start : pos; m_end : pos; m_caps : caps }.

Definition matchAt (ci : bool) (r : re) (p : pos) : option found :=
  run ci r p [] (fun p' c => Some {| m_start := p; m_end := p'; m_caps := c |}).

(** The leftmost match at or after a position. *)
Fixpoint searchFrom (ci : bool) (r : re) (before rest : jstring) : option found :=
  match matchAt ci r (before, rest) with
  | Some f => Some f
  | None =>
      match rest with
      | [] => None
      | x :: rest' => searchFrom ci r (x :: before) rest'
      end
  end.

(** [s.match(r)] without the [g] flag *)
Definition exec (ci : bool) (r : re) (s : jstring) : option found :=
  searchFrom ci r [] s.

(** [r.test(s)] *)
Definition test (ci : bool) (r : re) (s : jstring) : bool :=
  match exec ci r s with Some _ => true | None => false end.

Definition matched (f : found) : jstring := consumed (m_start f) (m_end f).

(** Capture [i] of a match ([match[i]]); the empty string stands for a
    group that did not take part. *)
Fixpoint capture (i : nat) (c : caps) : jstring :=
  match c with
  | (j, v) :: c' => if Nat.eqb i j then v else capture i c'
  | [] => []
  end.

Definition group (i : nat) (f : found) : jstring := capture i (m_caps f).

(** [s.replace(r, f)] with the [g] flag: every match from left to right;
    after an empty match one unit is copied. *)
Fixpoint replaceFrom (ci : bool) (r : re) (f : found -> jstring) (fuel : nat)
    (before rest : jstring) : jstring :=
  match fuel with
  | O => rest
  | S fuel' =>
      match searchFrom ci r before rest with
      | None => rest
      | Some m =>
          let skipped := consumed (before, rest) (m_start m) in
          let out := skipped ++ f m in
          match matched m with
          | [] =>
              match snd (m_end m) with
              | [] => out
              | x :: rest' =>
                  out ++ x :: replaceFrom ci r f fuel' (x :: fst (m_end m)) rest'
              end
          | _ :: _ =>
              out ++ replaceFrom ci r f fuel' (fst (m_end m)) (snd (m_end m))
          end
      end
  end.

Definition replaceAll (ci : bool) (r : re) (f : found -> jstring) (s : jstring) : jstring :=
  replaceFrom ci r f (S (List.length s)) [] s.

(** [s.replace(r, f)] without the [g] flag: the first match only. *)
Definition replaceFirst (ci : bool) (r : re) (f : found -> jstring) (s : jstring) : jstring :=
  match exec ci r s with
  | None => s
  | Some m => consumed ([], s) (m_start m) ++ f m ++ snd (m_end m)
  end.

(** [(s.match(r) || []).length] with the [g] flag *)
Fixpoint countFrom (ci : bool) (r : re) (fuel : nat) (before rest : jstring) : nat :=
  match fuel with
  | O => O
  | S fuel' =>
      match searchFrom ci r before rest with
      | None => O
      | Some m =>
          match matched m with
          | [] =>
              match snd (m_end m) with
              | [] => 1%nat
              | x :: rest' => S (countFrom ci r fuel' (x :: fst (m_end m)) rest')
              end
          | _ :: _ => S (countFrom ci r fuel' (fst (m_end m)) (snd (m_end m)))
          end
      end
  end.

Definition countAll (ci : bool) (r : re) (s : jstring) : nat :=
  countFrom ci r (S (List.length s)) [] s.

(** *** Pattern syntax *)

Fixpoint lit' (s : jstring) : re :=
  match s with
  | [] => Eps
  | [c] => Chr c
  | c :: s' => Seq (Chr c) (lit' s')
  end.
(** a literal run of ASCII characters *)
Definition lit (s : string) : re := lit' (str s).

Fixpoint seqs (l : list re) : re :=
  match l with
  | [] => Eps
  | [r] => r
  | r :: l' => Seq r (seqs l')
  end.

Fixpoint alts (l : list re) : re :=
  match l with
  | [] => Eps
  | [r] => r
  | r :: l' => Alt r (alts l')
  end.

(** [r+], [r+?], [r*], [r?] *)
Definition plus (r : re) : re := Seq r (Star true r).
Definition plusLazy (r : re) : re := Seq r (Star false r).
Definition star (r : re) : re := Star true r.
Definition opt (r : re) : re := Alt r Eps.

(** [r{n}] *)
Fixpoint rep (n : nat) (r : re) : re :=
  match n with
  | O => Eps
  | 1%nat => r
  | S n' => Seq r (rep n' r)
  end.

(** at most [n] more iterations, greedily *)
Fixpoint upTo (n : nat) (r : re) : re :=
  match n with
  | O => Eps
  | S n' => opt (Seq r (upTo n' r))
  end.

(** [r{m,n}] and [r{m,}] *)
Definition repRange (m n : nat) (r : re) : re := Seq (rep m r) (upTo (n - m) r).
Definition atLeast (m : nat) (r : re) : re := Seq (rep m r) (Star true r).

Definition digit : re := Cls isDigit.
Definition space : re := Cls isSpace.
Definition word : re := Cls isWord.
(** [.] *)
Definition dot : re := Cls (fun c => negb (isLineTerminator c)).
(** [[abc]] for ASCII characters *)
Definition oneOf (s : string) : re := Cls (fun c => List.existsb (N.eqb c) (str s)).
Definition oneOfUnits (l : list N) : re := Cls (fun c => List.existsb (N.eqb c) l).

End Regex.

Import Regex.

(* ================================================================== *)
(** * The data model *)
(* ================================================================== *)

Inductive TxType := income | expense.

Definition TxType_eqb (a b : TxType) : bool :=
  match a, b with
  | income, income | expense, expense => true
  | _, _ => false
  end.

(** [interface Transaction] of simple-transaction-parser.ts.  The interface
    of pdf-transaction-parser.ts has the same fields without the two
    optional ones.  [t_date] is the time value of the (valid) [Date]. *)
Record Transaction := {
  t_id : jstring;
  t_date : Z;
  t_description : jstring;
  t_amount : number;
  t_category : jstring;
  t_type : TxType;
  t_source : jstring;
  t_originalAmount : option number;
  t_confidence : option number
}.

Definition setCategory (c : jstring) (t : Transaction) : Transaction :=
  {| t_id := t_id t; t_date := t_date t; t_description := t_description t;
     t_amount := t_amount t; t_category := c; t_type := t_type t;
     t_source := t_source t; t_originalAmount := t_originalAmount t;
     t_confidence := t_confidence t |}.

Definition setType (ty : TxType) (t : Transaction) : Transaction :=
  {| t_id := t_id t; t_date := t_date t; t_description := t_description t;
     t_amount := t_amount t; t_category := t_category t; t_type := ty;
     t_source := t_source t; t_originalAmount := t_originalAmount t;
     t_confidence := t_confidence t |}.

(** [arr.sort(cmp)]: a stable sort; [cmp a b > 0] puts [a] after [b]. *)
Section Sort.
Context {A : Type}.
Variable after : A -> A -> bool.

Fixpoint insertSorted (x : A) (l : list A) : list A :=
  match l with
  | [] => [x]
  | y :: l' => if after x y then y :: insertSorted x l' else x :: l
  end.

Definition stableSort (l : list A) : list A :=
  List.fold_right insertSorted [] l.
End Sort.

(** The comparator [(a, b) => key(b) - key(a)] on integer keys: [a] goes
    after [b] when the key of [b] is the greater. *)
Definition descending {A : Type} (key : A -> Z) (a b : A) : bool := key a <? key b.

(** The order that this comparator sorts into: no element is followed by
    one with a greater key. *)
Definition notBelow {A : Type} (key : A -> Z) (a b : A) : Prop := key b <= key a.

(* ================================================================== *)
(** * transaction-categorizer.ts *)
(* ================================================================== *)

Module Categorizer.

Record CategoryRule := {
  keywords : list jstring;
  category : jstring;
  priority : Z;
  rtype : option TxType
}.

Definition rule (kws : list string) (cat : string) (pr : Z) (ty : TxType) : CategoryRule :=
  {| keywords := List.map str kws; category := str cat; priority := pr;
     rtype := Some ty |}.

Local Open Scope string_scope.

Definition defaultExpenseRules : list CategoryRule :=
  [ rule
        [ "restaurant"; "cafe"; "coffee"; "pizza"; "burger"; "taco";
           "sushi"; "deli"; "mcdonald"; "burger king"; "kfc"; "subway";
           "chipotle"; "panera"; "starbucks"; "dunkin"; "dominos";
           "papa john"; "taco bell"; "wendy"; "chick-fil-a"; "olive garden";
           "applebee"; "chili"; "outback"; "red lobster"; "ihop"; "denny";
           "food truck"; "dining"; "lunch"; "dinner"; "breakfast"; "brunch";
           "takeout"; "delivery"; "uber eats"; "doordash"; "grubhub";
           "postmates"; "bistro"; "grill"; "pub"; "bar"; "tavern"; "bakery";
           "ice cream"; "yogurt" ]
        "Food & Dining" 9 expense;
    rule
        [ "gas"; "fuel"; "gasoline"; "shell"; "exxon"; "bp"; "chevron";
           "mobil"; "uber"; "lyft"; "taxi"; "cab"; "parking"; "park";
           "metro"; "bus"; "train"; "subway"; "transit"; "toll"; "bridge";
           "rental car"; "car rental"; "hertz"; "enterprise"; "avis";
           "budget"; "airline"; "flight"; "airport"; "delta";
           "american airlines"; "united"; "southwest"; "jetblue";
           "auto repair"; "mechanic"; "oil change"; "tire"; "car wash";
           "inspection" ]
        "Transportation" 9 expense;
    rule
        [ "amazon"; "walmart"; "target"; "costco"; "sam club";
           "bj wholesale"; "grocery"; "supermarket"; "safeway"; "kroger";
           "publix"; "whole foods"; "trader joe"; "aldi"; "food lion";
           "giant"; "stop shop"; "wegmans"; "shopping"; "store"; "mall";
           "outlet"; "department store"; "retail"; "macy"; "nordstrom";
           "sears"; "jcpenney"; "kohl"; "tj maxx"; "marshall"; "best buy";
           "home depot"; "lowe"; "menards"; "ace hardware"; "pharmacy";
           "cvs"; "walgreens"; "rite aid"; "drugstore" ]
        "Shopping" 8 expense;
    rule
        [ "electric"; "electricity"; "power"; "utility"; "water"; "sewer";
           "gas bill"; "natural gas"; "internet"; "cable"; "phone"; "cell";
           "mobile"; "verizon"; "att"; "t-mobile"; "sprint"; "comcast";
           "xfinity"; "spectrum"; "cox"; "directv"; "dish"; "satellite";
           "broadband"; "insurance"; "auto insurance"; "car insurance";
           "home insurance"; "health insurance"; "life insurance"; "geico";
           "state farm"; "allstate"; "progressive"; "usaa";
           "liberty mutual" ]
        "Bills & Utilities" 9 expense;
    rule
        [ "netflix"; "hulu"; "disney"; "amazon prime"; "spotify";
           "apple music"; "youtube"; "movie"; "theater"; "cinema"; "amc";
           "regal"; "concert"; "ticketmaster"; "stubhub"; "game"; "gaming";
           "steam"; "playstation"; "xbox"; "nintendo"; "entertainment";
           "music"; "streaming"; "subscription"; "gym"; "fitness";
           "planet fitness"; "la fitness"; "24 hour fitness"; "ymca";
           "crossfit"; "yoga"; "pilates"; "spa"; "massage" ]
        "Entertainment" 7 expense;
    rule
        [ "doctor"; "physician"; "hospital"; "clinic"; "medical"; "health";
           "dental"; "dentist"; "orthodontist"; "vision"; "optometrist";
           "prescription"; "pharmacy"; "medicine"; "drug"; "co-pay";
           "copay"; "deductible"; "lab"; "x-ray"; "mri"; "ct scan";
           "surgery"; "emergency room"; "urgent care"; "physical therapy";
           "chiropractor"; "mental health"; "therapy"; "counseling";
           "psychiatrist" ]
        "Healthcare" 8 expense;
    rule
        [ "hotel"; "motel"; "resort"; "inn"; "lodge"; "airbnb"; "vrbo";
           "marriott"; "hilton"; "hyatt"; "sheraton"; "holiday inn";
           "travel"; "vacation"; "trip"; "booking"; "expedia"; "kayak";
           "priceline"; "orbitz"; "travelocity"; "cruise"; "carnival";
           "royal caribbean"; "norwegian"; "disney cruise" ]
        "Travel" 7 expense;
    rule
        [ "school"; "university"; "college"; "tuition"; "education";
           "student loan"; "books"; "textbook"; "supplies"; "course";
           "class"; "training"; "certification"; "workshop"; "seminar";
           "online course"; "udemy"; "coursera"; "masterclass" ]
        "Education" 7 expense;
    rule
        [ "haircut"; "salon"; "barber"; "nail"; "manicure"; "pedicure";
           "beauty"; "cosmetics"; "makeup"; "skincare"; "personal care";
           "dry cleaning"; "laundry"; "tailor"; "alteration" ]
        "Personal Care" 6 expense;
    rule
        [ "home improvement"; "furniture"; "appliance"; "garden"; "lawn";
           "landscaping"; "hardware"; "paint"; "tools"; "renovation";
           "repair"; "maintenance"; "cleaning"; "pest control"; "security";
           "rent"; "mortgage"; "property tax"; "hoa";
           "homeowners association" ]
        "Home & Garden" 6 expense;
    rule
        [ "fee"; "charge"; "penalty"; "fine"; "atm"; "overdraft"; "nsf";
           "maintenance"; "service charge"; "late fee"; "interest charge";
           "annual fee"; "monthly fee"; "transaction fee";
           "foreign transaction"; "cash advance"; "balance transfer";
           "wire fee"; "stop payment" ]
        "Fees & Charges" 10 expense;
    rule
        [ "office"; "supplies"; "business"; "conference"; "meeting";
           "software"; "subscription"; "professional"; "consulting";
           "accounting"; "legal"; "marketing"; "advertising"; "printing" ]
        "Business" 6 expense;
    rule
        [ "gift"; "present"; "donation"; "charity"; "nonprofit"; "church";
           "religious"; "contribution"; "fundraiser"; "wedding"; "birthday";
           "anniversary"; "holiday" ]
        "Gifts & Donations" 5 expense ].

Definition defaultIncomeRules : list CategoryRule :=
  [ rule
        [ "salary"; "payroll"; "wage"; "pay"; "direct deposit"; "dd";
           "employer"; "work"; "job"; "income"; "earnings"; "compensation";
           "bonus"; "commission"; "overtime"; "tips"; "gratuity" ]
        "Salary" 10 income;
    rule
        [ "freelance"; "contract"; "consulting"; "gig"; "project";
           "client"; "invoice"; "payment"; "professional services";
           "independent contractor"; "1099"; "self employed" ]
        "Freelance" 9 income;
    rule
        [ "dividend"; "interest"; "investment"; "stock"; "bond";
           "mutual fund"; "etf"; "capital gains"; "portfolio"; "brokerage";
           "trading"; "crypto"; "cryptocurrency"; "bitcoin"; "ethereum";
           "retirement"; "401k"; "ira" ]
        "Investment Returns" 8 income;
    rule
        [ "business income"; "sales"; "revenue"; "customer payment";
           "business deposit"; "merchant"; "stripe"; "paypal business";
           "square"; "invoice payment"; "business transfer" ]
        "Business Income" 7 income;
    rule
        [ "refund"; "return"; "credit"; "reimbursement"; "rebate";
           "cashback"; "cash back"; "reward"; "points redemption";
           "adjustment"; "reversal"; "chargeback"; "dispute resolution" ]
        "Refunds" 6 income;
    rule
        [ "rent"; "rental"; "tenant"; "property income"; "lease";
           "airbnb host"; "vrbo host"; "property management" ]
        "Rental Income" 6 income ].

Local Close Scope string_scope.

(** The two rule tables of the singleton; [addCustomRule] changes them. *)
Record TransactionCategorizer := {
  expenseRules : list CategoryRule;
  incomeRules : list CategoryRule
}.

(** [new TransactionCategorizer()] *)
Definition initial : TransactionCategorizer :=
  {| expenseRules := defaultExpenseRules; incomeRules := defaultIncomeRules |}.

(** [calculateMatchScore], lines 309-326 *)
Definition calculateMatchScore (description : jstring) (kws : list jstring) : Z :=
  let words := splitSpaces description in
  List.fold_left
    (fun score keyword =>
       if includes description keyword then
         if arrIncludes words keyword then score + 3 else score + 1
       else score)
    kws 0.

Record Best := { b_category : jstring; b_score : Z; b_priority : Z }.

(** One turn of the loop over the rules. *)
Definition consider (desc : jstring) (bestMatch : option Best) (r : CategoryRule)
  : option Best :=
  let matchScore := calculateMatchScore desc (keywords r) in
  if 0 <? matchScore then
    let totalScore := matchScore * priority r in
    let better :=
      match bestMatch with
      | None => true
      | Some b => b_score b * b_priority b <? totalScore
      end in
    if better then
      Some {| b_category := category r; b_score := matchScore; b_priority := priority r |}
    else bestMatch
  else bestMatch.

(** [categorizeTransaction(description, amount, type?)], lines 276-307 *)
Definition categorizeTransaction (cz : TransactionCategorizer)
    (description : jstring) (amount : number) (type : option TxType) : jstring :=
  let desc := trim (toLowerCase description) in
  let transactionType :=
    match type with
    | Some ty => ty
    | None => if gt amount (Num 0) then income else expense
    end in
  let rules :=
    match transactionType with
    | income => incomeRules cz
    | expense => expenseRules cz
    end in
  match List.fold_left (consider desc) rules None with
  | Some b => b_category b
  | None =>
      match transactionType with
      | income => str "Other Income"
      | expense => str "Other"
      end
  end.

(** [addCustomRule], lines 345-354 *)
Definition byPriorityDesc (a b : CategoryRule) : bool := priority a <? priority b.

Definition addCustomRule (cz : TransactionCategorizer) (r : CategoryRule)
  : TransactionCategorizer :=
  match rtype r with
  | Some income =>
      {| expenseRules := expenseRules cz;
         incomeRules := stableSort byPriorityDesc (incomeRules cz ++ [r]) |}
  | _ =>
      {| expenseRules := stableSort byPriorityDesc (expenseRules cz ++ [r]);
         incomeRules := incomeRules cz |}
  end.

End Categorizer.

(* ================================================================== *)
(** * What the host provides *)
(* ================================================================== *)

(** The parsers read the clock and build [Date] objects.  [newDate y m d] is
    the time value of [new Date(y, m, d)] ([m] counted from 0), [None] for an
    invalid [Date]; [dateOfString s] is that of [new Date(s)]. *)
Record Host := {
  currentYear : Z;
  newDate : Z -> Z -> Z -> option Z;
  dateOfString : jstring -> option Z;
  todayLocale : jstring
}.

(** A host whose local time is UTC, for running the parsers on examples. *)
Module UtcHost.

(** Days from 1970-01-01 to the first day of month [m] (from 0) of year [y]. *)
Definition daysToMonth (y m : Z) : Z :=
  let y' := y + m / 12 in
  let mo := m mod 12 + 1 in
  let yy := if mo <=? 2 then y' - 1 else y' in
  let era := yy / 400 in
  let yoe := yy - era * 400 in
  let mp := (mo + 9) mod 12 in
  let doy := (153 * mp + 2) / 5 in
  let doe := yoe * 365 + yoe / 4 - yoe / 100 + doy in
  era * 146097 + doe - 719468.

Definition msPerDay : Z := 86400000.

Definition construct (y m d : Z) : option Z :=
  let y' := if (0 <=? y) && (y <=? 99) then 1900 + y else y in
  let t := (daysToMonth y' m + d - 1) * msPerDay in
  if Z.abs t <=? 8640000000000000 then Some t else None.

Definition host (year : Z) (today : jstring) : Host :=
  {| currentYear := year; newDate := construct;
     dateOfString := fun _ => None; todayLocale := today |}.

End UtcHost.

(* ================================================================== *)
(** * simple-transaction-parser.ts *)
(* ================================================================== *)

Module SimpleParser.

Definition anyIncluded (s : jstring) (kws : list string) : bool :=
  List.existsb (fun k => includes s (str k)) kws.

(** [parseDate], lines 315-359 *)
Definition fmtSlash24 : re :=
  seqs [Grp 1 (repRange 1 2 digit); lit "/"; Grp 2 (repRange 1 2 digit); lit "/";
        Grp 3 (repRange 2 4 digit)].
Definition fmtIso : re :=
  seqs [Grp 1 (rep 4 digit); lit "-"; Grp 2 (repRange 1 2 digit); lit "-";
        Grp 3 (repRange 1 2 digit)].
Definition fmtSlash4 : re :=
  seqs [Grp 1 (repRange 1 2 digit); lit "/"; Grp 2 (repRange 1 2 digit); lit "/";
        Grp 3 (rep 4 digit)].

(** The year of a month/day/year match, with the two-digit pivot. *)
Definition pivotYear (h : Host) (year : Z) : Z :=
  if year <? 100 then
    let century := currentYear h / 100 * 100 in
    if 50 <? year then century - 100 + year else century + year
  else year.

(** [hasD4] says whether the source text of the format contains
    [(\d{4})], which is how the code tells the year-first formats. *)
Definition tryFormat (h : Host) (format : re) (hasD4 : bool) (dateStr : jstring)
  : option Z :=
  match exec false format dateStr with
  | None => None
  | Some m =>
      let a := digitsValue (group 1 m) in
      let b := digitsValue (group 2 m) in
      let c := digitsValue (group 3 m) in
      if hasD4 then newDate h a (b - 1) c
      else newDate h (pivotYear h c) (a - 1) b
  end.

Definition parseDate (h : Host) (dateStr : jstring) : option Z :=
  match tryFormat h fmtSlash24 false dateStr with
  | Some d => Some d
  | None =>
  match tryFormat h fmtIso true dateStr with
  | Some d => Some d
  | None =>
  match tryFormat h fmtSlash4 true dateStr with
  | Some d => Some d
  | None => dateOfString h dateStr
  end end end.

(** [cleanDescription], lines 411-438 *)
Definition prefixesToRemove : list (bool * re) :=
  [ (true, seqs [Bol; lit "POS"; plus space]);
    (true, seqs [Bol; lit "ATM"; plus space]);
    (true, seqs [Bol; lit "ACH"; plus space]);
    (true, seqs [Bol; lit "CHECK"; plus space; plus digit; plus space]);
    (true, seqs [Bol; lit "DEBIT"; plus space]);
    (true, seqs [Bol; lit "CREDIT"; plus space]);
    (true, seqs [Bol; lit "ONLINE"; plus space]);
    (true, seqs [Bol; lit "RECURRING"; plus space]);
    (false, seqs [Bol; rep 2 digit; lit "/"; rep 2 digit; plus space]);
    (false, seqs [Bol; plus (lit "*"); star space]);
    (false, seqs [Bol; plus (lit "-"); star space]) ].

Definition cleanDescription (description : jstring) : jstring :=
  let d0 := trim (replaceAll false (plus space) (fun _ => str " ") description) in
  let d1 :=
    List.fold_left (fun d pr => replaceFirst (fst pr) (snd pr) (fun _ => []) d)
      prefixesToRemove d0 in
  let d2 :=
    replaceAll false (seqs [WordB; word])
      (fun m => List.map upperUnit (matched m)) (toLowerCase d1) in
  trim d2.

(** [calculateConfidence], lines 440-460 *)
Definition calculateConfidence (description category : jstring) : number :=
  let c0 : Q := 0.5%Q in
  let c1 := if (10 <? List.length description)%nat then (c0 + 0.1)%Q else c0 in
  let c2 := if (20 <? List.length description)%nat then (c1 + 0.1)%Q else c1 in
  let c3 :=
    if negb (jeqb category (str "Other")) && negb (jeqb category (str "Other Income"))
    then (c2 + 0.2)%Q else c2 in
  let c4 :=
    if anyIncluded (toLowerCase description)
         ["transaction"; "payment"; "purchase"; "debit"; "credit"]%string
    then (c3 - 0.1)%Q else c3 in
  Num (Qmax 0.1 (Qmin 1.0 c4)).

(** [isNonSpendingTransaction], lines 462-501 *)
Definition nonSpendingKeywords : list string :=
  [ "payment received"; "payment from"; "direct deposit"; "salary"; "payroll";
    "refund"; "cashback"; "reward"; "credit adjustment"; "interest earned";
    "dividend";
    "transfer from"; "balance transfer"; "internal transfer";
    "statement credit"; "adjustment credit"; "fee waiver"; "promotional credit";
    "total purchases"; "total payments"; "previous balance"; "new balance";
    "minimum payment"; "account summary" ]%string.

Definition isNonSpendingTransaction (description : jstring) : bool :=
  let lowerDesc := trim (toLowerCase description) in
  anyIncluded lowerDesc nonSpendingKeywords.

(** [determineTransactionType], lines 503-559 *)
Definition strongIncomeKeywords : list string :=
  [ "payment from"; "deposit from"; "transfer from"; "refund from";
    "payment received"; "direct deposit"; "salary"; "payroll"; "wage"; "bonus";
    "commission"; "dividend"; "interest earned"; "cashback"; "reward";
    "freelance payment"; "contract payment"; "invoice payment";
    "reimbursement" ]%string.

Definition moderateIncomeKeywords : list string :=
  [ "refund"; "return"; "credit adjustment"; "promotional credit";
    "statement credit"; "fee waiver"; "adjustment credit"; "deposit";
    "credit" ]%string.

Definition strongExpenseKeywords : list string :=
  [ "payment to"; "transfer to"; "payment for"; "purchase at"; "purchase from";
    "bill payment"; "automatic payment"; "online payment"; "debit purchase";
    "pos purchase"; "atm withdrawal"; "check payment" ]%string.

Definition determineTransactionType (originalAmount : number) (description : jstring)
  : TxType :=
  let lowerDesc := toLowerCase description in
  if anyIncluded lowerDesc strongIncomeKeywords then income
  else if anyIncluded lowerDesc strongExpenseKeywords then expense
  else
    let hasModerateIncomeKeyword := anyIncluded lowerDesc moderateIncomeKeywords in
    if gt originalAmount (Num 0) && hasModerateIncomeKeyword then income
    else if lt originalAmount (Num 0) then
      if includes lowerDesc (str "refund") || includes lowerDesc (str "cashback")
         || includes lowerDesc (str "return")
      then income else expense
    else expense.

(** [[$,\s]] *)
Definition dollarCommaSpace : re :=
  Cls (fun c => N.eqb c 36 || N.eqb c 44 || isSpace c).

(** [createTransaction], lines 255-313; [newId] is what [generateId()]
    returns. *)
Definition createTransaction (h : Host) (cz : Categorizer.TransactionCategorizer)
    (newId : jstring) (dateStr description amountStr : jstring)
  : option Transaction :=
  let dateStr := trim dateStr in
  let description := trim description in
  let amountStr := trim (replaceAll false dollarCommaSpace (fun _ => []) amountStr) in
  match parseDate h dateStr with
  | None => None
  | Some date =>
      let originalAmount := parseFloat amountStr in
      if isNaN originalAmount || strictEq originalAmount (Num 0) then None
      else if (List.length description <? 3)%nat then None
      else
        let description := cleanDescription description in
        if isNonSpendingTransaction description then None
        else
          let transactionType := determineTransactionType originalAmount description in
          let category :=
            Categorizer.categorizeTransaction cz description (abs originalAmount)
              (Some transactionType) in
          Some {| t_id := newId; t_date := date; t_description := description;
                  t_amount := abs originalAmount; t_category := category;
                  t_type := transactionType; t_source := str "upload";
                  t_originalAmount := Some originalAmount;
                  t_confidence := Some (calculateConfidence description category) |}
  end.

(** ** Reading a CSV text *)

(** The loop of [parseCSVLine], lines 178-198, from a position in the
    line: the cells that are still to come, the first of them begun with
    [current]. *)
Fixpoint csvScan (line current : jstring) (inQuotes : bool) : list jstring :=
  match line with
  | [] => [trim current]
  | char :: line' =>
      if N.eqb char 34 then csvScan line' current (negb inQuotes)
      else if N.eqb char 44 && negb inQuotes then trim current :: csvScan line' [] inQuotes
      else csvScan line' (current ++ [char]) inQuotes
  end.

(** A double quote at the start or at the end of a cell *)
Definition quoteAtEnd : re := Alt (Seq Bol (Chr 34)) (Seq (Chr 34) Eol).

Definition parseCSVLine (line : jstring) : list jstring :=
  List.map (replaceAll false quoteAtEnd (fun _ => [])) (csvScan line [] false).

(** [l.findIndex(p)]: [None] is [-1]. *)
Fixpoint findIndex {A : Type} (p : A -> bool) (l : list A) : option nat :=
  match l with
  | [] => None
  | x :: l' => if p x then Some 0%nat else option_map S (findIndex p l')
  end.

(** [findColumnIndex], lines 168-176 *)
Fixpoint findColumnIndex (headers possibleNames : list jstring) : nat :=
  match possibleNames with
  | [] => 0
  | name :: possibleNames' =>
      match findIndex (fun header => includes header name || includes name header)
              headers with
      | Some index => index
      | None => findColumnIndex headers possibleNames'
      end
  end.

(** [columns[i] || columns[j]]: the cell at [i] unless it is missing or
    empty.  ([j] is 0, 1 or 2, where a row has at least three cells.) *)
Definition cellOr (columns : list jstring) (i j : nat) : jstring :=
  match List.nth_error columns i with
  | Some (c :: cell) => c :: cell
  | _ => List.nth j columns []
  end.

(** [text.split('\n').filter(line => line.trim())] *)
Definition nonBlankLines (text : jstring) : list jstring :=
  List.filter (fun line => match trim line with [] => false | _ :: _ => true end)
    (splitOn 10 text).

Section ParseCSV.
Variable h : Host.
Variable cz : Categorizer.TransactionCategorizer.
(** What [generateId()] returns for the row at an index of [lines]. *)
Variable idOfLine : nat -> jstring.

(** The row at index [i] of [lines]: [None] where the loop goes on without
    a transaction. *)
Definition parseCSVRow (dateIndex descIndex amountIndex i : nat) (line : jstring)
  : option Transaction :=
  let columns := parseCSVLine line in
  if (List.length columns <? 3)%nat then None
  else
    createTransaction h cz (idOfLine i) (cellOr columns dateIndex 0)
      (cellOr columns descIndex 1) (cellOr columns amountIndex 2).

Fixpoint parseCSVRows (dateIndex descIndex amountIndex i : nat) (rows : list jstring)
  : list Transaction :=
  match rows with
  | [] => []
  | line :: rows' =>
      match parseCSVRow dateIndex descIndex amountIndex i line with
      | Some transaction =>
          transaction :: parseCSVRows dateIndex descIndex amountIndex (S i) rows'
      | None => parseCSVRows dateIndex descIndex amountIndex (S i) rows'
      end
  end.

(** [parseCSV], lines 84-118, on the text of the file. *)
Definition parseCSV (text : jstring) : list Transaction :=
  match nonBlankLines text with
  | [] => []
  | header :: rows =>
      let headers :=
        List.map (fun h => replaceAll false (Chr 34) (fun _ => []) (trim h))
          (splitOn 44 (toLowerCase header)) in
      let dateIndex :=
        findColumnIndex headers
          (List.map str ["date"; "transaction date"; "trans date"]%string) in
      let descIndex :=
        findColumnIndex headers
          (List.map str ["description"; "memo"; "details";
                         "transaction details"]%string) in
      let amountIndex :=
        findColumnIndex headers
          (List.map str ["amount"; "debit"; "credit"; "transaction amount"]%string) in
      parseCSVRows dateIndex descIndex amountIndex 1 rows
  end.
End ParseCSV.

(** ** [parseFile], lines 44-82 *)

(** What [parseFile] reads of a [File]. *)
Record File := {
  f_name : jstring;
  f_type : jstring;
  f_size : Z
}.

(** What a call can throw: an [Error] with its message, or another value. *)
Inductive Thrown := ErrorWith (message : jstring) | NotAnError.

(** The per-format strategies that [parseFile] dispatches to. *)
Inductive Strategy := ParseCSV | ParseText | ParsePDF.

(** A computation that may throw, with the strategies it has started. *)
Definition Run (A : Type) : Type := list Strategy * (Thrown + A).

Definition ret {A} (x : A) : Run A := ([], inr x).
Definition throw {A} (e : Thrown) : Run A := ([], inl e).
Definition bind {A B} (m : Run A) (f : A -> Run B) : Run B :=
  match m with
  | (tr, inl e) => (tr, inl e)
  | (tr, inr x) => let '(tr', r) := f x in (tr ++ tr', r)
  end.
Definition catch {A} (m : Run A) (handler : Thrown -> Run A) : Run A :=
  match m with
  | (tr, inl e) => let '(tr', r) := handler e in (tr ++ tr', r)
  | (tr, inr x) => (tr, inr x)
  end.
(** starting a strategy, whose outcome is [r] *)
Definition call {A} (s : Strategy) (r : Thrown + A) : Run A := ([s], r).

#[export] Instance run_ret : MRet Run := @ret.
#[export] Instance run_bind : MBind Run := fun A B f m => bind m f.

Definition guard (failed : bool) (message : string) : Run unit :=
  if failed then throw (ErrorWith (str message)) else ret tt.

Section ParseFile.
(** The outcomes of [parseCSV], [parseText] and [parsePDF] on a file. *)
Variables parseCSV parseText parsePDF : File -> Thrown + list Transaction.

Definition parseFile (file : File) : Run (list Transaction) :=
  let fileName := toLowerCase (f_name file) in
  let fileType := f_type file in
  catch
    (guard (10 * 1024 * 1024 <? f_size file)
       "File size too large. Maximum 10MB allowed." ;;
     guard (f_size file =? 0)
       "File is empty. Please upload a file with transaction data." ;;
     transactions ←
       (if endsWith fileName (str ".csv") || jeqb fileType (str "text/csv")
        then call ParseCSV (parseCSV file)
        else if endsWith fileName (str ".txt") || jeqb fileType (str "text/plain")
        then call ParseText (parseText file)
        else if endsWith fileName (str ".pdf") || jeqb fileType (str "application/pdf")
        then call ParsePDF (parsePDF file)
        else throw (ErrorWith
               (str "Unsupported file type. Please upload CSV, TXT, or PDF files.")));
     guard (Nat.eqb (List.length transactions) 0)
       "No valid transactions found in the file. Please check the file format and content." ;;
     ret transactions)
    (fun error =>
       throw (ErrorWith
                match error with
                | ErrorWith message => message
                | NotAnError => str "Failed to parse file"
                end)).
End ParseFile.

End SimpleParser.

(* ================================================================== *)
(** * app/api/transactions/upload/route.ts *)
(* ================================================================== *)

Module UploadRoute.
Import SimpleParser.

(** [NextResponse.json(body, { status })]: the status with the [error]
    message of the body, or the successful answer (status 200) with its
    [transactions] and their [count]. *)
Inductive Response :=
| Failure (status : Z) (error : jstring)
| Parsed (transactions : list Transaction) (count : Z).

Definition allowedTypes : list string :=
  [ "text/csv"; "application/pdf"; "text/plain"; "application/vnd.ms-excel";
    "application/vnd.openxmlformats-officedocument.spreadsheetml.sheet" ]%string.

Definition allowedExtensions : list string :=
  [".csv"; ".pdf"; ".txt"; ".xls"; ".xlsx"]%string.

(** [s.lastIndexOf(c)] for one code unit: [-1] when [c] does not occur. *)
Fixpoint lastIndexFrom (c : N) (s : jstring) (i last : Z) : Z :=
  match s with
  | [] => last
  | x :: s' => lastIndexFrom c s' (i + 1) (if N.eqb x c then i else last)
  end.

Definition lastIndexOf (s : jstring) (c : N) : Z := lastIndexFrom c s 0 (-1).

(** [file.name.toLowerCase().substring(file.name.lastIndexOf('.'))];
    [substring] takes a negative start for 0. *)
Definition fileExtension (name : jstring) : jstring :=
  substringFrom (Z.to_nat (Z.max 0 (lastIndexOf name 46))) (toLowerCase name).

Section Post.
(** The outcomes of the three strategies of the parser on a file. *)
Variables parseCSV parseText parsePDF : File -> Thrown + list Transaction.

(** [POST], lines 8-94, from the session and the [file] entry of the
    form (absent: [None]), with the strategies that were started.
    [getServerSession] and [request.formData] are taken to return. *)
Definition POST (session : bool) (file : option File) : list Strategy * Response :=
  if negb session then ([], Failure 401 (str "Unauthorized"))
  else
    match file with
    | None => ([], Failure 400 (str "No file provided"))
    | Some file =>
        if 10 * 1024 * 1024 <? f_size file
        then ([], Failure 400 (str "File size too large. Maximum 10MB allowed."))
        else if negb (arrIncludes (List.map str allowedTypes) (f_type file))
                && negb (arrIncludes (List.map str allowedExtensions)
                           (fileExtension (f_name file)))
        then ([], Failure 400
                    (str "Unsupported file type. Please upload CSV, PDF, or TXT files."))
        else
          match parseFile parseCSV parseText parsePDF file with
          | (started, inr transactions) =>
              (started, Parsed transactions (Z.of_nat (List.length transactions)))
          | (started, inl (ErrorWith message)) => (started, Failure 500 message)
          | (started, inl NotAnError) =>
              (started, Failure 500 (str "Failed to process file"))
          end
    end.
End Post.

End UploadRoute.

(* ================================================================== *)
(** * The transaction store *)
(* ================================================================== *)

Module Store.

(** The fields of the singleton.  Saving to local storage and notifying the
    listeners leave them unchanged and are not represented. *)
Record TransactionStore := {
  transactions : list Transaction;
  debitCardBalance : number
}.

Definition empty : TransactionStore :=
  {| transactions := []; debitCardBalance := Num 0 |}.

Definition withTransactions (s : TransactionStore) (l : list Transaction)
  : TransactionStore :=
  {| transactions := l; debitCardBalance := debitCardBalance s |}.

(** ** Duplicates *)

(** [normalize] inside [calculateDescriptionSimilarity] *)
Definition notAlnumSpace : re :=
  Cls (fun c => negb (isLower c || isDigit c || isSpace c)).

Definition normalize (s : jstring) : jstring :=
  trim
    (replaceAll false (plus space) (fun _ => str " ")
       (replaceAll false notAlnumSpace (fun _ => []) (toLowerCase s))).

Definition significantWords (normalized : jstring) : list jstring :=
  List.filter (fun w => (2 <? List.length w)%nat) (splitOn 32 normalized).

Definition setOf (l : list jstring) : gset jstring := list_to_set l.

(** [calculateDescriptionSimilarity], lines 371-397 *)
Definition calculateDescriptionSimilarity (desc1 desc2 : jstring) : Q :=
  let normalized1 := normalize desc1 in
  let normalized2 := normalize desc2 in
  if jeqb normalized1 normalized2 then 1%Q
  else
    let words1 := significantWords normalized1 in
    let words2 := significantWords normalized2 in
    match words1, words2 with
    | [], [] => 1%Q
    | [], _ | _, [] => 0%Q
    | _, _ =>
        let commonWords := List.filter (fun w => arrIncludes words2 w) words1 in
        let totalWords := size (setOf (words1 ++ words2)) in
        (inject_Z (Z.of_nat (List.length commonWords))
         / inject_Z (Z.of_nat totalWords))%Q
    end.

Definition dateThreshold : Z := 24 * 60 * 60 * 1000.
Definition amountThreshold : Q := 0.01%Q.

(** The callback of [some] in [isDuplicateTransaction], lines 315-337.
    [existing.amount - newTransaction.amount] and the literal [0.01] are
    doubles, and the rounding decides the test for amounts one cent apart.
    The date difference is a difference of integers, exact in doubles.  The
    similarity is compared with 4/5 as a rational: a quotient of two word
    counts and the double nearest to it lie on the same side of 0.8
    (lemma [StoreSpec.similarity_test_rounding]). *)
Definition duplicateOf (newTransaction existing : Transaction) : bool :=
  let dateDiff := Z.abs (t_date existing - t_date newTransaction) in
  if dateThreshold <? dateDiff then false
  else
    let amountDiff := abs (subDouble (t_amount existing) (t_amount newTransaction)) in
    if gt amountDiff (asDouble (Num amountThreshold)) then false
    else
      let similarity :=
        calculateDescriptionSimilarity (t_description existing)
          (t_description newTransaction) in
      if negb (Qle_bool 0.8 similarity) then false
      else if negb (TxType_eqb (t_type existing) (t_type newTransaction)) then false
      else true.

Definition isDuplicateTransaction (s : TransactionStore) (newTransaction : Transaction)
  : bool :=
  List.existsb (duplicateOf newTransaction) (transactions s).

(** ** Adding, updating, deleting *)

(** The loop of [addTransactions], lines 47-72: each new transaction is
    re-categorised and kept unless it duplicates a transaction already in
    the store. *)
Definition recategorize (cz : Categorizer.TransactionCategorizer) (t : Transaction)
  : Transaction :=
  setCategory
    (Categorizer.categorizeTransaction cz (t_description t) (t_amount t)
       (Some (t_type t))) t.

Definition validTransactions (cz : Categorizer.TransactionCategorizer)
    (s : TransactionStore) (newTransactions : list Transaction) : list Transaction :=
  List.filter (fun t => negb (isDuplicateTransaction s t))
    (List.map (recategorize cz) newTransactions).

Definition addTransactions (cz : Categorizer.TransactionCategorizer)
    (s : TransactionStore) (newTransactions : list Transaction) : TransactionStore :=
  withTransactions s (transactions s ++ validTransactions cz s newTransactions).

Definition deleteTransaction (s : TransactionStore) (id : jstring) : TransactionStore :=
  withTransactions s (List.filter (fun t => negb (jeqb (t_id t) id)) (transactions s)).

(** [Partial<Transaction>] *)
Record Updates := {
  u_id : option jstring;
  u_date : option Z;
  u_description : option jstring;
  u_amount : option number;
  u_category : option jstring;
  u_type : option TxType;
  u_source : option jstring;
  u_originalAmount : option number;
  u_confidence : option number
}.

Definition noUpdates : Updates :=
  {| u_id := None; u_date := None; u_description := None; u_amount := None;
     u_category := None; u_type := None; u_source := None;
     u_originalAmount := None; u_confidence := None |}.

(** [{ ...t, ...updates }] *)
Definition spread (t : Transaction) (u : Updates) : Transaction :=
  {| t_id := default (t_id t) (u_id u);
     t_date := default (t_date t) (u_date u);
     t_description := default (t_description t) (u_description u);
     t_amount := default (t_amount t) (u_amount u);
     t_category := default (t_category t) (u_category u);
     t_type := default (t_type t) (u_type u);
     t_source := default (t_source t) (u_source u);
     t_originalAmount :=
       match u_originalAmount u with Some x => Some x | None => t_originalAmount t end;
     t_confidence :=
       match u_confidence u with Some x => Some x | None => t_confidence t end |}.

(** [updateTransaction], lines 99-106: [this.transactions[index] = ...] at
    the first index whose [id] matches *)
Fixpoint updateFirst (id : jstring) (u : Updates) (l : list Transaction)
  : list Transaction :=
  match l with
  | [] => []
  | t :: l' => if jeqb (t_id t) id then spread t u :: l' else t :: updateFirst id u l'
  end.

Definition updateTransaction (s : TransactionStore) (id : jstring) (u : Updates)
  : TransactionStore :=
  withTransactions s (updateFirst id u (transactions s)).

(** [addManualTransaction], lines 295-309; [newId] is what [generateId()]
    returns. *)
Definition addManualTransaction (cz : Categorizer.TransactionCategorizer)
    (s : TransactionStore) (newId : jstring) (transaction : Transaction)
  : TransactionStore :=
  let newTransaction :=
    {| t_id := newId; t_date := t_date transaction;
       t_description := t_description transaction;
       t_amount := t_amount transaction; t_category := t_category transaction;
       t_type := t_type transaction; t_source := str "manual";
       t_originalAmount := t_originalAmount transaction;
       t_confidence := t_confidence transaction |} in
  let category :=
    Categorizer.categorizeTransaction cz (t_description newTransaction)
      (t_amount newTransaction) (Some (t_type newTransaction)) in
  withTransactions s (transactions s ++ [setCategory category newTransaction]).

(** ** Queries *)

Definition getTransactionsByDateRange (s : TransactionStore) (startDate endDate : Z)
  : list Transaction :=
  List.filter (fun t => (startDate <=? t_date t) && (t_date t <=? endDate))
    (transactions s).

(** [getAllTransactions], lines 74-76: a sorted copy, the latest date
    first. *)
Definition getAllTransactions (s : TransactionStore) : list Transaction :=
  stableSort (descending t_date) (transactions s).

Definition isExpense (t : Transaction) : bool := TxType_eqb (t_type t) expense.
Definition isIncome (t : Transaction) : bool := TxType_eqb (t_type t) income.

(** [isCreditCardPayment], lines 400-411 *)
Definition isCreditCardPayment (description : jstring) : bool :=
  SimpleParser.anyIncluded (toLowerCase description)
    [ "payment from chk"; "conf#"; "chk 9192"; "online payment"; "autopay";
      "payment - thank you"; "payment thank you"; "electronic payment";
      "bill payment" ]%string.

(** [isReturnOrRefund], lines 414-433 *)
Definition isReturnOrRefund (description : jstring) : bool :=
  SimpleParser.anyIncluded (toLowerCase description)
    [ "refund"; "return"; "credit memo"; "credit adjustment"; "cashback";
      "cash back"; "reward"; "rebate"; "reversal"; "void"; "chargeback";
      "dispute credit"; "promotional credit"; "statement credit";
      "merchant credit"; "store credit"; "purchase return" ]%string.

(** [l.reduce((sum, t) => sum + t.amount, 0)] *)
Definition total (l : list Transaction) : number := sum (List.map t_amount l).

Record CategorySummary := {
  cs_category : jstring;
  cs_amount : number;
  cs_percentage : number;
  cs_count : Z
}.

Record MonthlyTrend := {
  mt_month : jstring;
  mt_income : number;
  mt_expenses : number;
  mt_net : number
}.

Record FinancialSummary := {
  totalIncome : number;
  totalExpenses : number;
  totalSpending : number;
  netIncome : number;
  monthlyIncome : number;
  monthlyExpenses : number;
  lastMonthExpenses : number;
  fs_debitCardBalance : number;
  thisMonthSpending : number;
  lastMonthSpending : number;
  creditCardBalance : number;
  topCategories : list CategorySummary;
  monthlyTrends : list MonthlyTrend
}.

(** The date windows that [getFinancialSummary] derives from [new Date()]:
    the current and the previous calendar month, the 19th-to-19th cycle, and
    the six months of the trend (oldest first) with their labels. *)
Record Windows := {
  currentMonthStart : Z; currentMonthEnd : Z;
  lastMonthStart : Z; lastMonthEnd : Z;
  cycleStart : Z; cycleEnd : Z;
  trendMonths : list (Z * Z * jstring)
}.

(** The [Map] from category to running totals, in insertion order. *)
Fixpoint bump (cat : jstring) (amt : number) (m : list (jstring * (number * Z)))
  : list (jstring * (number * Z)) :=
  match m with
  | [] => [(cat, (add (Num 0) amt, 0 + 1))]
  | (c, (a, n)) :: m' =>
      if jeqb c cat then (c, (add a amt, n + 1)) :: m'
      else (c, (a, n)) :: bump cat amt m'
  end.

Definition categoryTotals (l : list Transaction) : list (jstring * (number * Z)) :=
  List.fold_left (fun m t => bump (t_category t) (t_amount t) m) l [].

(** [getFinancialSummary], lines 108-234.  First its three filters over
    all transactions. *)
Definition actualExpenses (s : TransactionStore) : list Transaction :=
  List.filter (fun t => isExpense t && negb (isCreditCardPayment (t_description t)))
    (transactions s).

Definition returns (s : TransactionStore) : list Transaction :=
  List.filter (fun t => isIncome t && isReturnOrRefund (t_description t))
    (transactions s).

Definition otherIncome (s : TransactionStore) : list Transaction :=
  List.filter (fun t => isIncome t && negb (isReturnOrRefund (t_description t)))
    (transactions s).

Definition getFinancialSummary (s : TransactionStore) (w : Windows) : FinancialSummary :=
  let currentMonthTransactions :=
    getTransactionsByDateRange s (currentMonthStart w) (currentMonthEnd w) in
  let lastMonthTransactions :=
    getTransactionsByDateRange s (lastMonthStart w) (lastMonthEnd w) in
  let thisMonthSpending := total (List.filter isExpense currentMonthTransactions) in
  let lastMonthSpending := total (List.filter isExpense lastMonthTransactions) in
  let cycleTransactions := getTransactionsByDateRange s (cycleStart w) (cycleEnd w) in
  let creditCardBalance := total (List.filter isExpense cycleTransactions) in
  let actualExpenses := actualExpenses s in
  let returns := returns s in
  let otherIncome := otherIncome s in
  let totalExpenses := total actualExpenses in
  let totalReturns := total returns in
  let totalIncome := total otherIncome in
  let totalSpending := add totalExpenses totalReturns in
  let monthlyIncome :=
    total (List.filter (fun t => isIncome t && negb (isReturnOrRefund (t_description t)))
             currentMonthTransactions) in
  let lastMonthActualExpenses :=
    total (List.filter (fun t => isExpense t && negb (isCreditCardPayment (t_description t)))
             lastMonthTransactions) in
  let lastMonthReturns :=
    total (List.filter (fun t => isIncome t && isReturnOrRefund (t_description t))
             lastMonthTransactions) in
  let lastMonthExpenses := sub lastMonthActualExpenses lastMonthReturns in
  let monthlyExpenses :=
    total (List.filter (fun t => isExpense t && negb (isCreditCardPayment (t_description t)))
             currentMonthTransactions) in
  let topCategories :=
    List.firstn 5
      (stableSort (fun a b => gt (sub (cs_amount b) (cs_amount a)) (Num 0))
         (List.map
            (fun '(cat, (amt, n)) =>
               {| cs_category := cat; cs_amount := amt; cs_count := n;
                  cs_percentage :=
                    if gt totalExpenses (Num 0)
                    then mul (div amt totalExpenses) (Num 100) else Num 0 |})
            (categoryTotals actualExpenses))) in
  let monthlyTrends :=
    List.map
      (fun '(monthStart, monthEnd, label) =>
         let monthTransactions := getTransactionsByDateRange s monthStart monthEnd in
         let monthIncome := total (List.filter isIncome monthTransactions) in
         let monthExpenses := total (List.filter isExpense monthTransactions) in
         {| mt_month := label; mt_income := monthIncome; mt_expenses := monthExpenses;
            mt_net := sub monthIncome monthExpenses |})
      (trendMonths w) in
  {| totalIncome := totalIncome;
     totalExpenses := sub totalExpenses totalReturns;
     totalSpending := totalSpending;
     netIncome := sub totalIncome (sub totalExpenses totalReturns);
     monthlyIncome := monthlyIncome;
     monthlyExpenses := monthlyExpenses;
     lastMonthExpenses := lastMonthExpenses;
     fs_debitCardBalance := debitCardBalance s;
     topCategories := topCategories;
     monthlyTrends := monthlyTrends;
     thisMonthSpending := thisMonthSpending;
     lastMonthSpending := lastMonthSpending;
     creditCardBalance := creditCardBalance |}.

End Store.

(* ================================================================== *)
(** * pdf-transaction-parser.ts *)
(* ================================================================== *)

Module PdfParser.

Import SimpleParser.

(** ** Amounts *)

(** The dashes that [createTransaction] takes for a minus sign:
    [-], U+2014, U+2013 and U+2212. *)
Definition hyphen : N := 45.
Definition emDash : N := 8212.
Definition enDash : N := 8211.
Definition minusSign : N := 8722.
Definition dashes : list N := [hyphen; emDash; enDash; minusSign].

(** [[$\s-]] and [[$,\s]] *)
Definition dollarSpaceDash : re :=
  Cls (fun c => N.eqb c 36 || isSpace c || N.eqb c 45).

(** The European decimal comma: [741,25] becomes [741.25]. *)
Definition decimalComma (amountStr : jstring) : jstring :=
  if includes amountStr (str ",") && negb (includes amountStr (str ".")) then
    if test false (seqs [plus digit; lit ","; rep 2 digit; Eol])
         (replaceAll false dollarSpaceDash (fun _ => []) amountStr)
    then replaceFirst false (lit ",") (fun _ => str ".") amountStr
    else amountStr
  else amountStr.

(** The table [ocrCorrections].  (A key inherited from [Object.prototype],
    such as [constructor], makes the code throw and return [null]; here such
    a key is not in the table, is not a number either, and gives [null] by
    the [NaN] test.) *)
Definition ocrCorrections : list (string * string) :=
  [ ("ail", "7.41");
      ("bil", "8.11");
      ("cil", "5.11");
      ("dll", "9.11");
      ("ell", "6.11");
      ("lil", "1.11");
      ("mil", "11.11");
      ("nil", "0.11");
      ("oil", "0.11");
      ("pil", "7.11");
      ("ril", "9.11");
      ("sil", "5.11");
      ("til", "1.11");
      ("vil", "7.11");
      ("wil", "11.11");
      ("xil", "8.11");
      ("yil", "9.11");
      ("zil", "2.11") ]%string.

Fixpoint lookupCorrection (tbl : list (string * string)) (s : jstring) : option jstring :=
  match tbl with
  | [] => None
  | (k, v) :: tbl' => if jeqb (str k) s then Some (str v) else lookupCorrection tbl' s
  end.

Definition allDigits (n : nat) : re := seqs [Bol; rep n digit; Eol].

(** The reconstruction of a missing decimal point. *)
Definition restoreDecimalPoint (cleanAmountStr : jstring) : jstring :=
  if includes cleanAmountStr (str ".") then cleanAmountStr
  else
    let splitCents :=
      sliceButLast 2 cleanAmountStr ++ str "." ++ sliceLast 2 cleanAmountStr in
    if test false (allDigits 4) cleanAmountStr && (999 <? digitsValue cleanAmountStr)
    then splitCents
    else if test false (allDigits 3) cleanAmountStr
            && (100 <=? digitsValue cleanAmountStr)
    then splitCents
    else if test false (allDigits 2) cleanAmountStr
            && (digitsValue cleanAmountStr <? 100)
    then str "0." ++ cleanAmountStr
    else if test false (allDigits 1) cleanAmountStr
    then cleanAmountStr ++ str ".00"
    else if test false (seqs [Bol; atLeast 5 digit; Eol]) cleanAmountStr
    then splitCents
    else cleanAmountStr.

(** The text that is handed to the sign test: everything that
    [createTransaction] does to [amountStr] before it looks for a dash. *)
Definition cleanAmount (amountStr : jstring) : jstring :=
  let amountStr := replaceFirst false (Seq Bol (lit "=")) (fun _ => []) amountStr in
  let amountStr := decimalComma amountStr in
  let cleanAmountStr := replaceAll false dollarCommaSpace (fun _ => []) amountStr in
  let cleanAmountStr :=
    match lookupCorrection ocrCorrections cleanAmountStr with
    | Some v => v
    | None => cleanAmountStr
    end in
  restoreDecimalPoint cleanAmountStr.

Definition startsWithDash (s : jstring) : bool :=
  match s with
  | c :: _ => List.existsb (N.eqb c) dashes
  | [] => false
  end.

(** The number read from the cleaned text, sign applied; what the code
    calls [originalAmount] once the sign is applied. *)
Definition signedAmount (cleanAmountStr : jstring) : number :=
  if startsWithDash cleanAmountStr
  then neg (parseFloat (substringFrom 1 cleanAmountStr))
  else parseFloat cleanAmountStr.

(** The amount part of [createTransaction] (from its first line to the test
    that rejects the amount): [None] is the [return null]. *)
Definition parseAmount (amountStr : jstring) : option number :=
  let originalAmount := signedAmount (cleanAmount amountStr) in
  if isNaN originalAmount || strictEq originalAmount (Num 0) then None
  else Some originalAmount.

(** ** Classification of a description *)

Definition returnKeywords : list string :=
  [ "refund"; "return"; "credit memo"; "credit adjustment"; "cashback";
      "cash back"; "reward"; "rebate"; "adjustment credit"; "reversal";
      "void"; "chargeback"; "dispute credit"; "promotional credit";
      "statement credit"; "merchant credit"; "store credit";
      "purchase return" ]%string.

Definition returnPatterns : list re :=
  [ seqs [lit "return"; plus space];
    seqs [lit "refund"; plus space];
    seqs [lit "credit"; plus space; lit "memo"];
    seqs [lit "void"; plus space];
    seqs [lit "reversal"; plus space];
    seqs [lit "adjustment"; plus space; lit "cr"];
    seqs [plus space; lit "cr"; star space; Eol];
    seqs [plus space; lit "credit"; star space; Eol] ].

(** [isReturnTransaction], lines 713-760 *)
Definition isReturnTransaction (description : jstring) (amount : number) : bool :=
  let lowerDesc := toLowerCase description in
  if lt amount (Num 0) then true
  else if anyIncluded lowerDesc returnKeywords then true
  else if List.existsb (fun pattern => test true pattern description) returnPatterns
  then true
  else false.

Definition strictPaymentKeywords : list string :=
  [ "payments and other credits"; "purchases and adjustments";
      "fees charged this period"; "interest charged this period";
      "total minimum payment"; "total payments and other credits";
      "total purchases and adjustments"; "days in billing period";
      "average daily balance"; "total credit limit"; "available credit";
      "credit line increase"; "minimum payment due"; "current balance";
      "new balance"; "previous balance"; "payment due date";
      "late payment warning"; "statement closing date"; "billing cycle";
      "account summary"; "customer service"; "contact us";
      "for cash advance"; "cash credit line"; "portion of credit line";
      "year-to-date totals"; "confirmation number"; "reference number";
      "conf#"; "ref#"; "payment from chk"; "payment - thank you";
      "payment thank you"; "autopay payment"; "online payment received";
      "check payment received"; "electronic payment received";
      "bill payment received" ]%string.

(** [isPaymentTransaction], lines 767-852 *)
Definition isPaymentTransaction (description : jstring) : bool :=
  let lowerDesc := trim (toLowerCase description) in
  if (List.length lowerDesc <? 3)%nat
     || test false (seqs [Bol; plus digit; star space; Eol]) lowerDesc
     || jeqb lowerDesc (str "transaction")
  then true
  else if List.existsb
            (fun keyword =>
               jeqb lowerDesc (str keyword)
               || startsWith lowerDesc (str keyword ++ str " ")
               || endsWith lowerDesc (str " " ++ str keyword))
            strictPaymentKeywords
  then true
  else if test false
            (seqs [Bol; alts [lit "total"; lit "subtotal"; lit "balance"; lit "amount"];
                   space]) lowerDesc
  then true
  else if test false
            (seqs [Bol; star space;
                   alts [lit "date"; lit "description"; lit "amount";
                         lit "transaction"; lit "account"];
                   space]) lowerDesc
  then true
  else if (1 <? countAll false (lit "$") lowerDesc)%nat then true
  else false.

(** [categorizeTransaction(description, isIncome)] of the PDF parser, lines
    906-956 *)
Definition categorizeTransaction (description : jstring) (isIncome : bool) : jstring :=
  let desc := toLowerCase description in
  let has := anyIncluded desc in
  if isIncome then
    if has ["salary"; "payroll"; "wage"]%string then str "Salary"
    else if has ["freelance"; "contract"]%string then str "Freelance"
    else if has ["refund"; "return"]%string then str "Refunds"
    else if has ["dividend"; "interest"; "investment"]%string
    then str "Investment Returns"
    else str "Other Income"
  else
    if has ["restaurant"; "food"; "cafe"; "pizza"; "mcdonald"; "starbucks";
            "dining"; "lunch"; "dinner"; "burger"; "taco"]%string
    then str "Food & Dining"
    else if has ["gas"; "fuel"; "uber"; "lyft"; "taxi"; "parking"; "metro"; "bus";
                 "train"; "shell"; "exxon"; "bp"]%string
    then str "Transportation"
    else if has ["grocery"; "supermarket"; "walmart"; "target"; "amazon";
                 "shopping"; "store"; "costco"; "kroger"]%string
    then str "Shopping"
    else if has ["electric"; "water"; "gas bill"; "internet"; "phone"; "utility";
                 "cable"; "cell"; "verizon"; "att"; "tmobile"]%string
    then str "Bills & Utilities"
    else if has ["movie"; "netflix"; "spotify"; "entertainment"; "game"; "music";
                 "theater"; "concert"]%string
    then str "Entertainment"
    else if has ["doctor"; "hospital"; "pharmacy"; "medical"; "health"; "dental";
                 "cvs"; "walgreens"]%string
    then str "Healthcare"
    else if has ["hotel"; "flight"; "airbnb"; "travel"; "vacation"; "airline";
                 "rental car"; "booking"]%string
    then str "Travel"
    else if has ["school"; "university"; "education"; "tuition"; "books";
                 "college"]%string
    then str "Education"
    else if has ["fee"; "charge"; "penalty"; "atm"; "overdraft";
                 "maintenance"]%string
    then str "Fees & Charges"
    else str "Other".

(** ** Dates *)

Definition monthNames : list string :=
  ["jan"; "feb"; "mar"; "apr"; "may"; "jun"; "jul"; "aug"; "sep"; "oct"; "nov";
   "dec"]%string.

Definition fmtMonthName : re :=
  seqs [Grp 1 (alts (List.map lit
          ["Jan"; "Feb"; "Mar"; "Apr"; "May"; "Jun"; "Jul"; "Aug"; "Sep"; "Oct";
           "Nov"; "Dec"]%string));
        plus space; Grp 2 (repRange 1 2 digit); opt (lit ","); plus space;
        Grp 3 (rep 4 digit)].

(** [monthNames.indexOf(name) + 1] *)
Fixpoint monthNumber (names : list string) (name : jstring) (i : Z) : Z :=
  match names with
  | [] => 0
  | n :: names' => if jeqb (str n) name then i else monthNumber names' name (i + 1)
  end.

Definition tryMonthName (h : Host) (dateStr : jstring) : option Z :=
  match exec true fmtMonthName dateStr with
  | None => None
  | Some m =>
      let month := monthNumber monthNames (toLowerCase (group 1 m)) 1 in
      let day := digitsValue (group 2 m) in
      let year := digitsValue (group 3 m) in
      newDate h year (month - 1) day
  end.

(** [parseDate] of the PDF parser, lines 854-904 *)
Definition parseDate (h : Host) (dateStr : jstring) : option Z :=
  match tryFormat h fmtSlash24 false dateStr with
  | Some d => Some d
  | None =>
  match tryFormat h fmtIso true dateStr with
  | Some d => Some d
  | None =>
  match tryFormat h fmtSlash4 true dateStr with
  | Some d => Some d
  | None =>
  match tryMonthName h dateStr with
  | Some d => Some d
  | None => dateOfString h dateStr
  end end end end.

(** ** [createTransaction], lines 576-711 *)

(** [newId] is what [generateId()] returns. *)
Definition createTransaction (h : Host) (newId : jstring)
    (dateStr description amountStr : jstring) (allowPayments : bool)
  : option Transaction :=
  let dateStr := trim dateStr in
  let description := trim description in
  match parseAmount amountStr with
  | None => None
  | Some originalAmount =>
      if negb allowPayments && isPaymentTransaction description then None
      else
        match parseDate h dateStr with
        | None => None
        | Some date =>
            if (List.length description <? 2)%nat then None
            else
              let isReturn := isReturnTransaction description originalAmount in
              let transactionType := if isReturn then income else expense in
              let category := categorizeTransaction description isReturn in
              Some {| t_id := newId; t_date := date; t_description := description;
                      t_amount := abs originalAmount; t_category := category;
                      t_type := transactionType; t_source := str "upload";
                      t_originalAmount := None; t_confidence := None |}
        end
  end.

(** ** [removeDuplicates], lines 1347-1379 *)

Section RemoveDuplicates.
(** [Date.prototype.toISOString] on a time value and
    [Number.prototype.toFixed] with two digits. *)
Variable toISOString : Z -> jstring.
Variable toFixed2 : number -> jstring.

Definition cleanedDescription (t : Transaction) : jstring :=
  trim (replaceAll false (plus space) (fun _ => str " ")
          (toLowerCase (t_description t))).

Definition exactKey (t : Transaction) : jstring :=
  toISOString (t_date t) ++ str "-" ++ toFixed2 (t_amount t) ++ str "-"
  ++ cleanedDescription t.

Definition fuzzyKey (t : Transaction) : jstring :=
  toISOString (t_date t) ++ str "-" ++ cleanedDescription t.

(** One turn of the loop: whether [transaction] is pushed to [unique]
    (and entered in [seen] under its exact key). *)
Definition keeps (seen : gmap jstring Transaction) (transaction : Transaction)
  : bool :=
  match seen !! exactKey transaction with
  | Some _ => false
  | None =>
      match seen !! fuzzyKey transaction with
      | Some fuzzyMatch =>
          if strictEq (t_amount transaction) (t_amount fuzzyMatch)
             && negb (jeqb (t_description transaction) (t_description fuzzyMatch))
          then false
          else true
      | None => true
      end
  end.

Fixpoint dedupe (seen : gmap jstring Transaction) (l : list Transaction)
  : list Transaction :=
  match l with
  | [] => []
  | transaction :: l' =>
      if keeps seen transaction
      then transaction :: dedupe (<[exactKey transaction := transaction]> seen) l'
      else dedupe seen l'
  end.

Definition removeDuplicates (transactions : list Transaction) : list Transaction :=
  dedupe ∅ transactions.
End RemoveDuplicates.

(** ** The Bank of America path *)

(** [$1] and [$2] in a replacement string *)
Definition g1 (m : found) : jstring := group 1 m.
Definition g2 (m : found) : jstring := group 2 m.
Definition const (s : string) (_ : found) : jstring := str s.

Definition zeroOrO : re := oneOf "o0".

(** [([0-9]+)NN$] rewritten to [$1.NN] *)
Definition centsAtEnd (cents : string) : re * (found -> jstring) :=
  (seqs [Grp 1 (plus digit); lit cents; Eol],
   fun m => g1 m ++ str "." ++ str cents).

(** The replacements of [cleanOCRLine], in order; all carry the [g] flag. *)
Definition ocrLineFixes : list (re * (found -> jstring)) :=
  [ (seqs [zeroOrO; lit "7n"; zeroOrO], const "07/10");
    (seqs [lit "o7n"; zeroOrO], const "07/10");
    (lit "o7ns", const "07/18");
    (lit "O77", const "07/17");
    (seqs [lit "om"; plus space; lit "7/17"], const "07/17");
    (seqs [zeroOrO; lit "7/"; zeroOrO; lit "7"], const "07/07");
    (lit "o7no", const "07/10");
    (lit "07106", const "07/06");
    (seqs [lit "om"; plus space; lit "7/"], const "07/");
    (lit "o7/22", const "07/22");
    (seqs [lit "o7ns"; plus space; lit "O77"], const "07/18 07/17");
    (seqs [lit "O77"; plus space; lit "07/18"], const "07/17 07/18");
    (seqs [lit "on"; plus space; lit "07/"], const "07/");
    (seqs [lit "omg"; plus space; lit "07/"], const "07/");
    (lit "IBI*FABLETICS.COM", const "IBI*FABLETICS.COM");
    (lit "WWW.PACSUN.COM", const "WWW.PACSUN.COM");
    (lit "AMAZON MKTPL*", const "AMAZON MKTPLACE");
    (lit "DCCCD College Online", const "DCCCD COLLEGE ONLINE");
    (lit "McDonald's", const "MCDONALDS");
    (seqs [lit "="; Grp 1 digit], g1);
    (seqs [Grp 1 digit; lit ","; Grp 2 (seqs [digit; digit; star space; Eol])],
     fun m => g1 m ++ str "." ++ g2 m);
    (seqs [lit "-"; Grp 1 (plus digit); Eol], fun m => str " -" ++ g1 m);
    (seqs [Grp 1 (repRange 1 3 digit); Grp 2 (seqs [rep 2 digit; star space; Eol])],
     fun m =>
       if (List.length (matched m) <=? 4)%nat && negb (includes (matched m) (str "."))
       then g1 m ++ str "." ++ g2 m
       else matched m);
    (seqs [lit "ail"; Eol], const "7.41");
    (seqs [lit "bil"; Eol], const "8.11");
    (seqs [lit "cil"; Eol], const "5.11");
    centsAtEnd "39"; centsAtEnd "11"; centsAtEnd "21"; centsAtEnd "63";
    centsAtEnd "83"; centsAtEnd "47"; centsAtEnd "15"; centsAtEnd "29";
    centsAtEnd "56"; centsAtEnd "59";
    (oneOfUnits [emDash; enDash; minusSign], const "-");
    (plus space, const " ") ].

(** [cleanOCRLine], lines 1624-1678 *)
Definition cleanOCRLine (line : jstring) : jstring :=
  trim (List.fold_left (fun l fix_ => replaceAll false (fst fix_) (snd fix_) l)
          ocrLineFixes line).

(** [isBankOfAmericaNonTransactionLine], lines 1680-1801 *)
Definition isBankOfAmericaNonTransactionLine (line : jstring) : bool :=
  let lowerLine := trim (toLowerCase line) in
  let has k := includes lowerLine (str k) in
  if (List.length (trim line) <? 5)%nat then true
  else if anyIncluded lowerLine
            ["payments and other credits"; "purchases and adjustments";
             "interest charged"; "fees charged"]%string
  then true
  else if startsWith lowerLine (str "total ")
          || anyIncluded lowerLine
               ["for this period"; "year to date"; "average daily";
                "billing cycle"]%string
  then true
  else if has "transaction"%string && has "date"%string
          || has "posting"%string && has "date"%string
          || has "reference"%string && has "number"%string
          || has "account"%string && has "number"%string
  then true
  else if anyIncluded lowerLine
            ["p.o. box"; "wilmington"; "dallas tx"; "prosper tx"; "dahlia garden";
             "customer service"; "www."; "1.800."; "mail payment";
             "billing inqui"]%string
  then true
  else if anyIncluded lowerLine
            ["visa signature"; "account#"; "june 23 - july 22"; "may 23- june 22";
             "new balance total"; "payment due date"; "late payment warning";
             "minimum payment"]%string
  then true
  else if anyIncluded lowerLine
            ["copyright"; "bank of america corporation"; "member fdic";
             "equal housing"]%string
  then true
  else if anyIncluded lowerLine
            ["interest charge calculation"; "annual percentage rate"; "promotional";
             "balance transfers"; "cash advances"; "variable rate"; "%v ";
             "apr type definitions"; "type of annual"]%string
  then true
  else if anyIncluded lowerLine
            ["reward summary"; "cash back earned"; "cash back redeemed";
             "cash back available"; "make the most of your";
             "rewards program today"]%string
  then true
  else if anyIncluded lowerLine
            ["important messages"; "congratulations";
             "credit limit has been increased"; "partner rewards program";
             "shell gas discount"; "fuel rewards"; "security meter";
             "mobile banking"; "bofa.com"; "qrc feature"]%string
  then true
  else if anyIncluded lowerLine
            ["cash credit line"; "for cash"; "portion of credit available";
             "total credit line"; "total credit available"]%string
  then true
  else if has "page "%string
          || test false
               (seqs [Bol; atLeast 3 (Cls (fun c => isLower c || isDigit c));
                      lit "-"; atLeast 2 digit; lit "-"; atLeast 2 digit]) lowerLine
          || test false (seqs [Bol; atLeast 7 digit; Eol]) lowerLine
  then true
  else false.

(** The two sections of the statement. *)
Inductive SectionName := credits | expenses.

(** How a produced transaction is typed by its section (the end of both
    line parsers). *)
Definition forceBySection (section : SectionName) (t : Transaction) : Transaction :=
  match section with
  | credits => setCategory (str "Refunds") (setType income t)
  | expenses => setType expense t
  end.

(** The test for a payment to the card issuer, as applied to a lower-cased
    line or description. *)
Definition mentionsCardPayment (lower : jstring) : bool :=
  includes lower (str "payment from chk")
  || includes lower (str "online payment from")
  || includes lower (str "conf#").

(** [[-−$]?\d+\.\d{2}] *)
Definition altAmount : re :=
  seqs [opt (Cls (fun c => N.eqb c hyphen || N.eqb c minusSign || N.eqb c 36));
        plus digit; lit "."; rep 2 digit].

Definition mmdd : re := seqs [rep 2 digit; lit "/"; rep 2 digit].

Definition altPatterns : list re :=
  [ seqs [Bol; Grp 1 mmdd; plus space; Grp 2 mmdd; plus space; Grp 3 (plusLazy dot);
          plus space; Grp 4 altAmount; star space; Eol];
    seqs [Bol; Grp 1 mmdd; plus space; Grp 2 (plusLazy dot); plus space;
          Grp 3 altAmount; star space; Eol];
    seqs [Bol; Grp 1 (plusLazy dot); plus space; Grp 2 altAmount; star space; Eol] ].

Section BankOfAmerica.
Variable h : Host.

(** [parseAlternativeBOAFormat], lines 1991-2048; [i] counts the patterns
    already tried. *)
Fixpoint tryAlternatives (newId : jstring) (line : jstring) (section : SectionName)
    (i : nat) (patterns : list re) : option Transaction :=
  match patterns with
  | [] => None
  | pattern :: rest =>
      match exec false pattern line with
      | None => tryAlternatives newId line section (S i) rest
      | Some m =>
          let '(dateStr, description, amountStr) :=
            match i with
            | 0%nat => (group 1 m ++ str "/2025", group 3 m, group 4 m)
            | 1%nat => (group 1 m ++ str "/2025", group 2 m, group 3 m)
            | _ => (todayLocale h, group 1 m, group 2 m)
            end in
          match createTransaction h newId dateStr description amountStr true with
          | Some transaction => Some (forceBySection section transaction)
          | None => tryAlternatives newId line section (S i) rest
          end
      end
  end.

Definition parseAlternativeBOAFormat (newId : jstring) (line : jstring)
    (section : SectionName) : option Transaction :=
  tryAlternatives newId line section 0 altPatterns.

(** [[-−—–=]] *)
Definition signChar (c : N) : bool :=
  N.eqb c hyphen || N.eqb c minusSign || N.eqb c emDash || N.eqb c enDash
  || N.eqb c 61.
Definition stripSign (part : jstring) : jstring :=
  replaceFirst false (Seq Bol (Cls signChar)) (fun _ => []) part.
Definition signOf (part : jstring) : jstring :=
  match exec false (Seq Bol (Cls signChar)) part with
  | Some m => matched m
  | None => []
  end.

(** What one part gives as an amount, if it looks like one. *)
Definition amountOfPart (part : jstring) : option jstring :=
  if test false
       (seqs [Bol; opt (Cls signChar); plus digit; oneOf ".,"; rep 2 digit; Eol]) part
  then Some part
  else if jeqb part (str "ail") then Some (str "7.41")
  else if test false (seqs [Bol; opt (Cls signChar); repRange 3 4 digit; Eol]) part
          && (99 <? digitsValue (stripSign part))
  then
    let numPart := stripSign part in
    let sign := signOf part in
    if Nat.eqb (List.length numPart) 3
    then Some (sign ++ substring 0 1 numPart ++ str "." ++ substringFrom 1 numPart)
    else if Nat.eqb (List.length numPart) 4
    then Some (sign ++ substring 0 2 numPart ++ str "." ++ substringFrom 2 numPart)
    else Some part
  else if test false (seqs [Bol; opt (Cls signChar); repRange 1 2 digit; Eol]) part
          && (digitsValue (stripSign part) <? 100)
  then Some (part ++ str ".00")
  else None.

(** The loop [for (i = parts.length - 1; i >= startIndex; i--)]: the
    last part, from [startIndex] on, that gives an amount. *)
Fixpoint findAmount (parts : list jstring) (i : nat) (startIndex : nat)
  : option (nat * jstring) :=
  match parts with
  | [] => None
  | part :: rest =>
      match findAmount rest (S i) startIndex with
      | Some r => Some r
      | None =>
          if (startIndex <=? i)%nat then
            match amountOfPart part with
            | Some a => Some (i, a)
            | None => None
            end
          else None
      end
  end.

Definition part (parts : list jstring) (i : nat) : jstring :=
  List.nth i parts [].

(** [parts.slice(a, b).join(' ')] *)
Definition joinSlice (parts : list jstring) (a b : nat) : jstring :=
  join (str " ") (List.firstn (b - a) (List.skipn a parts)).

Definition datePattern : re := seqs [Bol; rep 2 digit; lit "/"; rep 2 digit; Eol].
Definition corruptedDatePattern : re := seqs [Bol; rep 5 digit; Eol].
Definition fourDigits : re := seqs [Bol; rep 4 digit; Eol].

(** The transaction date found at the head of the parts ([startIndex] is
    2 in every case), or [None] for the alternative parsing. *)
Definition leadingDate (parts : list jstring) : option jstring :=
  let p0 := part parts 0 in
  let p1 := part parts 1 in
  if test false datePattern p0 && test false datePattern p1 then Some p0
  else if test false corruptedDatePattern p0 && test false datePattern p1
  then Some (substring 0 2 p0 ++ str "/" ++ substring 2 4 p0)
  else if (startsWith (toLowerCase p0) (str "o") || jeqb p0 (str "on"))
          && test false datePattern p1
  then Some (part (splitOn 47 p1) 0 ++ str "/" ++ part (splitOn 47 p1) 1)
  else if (2 <? List.length parts)%nat && test false datePattern p1
  then Some p1
  else None.

(** [parseBankOfAmericaTabularLine], lines 1804-1989 *)
Definition parseBankOfAmericaTabularLine (newId : jstring) (line : jstring)
    (section : SectionName) : option Transaction :=
  let trimmedLine := trim line in
  if mentionsCardPayment (toLowerCase trimmedLine)
     || match section with
        | credits =>
            includes trimmedLine (str "367.09") || includes trimmedLine (str "940.83")
        | expenses => false
        end
  then None
  else
    let cleanedLine := cleanOCRLine trimmedLine in
    let parts := splitSpaces cleanedLine in
    if (List.length parts <? 4)%nat
    then parseAlternativeBOAFormat newId cleanedLine section
    else
      match leadingDate parts with
      | None => parseAlternativeBOAFormat newId cleanedLine section
      | Some transDate =>
          let startIndex := 2%nat in
          match findAmount parts 0 startIndex with
          | None => parseAlternativeBOAFormat newId cleanedLine section
          | Some (amountIndex, amount) =>
              let description :=
                if (startIndex + 1 <? amountIndex)%nat
                   && test false fourDigits (part parts (amountIndex - 1))
                then
                  if (startIndex + 2 <? amountIndex)%nat
                     && test false fourDigits (part parts (amountIndex - 2))
                  then joinSlice parts startIndex (amountIndex - 2)
                  else joinSlice parts startIndex (amountIndex - 1)
                else joinSlice parts startIndex amountIndex in
              if (List.length description <? 3)%nat then None
              else
                match amount with
                | [] => None
                | _ :: _ =>
                    let dateStr := transDate ++ str "/2025" in
                    match createTransaction h newId dateStr description amount true with
                    | None => None
                    | Some transaction =>
                        match section with
                        | credits =>
                            if mentionsCardPayment (toLowerCase description)
                            then None
                            else Some (forceBySection credits transaction)
                        | expenses => Some (forceBySection expenses transaction)
                        end
                    end
                end
          end
      end.

(** *** The walk over the sections *)

(** What [extractAllTransactionPatterns] returns for the joined lines. *)
Variable extractAllTransactionPatterns : jstring -> list Transaction.
(** The identifier generated for a transaction created from line [i]. *)
Variable idOfLine : nat -> jstring.

Definition sectionHeader (line : jstring) : option SectionName :=
  let lowerLine := trim (toLowerCase line) in
  if includes lowerLine (str "payments and other credits") then Some credits
  else if includes lowerLine (str "purchases and adjustments") then Some expenses
  else None.

(** The objects returned by the comprehensive scan are shared: the first
    loop changes their [type] and [category] in place, and
    [processedTransactions] holds references to them.  [objects] is the
    array [allTransactions] with its current contents, [processed] the
    indices pushed so far. *)
Record Scan := {
  currentSectionType : option SectionName;
  objects : list Transaction;
  processed : list nat
}.

Definition sameTransaction (a b : Transaction) : bool :=
  jeqb (t_description a) (t_description b)
  && strictEq (t_amount a) (t_amount b)
  && (t_date a =? t_date b).

Definition alreadyPushed (objs : list Transaction) (pushed : list nat)
    (t : Transaction) : bool :=
  List.existsb
    (fun i => match objs !! i with Some p => sameTransaction p t | None => false end)
    pushed.

(** The body of the inner loop for the object at index [j]. *)
Definition assign (line : jstring) (section : SectionName) (st : Scan) (j : nat)
  : Scan :=
  match objects st !! j with
  | None => st
  | Some transaction =>
      if includes line (substring 0 10 (t_description transaction)) then
        let lower := toLowerCase (t_description transaction) in
        let skip :=
          match section with
          | credits => includes lower (str "payment") && includes lower (str "thank you")
          | expenses => false
          end in
        if skip then st
        else
          let transaction' := forceBySection section transaction in
          let objs := <[j := transaction']> (objects st) in
          {| currentSectionType := currentSectionType st;
             objects := objs;
             processed :=
               if alreadyPushed objs (processed st) transaction'
               then processed st else processed st ++ [j] |}
      else st
  end.

Definition scanLine (st : Scan) (line : jstring) : Scan :=
  match sectionHeader line with
  | Some sec =>
      {| currentSectionType := Some sec; objects := objects st;
         processed := processed st |}
  | None =>
      match currentSectionType st with
      | Some sec =>
          List.fold_left (assign line sec) (List.seq 0 (List.length (objects st))) st
      | None => st
      end
  end.

Definition processedTransactions (st : Scan) : list Transaction :=
  omap (fun i => objects st !! i) (processed st).

(** The second loop: the section-by-section backup. *)
Fixpoint backup (done : list Transaction) (currentSection : option SectionName)
    (i : nat) (lines : list jstring) : list Transaction :=
  match lines with
  | [] => []
  | line :: rest =>
      match sectionHeader line with
      | Some sec => backup done (Some sec) (S i) rest
      | None =>
          match currentSection with
          | None => backup done None (S i) rest
          | Some sec =>
              if List.existsb
                   (fun p => includes line (substring 0 10 (t_description p))) done
              then backup done currentSection (S i) rest
              else if isBankOfAmericaNonTransactionLine line
              then backup done currentSection (S i) rest
              else
                match parseBankOfAmericaTabularLine (idOfLine i) line sec with
                | Some transaction =>
                    transaction :: backup done currentSection (S i) rest
                | None => backup done currentSection (S i) rest
                end
          end
      end
  end.

(** [parseBankOfAmericaCreditCardSections], lines 1050-1161 *)
Definition parseBankOfAmericaCreditCardSections (lines : list jstring)
  : list Transaction :=
  let allTransactions := extractAllTransactionPatterns (join [10%N] lines) in
  let st :=
    List.fold_left scanLine lines
      {| currentSectionType := None; objects := allTransactions; processed := [] |} in
  let done := processedTransactions st in
  done ++ backup done None 0 lines.

End BankOfAmerica.

End PdfParser.

(* ================================================================== *)
(** * Notions used by the statements *)
(* ================================================================== *)

(** [x] is the finite number [q]. *)
Definition isNum (x : number) (q : Q) : Prop :=
  match x with
  | Num a => (a == q)%Q
  | _ => False
  end.

Module Pipeline.

(** The invariant on amounts: the amount is positive, and it is the
    magnitude of the original amount when that one is recorded. *)
Definition amountOk (t : Transaction) : Prop :=
  gt (t_amount t) (Num 0) = true
  /\ forall oa, t_originalAmount t = Some oa -> t_amount t = abs oa.

(** A transaction made by the parsing pipeline: created by one of the two
    [createTransaction] functions, then possibly re-typed and re-categorised
    (as the Bank of America path and the store do). *)
Inductive parserMade : Transaction -> Prop :=
| made_simple h cz newId dateStr description amountStr t :
    SimpleParser.createTransaction h cz newId dateStr description amountStr = Some t ->
    parserMade t
| made_pdf h newId dateStr description amountStr allowPayments t :
    PdfParser.createTransaction h newId dateStr description amountStr allowPayments
    = Some t ->
    parserMade t
| made_retyped ty t : parserMade t -> parserMade (setType ty t)
| made_recategorized c t : parserMade t -> parserMade (setCategory c t).

(** The stores that uploads build: from no transactions, by
    [addTransactions] of parsed transactions and by [deleteTransaction]. *)
Inductive fromUploads : Store.TransactionStore -> Prop :=
| up_empty balance :
    fromUploads {| Store.transactions := []; Store.debitCardBalance := balance |}
| up_add cz s newTransactions :
    fromUploads s -> Forall parserMade newTransactions ->
    fromUploads (Store.addTransactions cz s newTransactions)
| up_delete s id :
    fromUploads s -> fromUploads (Store.deleteTransaction s id).

End Pipeline.

Module Amounts.
Import PdfParser.

(** The units of a plainly written amount: digits, the decimal point, the
    grouping comma, the dollar sign and the four dashes. *)
Definition amountUnit (c : N) : bool :=
  isDigit c || N.eqb c 46 || N.eqb c 44 || N.eqb c 36 || List.existsb (N.eqb c) dashes.

(** A plainly written amount with a decimal point, such as [$1,234.56]. *)
Definition plainAmount (s : jstring) : Prop :=
  List.forallb amountUnit s = true /\ includes s (str ".") = true.

(** The text without its dollar signs and grouping commas. *)
Definition stripGrouping (s : jstring) : jstring :=
  List.filter (fun c => negb (N.eqb c 36 || N.eqb c 44)) s.

(** The test that ends the amount parsing: [null] for [NaN] and for zero. *)
Definition rejectZero (v : number) : option number :=
  if isNaN v || strictEq v (Num 0) then None else Some v.

(** [r] is the finite number [q]. *)
Definition yields (r : option number) (q : Q) : Prop :=
  match r with
  | Some v => isNum v q
  | None => False
  end.

End Amounts.

Module Similarity.
Import Store.

(** The words of the first description that occur in the second, each
    occurrence counted. *)
Definition occurrencesIn (words1 words2 : list jstring) : nat :=
  List.length (List.filter (fun w => arrIncludes words2 w) words1).

(** The description similarity in the words of the specification, to be
    compared with [Store.calculateDescriptionSimilarity]: the words longer
    than two characters that the two descriptions have in common, divided by
    the words longer than two characters of either (a Jaccard index), and
    1 for identical normalized strings.  (Where neither description has
    such a word the quotient of rationals is 0: there is no common word.) *)
Definition jaccardSimilarity (desc1 desc2 : jstring) : Q :=
  let normalized1 := normalize desc1 in
  let normalized2 := normalize desc2 in
  if jeqb normalized1 normalized2 then 1%Q
  else
    let words1 := setOf (significantWords normalized1) in
    let words2 := setOf (significantWords normalized2) in
    (inject_Z (Z.of_nat (size (words1 ∩ words2)))
     / inject_Z (Z.of_nat (size (words1 ∪ words2))))%Q.

(** Two finite amounts that differ by at most one cent, as rationals: the
    words of the specification. *)
Definition withinOneCent (x y : number) : Prop :=
  match x, y with
  | Num a, Num b => (Qabs (a - b) <= amountThreshold)%Q
  | _, _ => False
  end.

(** The double nearest to 0.01, a little above 1/100. *)
Definition centDouble : Q := 5764607523034235 # 576460752303423488.

(** Two amounts that differ by at most one cent in double precision: the
    difference of the two doubles, rounded, is not greater than the double
    nearest to 0.01.  A difference that is not a number is not greater. *)
Definition withinOneCentRounded (x y : number) : Prop :=
  match subDouble x y with
  | Num d => (Qabs d <= centDouble)%Q
  | NaN => True
  | Inf _ => False
  end.

(** The four conditions of the duplicate test, for a given reading of
    "the amounts differ by at most one cent" and a given measure of
    similarity. *)
Definition fourConditions (near : number -> number -> Prop)
    (similarity : jstring -> jstring -> Q)
    (newTransaction existing : Transaction) : Prop :=
  Z.abs (t_date existing - t_date newTransaction) <= dateThreshold
  /\ near (t_amount existing) (t_amount newTransaction)
  /\ t_type existing = t_type newTransaction
  /\ (0.8 <= similarity (t_description existing) (t_description newTransaction))%Q.

End Similarity.

Module Examples.
Import Store PdfParser.

(** The message of the error for an empty file. *)
Definition emptyFileMessage : jstring :=
  str "File is empty. Please upload a file with transaction data.".

Definition emptyCsv : SimpleParser.File :=
  {| SimpleParser.f_name := str "statement.csv";
     SimpleParser.f_type := str "text/csv";
     SimpleParser.f_size := 0 |}.

Definition tx (id : string) (date : Z) (description : string) (amount : Q)
    (category : string) (ty : TxType) : Transaction :=
  {| t_id := str id; t_date := date; t_description := str description;
     t_amount := Num amount; t_category := str category; t_type := ty;
     t_source := str "upload"; t_originalAmount := None; t_confidence := None |}.

Definition noWindows : Windows :=
  {| currentMonthStart := 0; currentMonthEnd := 0; lastMonthStart := 0;
     lastMonthEnd := 0; cycleStart := 0; cycleEnd := 0; trendMonths := [] |}.


Definition updateExample : TransactionStore :=
  {| transactions := [tx "t1" 0 "Starbucks Coffee" 5 "Food & Dining" expense];
     debitCardBalance := Num 0 |}.

Definition renameToShell : Updates :=
  {| u_id := None; u_date := None; u_description := Some (str "Shell Gas Station");
     u_amount := None; u_category := None; u_type := None; u_source := None;
     u_originalAmount := None; u_confidence := None |}.

Definition repeatedWord : Transaction :=
  tx "e" 0 "aaa aaa aaa aaa bbb" 12 "Other" expense.

Definition singleWord : Transaction :=
  tx "n" 0 "aaa ccc" 12 "Other" expense.

Definition onlyShortWords : Transaction := tx "e" 0 "BP 12" 12 "Other" expense.

Definition otherShortWords : Transaction := tx "n" 0 "UA 7" 12 "Other" expense.

Definition twentyDollars : Transaction :=
  tx "e" 0 "Parking Garage" 20 "Other" expense.

Definition oneCentMore : Transaction :=
  tx "n" 0 "Parking Garage" 20.01 "Other" expense.

Definition oneCent : Transaction := tx "e" 0 "Bank Interest" 0.01 "Other" income.

Definition twoCents : Transaction := tx "n" 0 "Bank Interest" 0.02 "Other" income.

Definition coffeeStored : Transaction :=
  tx "e" 1710460800000 "Starbucks Coffee Seattle" 5.75 "Food & Dining" expense.

Definition coffeeAgain : Transaction :=
  tx "n" 1710540000000 "STARBUCKS COFFEE - SEATTLE WA" 5.76 "Other" expense.

Definition coffeeStore : TransactionStore :=
  {| transactions := [coffeeStored]; debitCardBalance := Num 0 |}.

Definition freeSample : Transaction := tx "" 0 "Free Sample" 0 "Other" expense.

Definition paymentLine : jstring := str "06/10 Payment  From CHK 9192 367.10".

Definition spreadsheet : SimpleParser.File :=
  {| SimpleParser.f_name := str "Statement.XLSX";
     SimpleParser.f_type :=
       str "application/vnd.openxmlformats-officedocument.spreadsheetml.sheet";
     SimpleParser.f_size := 2048 |}.

Definition paymentStatement : list jstring :=
  [ str "=== PAGE 1 ==="; str "Bank of America"; str "Payments and Other Credits";
    paymentLine ].

End Examples.

(* ================================================================== *)
(** * Properties *)
(* ================================================================== *)

(** ** Strings and numbers *)

Module JSFacts.

Lemma jeqb_eq (a b : jstring) : jeqb a b = true <-> a = b.
Proof.
  revert b; induction a as [|x a IH]; intros [|y b]; simpl; split;
    try congruence; try discriminate; auto.
  - rewrite andb_true_iff, N.eqb_eq, IH. intros [-> ->]; reflexivity.
  - intros E; injection E as -> ->. rewrite N.eqb_refl. simpl. apply IH; reflexivity.
Qed.

Lemma jeqb_refl (a : jstring) : jeqb a a = true.
Proof. apply jeqb_eq; reflexivity. Qed.

Lemma jeqb_neq (a b : jstring) : jeqb a b = false <-> a <> b.
Proof.
  split.
  - intros E H. apply jeqb_eq in H. congruence.
  - intros H. destruct (jeqb a b) eqn:E; [|reflexivity].
    apply jeqb_eq in E. contradiction.
Qed.

Lemma TxType_eqb_eq (a b : TxType) : TxType_eqb a b = true <-> a = b.
Proof. destruct a, b; simpl; split; congruence. Qed.

Lemma sum_app (l1 l2 : list number) :
  sum (l1 ++ l2) = List.fold_left add l2 (sum l1).
Proof. unfold sum. apply List.fold_left_app. Qed.

(** A number that is neither [NaN] nor zero has a positive magnitude. *)
Lemma abs_positive (x : number) :
  isNaN x = false -> strictEq x (Num 0) = false -> gt (abs x) (Num 0) = true.
Proof.
  destruct x as [|q|s]; simpl; try discriminate; [|reflexivity].
  intros _ Hz. unfold gt, lt. apply negb_true_iff.
  destruct (Qle_bool (Qabs q) 0) eqn:E; [|reflexivity].
  apply Qle_bool_iff in E.
  assert (Hq : (Qabs q == 0)%Q) by (apply Qle_antisym; [exact E | apply Qabs_nonneg]).
  assert (H : (q == 0)%Q).
  { revert Hq. apply Qabs_case; intros _ H; [exact H|].
    rewrite <- (Qopp_involutive q), H. reflexivity. }
  apply Qeq_bool_iff in H. congruence.
Qed.

(** *** Rounding to a double *)

Lemma roundHalfEven_le (x : Q) (n : Z) :
  (x <= inject_Z n)%Q -> roundHalfEven x <= n.
Proof.
  intros H. unfold roundHalfEven.
  assert (Hf : Qfloor x <= n).
  { rewrite <- (Qfloor_Z n). apply Qfloor_resp_le, H. }
  destruct (Z.eq_dec (Qfloor x) n) as [E | E].
  - assert (Hx : (x - inject_Z (Qfloor x) <= 0)%Q) by (rewrite E; lra).
    destruct (Qcompare_spec (x - inject_Z (Qfloor x)) (1 # 2)) as [C | C | C];
      [lra | lia | lra].
  - destruct (_ ?= _)%Q; [destruct (Z.even _)| |]; lia.
Qed.

Lemma roundHalfEven_nonneg (x : Q) : (0 <= x)%Q -> 0 <= roundHalfEven x.
Proof.
  intros H. unfold roundHalfEven.
  assert (Hf : 0 <= Qfloor x).
  { change 0 with (Qfloor 0). apply Qfloor_resp_le, H. }
  destruct (_ ?= _)%Q; [destruct (Z.even _)| |]; lia.
Qed.

Lemma floorLog2_spec (x : Q) : (0 < x)%Q -> (2 ^ floorLog2 x <= x)%Q.
Proof.
  intros Hx. unfold floorLog2.
  destruct (Qle_bool _ x) eqn:E; [apply Qle_bool_iff, E|]. clear E.
  destruct x as [n d]. unfold Qlt in Hx. simpl in Hx. simpl Qnum. simpl Qden.
  assert (Hn : 0 < n) by lia.
  destruct (Z.log2_spec n Hn) as [Hn1 _].
  destruct (Z.log2_spec (Zpos d) (Pos2Z.is_pos d)) as [_ Hd2].
  pose proof (Z.log2_nonneg n) as HA. pose proof (Z.log2_nonneg (Zpos d)) as HB.
  set (A := Z.log2 n) in *. set (B := Z.log2 (Zpos d)) in *.
  replace (A - B - 1) with (A - Z.succ B) by lia.
  rewrite Qpower_minus by discriminate.
  rewrite <- !(Zpower_Qpower 2) by lia.
  apply Qle_shift_div_r.
  - change 0%Q with (inject_Z 0). rewrite <- Zlt_Qlt. apply Z.pow_pos_nonneg; lia.
  - unfold Qle. simpl. nia.
Qed.

Lemma pow2_pos (e : Z) : (0 < 2 ^ e)%Q.
Proof. apply Qpower_0_lt. reflexivity. Qed.

(** Rounding does not cross a double: what is at most the double
    [c * 2 ^ e] in magnitude rounds to a double that is. *)
Lemma toDouble_below (x : Q) (c e : Z) :
  -1074 <= e <= 971 -> 0 <= c < 2 ^ 53 ->
  (Qabs x <= inject_Z c * 2 ^ e)%Q ->
  exists d, toDouble x = Num d /\ (Qabs d <= inject_Z c * 2 ^ e)%Q.
Proof.
  intros He Hc Hx. unfold toDouble.
  destruct (Qeq_bool x 0) eqn:E0.
  { exists 0%Q. split; [reflexivity|].
    eapply Qle_trans; [|exact Hx]. apply Qabs_nonneg. }
  assert (Ha : (0 < Qabs x)%Q).
  { destruct (Qlt_le_dec 0 (Qabs x)) as [H | H]; [exact H|].
    assert (Hz : (Qabs x == 0)%Q) by (apply Qle_antisym; [exact H | apply Qabs_nonneg]).
    assert (H0 : (x == 0)%Q).
    { revert Hz. apply Qabs_case; intros _ Hz; [exact Hz|].
      rewrite <- (Qopp_involutive x), Hz. reflexivity. }
    apply Qeq_bool_iff in H0. congruence. }
  set (a := Qabs x) in *.
  pose proof (floorLog2_spec a Ha) as Hfl.
  assert (Hc53 : (inject_Z c < 2 ^ 53)%Q).
  { rewrite <- (Zpower_Qpower 2) by lia. rewrite <- Zlt_Qlt. lia. }
  assert (Hlt : (2 ^ floorLog2 a < 2 ^ (53 + e))%Q).
  { eapply Qle_lt_trans; [exact Hfl|]. eapply Qle_lt_trans; [exact Hx|].
    rewrite Qpower_plus by discriminate.
    apply Qmult_lt_compat_r; [apply pow2_pos | exact Hc53]. }
  apply Qpower_lt_compat_l_inv in Hlt; [|reflexivity].
  set (exponent := Z.max (floorLog2 a - 52) (-1074)).
  assert (Hex : exponent <= e) by (unfold exponent; lia).
  set (k := e - exponent).
  assert (Hk : 0 <= k) by (unfold k; lia).
  assert (Hsplit : (2 ^ e == inject_Z (2 ^ k) * 2 ^ exponent)%Q).
  { rewrite (Zpower_Qpower 2) by lia. rewrite <- Qpower_plus by discriminate.
    unfold k. replace (e - exponent + exponent) with e by lia. reflexivity. }
  pose proof (pow2_pos exponent) as Hp.
  assert (Hq : (a / 2 ^ exponent <= inject_Z (c * 2 ^ k))%Q).
  { apply Qle_shift_div_r; [exact Hp|].
    rewrite inject_Z_mult, <- Qmult_assoc, <- Hsplit. exact Hx. }
  assert (Hq0 : (0 <= a / 2 ^ exponent)%Q).
  { apply Qle_shift_div_l; [exact Hp|]. rewrite Qmult_0_l. apply Qlt_le_weak, Ha. }
  pose proof (roundHalfEven_le _ _ Hq) as Hm.
  pose proof (roundHalfEven_nonneg _ Hq0) as Hm0.
  set (m := roundHalfEven (a / 2 ^ exponent)) in *.
  assert (Hmag : (inject_Z m * 2 ^ exponent <= inject_Z c * 2 ^ e)%Q).
  { rewrite Hsplit, Qmult_assoc, <- inject_Z_mult.
    apply Qmult_le_compat_r; [|apply Qlt_le_weak, Hp].
    rewrite <- Zle_Qle. exact Hm. }
  assert (Hmag0 : (0 <= inject_Z m * 2 ^ exponent)%Q).
  { apply Qmult_le_0_compat; [|apply Qlt_le_weak, Hp].
    change 0%Q with (inject_Z 0). rewrite <- Zle_Qle. exact Hm0. }
  assert (Hfin : (inject_Z c * 2 ^ e < 2 ^ 1024)%Q).
  { apply Qlt_le_trans with (2 ^ (53 + e))%Q.
    - rewrite Qpower_plus by discriminate.
      apply Qmult_lt_compat_r; [apply pow2_pos | exact Hc53].
    - apply Qpower_le_compat_l; [lia | discriminate]. }
  set (magnitude := Qred (inject_Z m * 2 ^ exponent)).
  assert (Hr : (magnitude == inject_Z m * 2 ^ exponent)%Q) by apply Qred_correct.
  destruct (Qle_bool (2 ^ 1024) magnitude) eqn:Eo.
  { apply Qle_bool_iff in Eo. rewrite Hr in Eo.
    exfalso. apply (Qlt_irrefl (2 ^ 1024)).
    eapply Qle_lt_trans; [exact Eo|]. eapply Qle_lt_trans; [exact Hmag | exact Hfin]. }
  eexists. split; [reflexivity|].
  destruct (Qle_bool 0 x).
  - rewrite Qabs_pos by (rewrite Hr; exact Hmag0). rewrite Hr. exact Hmag.
  - rewrite Qabs_opp, Qabs_pos by (rewrite Hr; exact Hmag0). rewrite Hr. exact Hmag.
Qed.

Lemma roundHalfEven_ge (x : Q) (n : Z) :
  (inject_Z n - (1 # 2) < x)%Q -> n <= roundHalfEven x.
Proof.
  intros H. unfold roundHalfEven.
  pose proof (Qlt_floor x) as Hlt.
  destruct (Z_le_gt_dec n (Qfloor x)) as [Hf | Hf].
  - destruct (_ ?= _)%Q; [destruct (Z.even _)| |]; lia.
  - assert (Hn : n <= Qfloor x + 1).
    { destruct (Z_le_gt_dec n (Qfloor x + 1)) as [Hn | Hn]; [exact Hn | exfalso].
      assert (Hle : (inject_Z (Qfloor x + 1) + inject_Z 1 <= inject_Z n)%Q)
        by (rewrite <- inject_Z_plus, <- Zle_Qle; lia).
      change (inject_Z 1) with 1%Q in Hle. lra. }
    assert (E : (inject_Z (Qfloor x) + inject_Z 1 == inject_Z n)%Q)
      by (rewrite <- inject_Z_plus; apply inject_Z_injective; lia).
    change (inject_Z 1) with 1%Q in E.
    destruct (Qcompare_spec (x - inject_Z (Qfloor x)) (1 # 2)) as [C | C | C].
    + lra.
    + lra.
    + lia.
Qed.

Lemma floorLog2_lt (x : Q) : (0 < x)%Q -> (x < 2 ^ (floorLog2 x + 1))%Q.
Proof.
  intros Hx. unfold floorLog2.
  destruct (Qle_bool _ x) eqn:E.
  - clear E. destruct x as [n d]. unfold Qlt in Hx. simpl in Hx. simpl Qnum. simpl Qden.
    assert (Hn : 0 < n) by lia.
    destruct (Z.log2_spec n Hn) as [_ Hn2].
    destruct (Z.log2_spec (Zpos d) (Pos2Z.is_pos d)) as [Hd1 _].
    pose proof (Z.log2_nonneg n) as HA. pose proof (Z.log2_nonneg (Zpos d)) as HB.
    set (A := Z.log2 n) in *. set (B := Z.log2 (Zpos d)) in *.
    replace (A - B + 1) with (Z.succ A - B) by lia.
    rewrite Qpower_minus by discriminate.
    rewrite <- !(Zpower_Qpower 2) by lia.
    apply Qlt_shift_div_l.
    + change 0%Q with (inject_Z 0). rewrite <- Zlt_Qlt. apply Z.pow_pos_nonneg; lia.
    + unfold Qlt. simpl. nia.
  - replace (Z.log2 (Qnum x) - Z.log2 (Zpos (Qden x)) - 1 + 1)
      with (Z.log2 (Qnum x) - Z.log2 (Zpos (Qden x))) by lia.
    apply Qnot_le_lt. intros H. apply Qle_bool_iff in H. congruence.
Qed.

(** What exceeds the midpoint below the double [c * 2 ^ e] rounds to that
    double at least. *)
Lemma toDouble_above (x : Q) (c e : Z) :
  -1074 <= e -> 2 ^ 52 < c < 2 ^ 53 ->
  ((inject_Z c - (1 # 2)) * 2 ^ e < x)%Q ->
  match toDouble x with
  | Num d => (inject_Z c * 2 ^ e <= d)%Q
  | Inf negative => negative = false
  | NaN => False
  end.
Proof.
  intros He Hc Hx.
  pose proof (pow2_pos e) as Hpe.
  assert (Hc52 : (2 ^ 52 <= inject_Z c - (1 # 2))%Q).
  { assert (H : (inject_Z (2 ^ 52 + 1) <= inject_Z c)%Q) by (rewrite <- Zle_Qle; lia).
    rewrite inject_Z_plus in H. rewrite (Zpower_Qpower 2) in H by lia.
    change (inject_Z 1) with 1%Q in H. change (inject_Z 2) with 2%Q in H. lra. }
  assert (Hlow : (2 ^ (52 + e) < x)%Q).
  { eapply Qle_lt_trans; [|exact Hx]. rewrite Qpower_plus by discriminate.
    apply Qmult_le_compat_r; [exact Hc52 | apply Qlt_le_weak, Hpe]. }
  assert (Hpos : (0 < x)%Q) by (eapply Qlt_trans; [apply pow2_pos | exact Hlow]).
  unfold toDouble.
  assert (E0 : Qeq_bool x 0 = false).
  { destruct (Qeq_bool x 0) eqn:E; [|reflexivity].
    apply Qeq_bool_iff in E. rewrite E in Hpos. discriminate. }
  assert (E1 : Qle_bool 0 x = true) by (apply Qle_bool_iff, Qlt_le_weak, Hpos).
  rewrite E0, E1. cbn [negb].
  assert (Ea : (Qabs x == x)%Q) by (apply Qabs_pos, Qlt_le_weak, Hpos).
  assert (Ha : (0 < Qabs x)%Q) by (rewrite Ea; exact Hpos).
  set (a := Qabs x) in *.
  pose proof (floorLog2_spec a Ha) as Hfl.
  pose proof (floorLog2_lt a Ha) as Hfu.
  assert (Hlt : (2 ^ (52 + e) < 2 ^ (floorLog2 a + 1))%Q).
  { eapply Qlt_trans; [exact Hlow|]. rewrite <- Ea. exact Hfu. }
  apply Qpower_lt_compat_l_inv in Hlt; [|reflexivity].
  assert (Hexp : Z.max (floorLog2 a - 52) (-1074) = floorLog2 a - 52) by lia.
  rewrite Hexp.
  set (exponent := floorLog2 a - 52) in *.
  pose proof (pow2_pos exponent) as Hp.
  set (m := roundHalfEven (a / 2 ^ exponent)).
  assert (Hmag : (inject_Z c * 2 ^ e <= inject_Z m * 2 ^ exponent)%Q).
  { destruct (Z.eq_dec exponent e) as [E | E].
    - rewrite <- E in Hx |- *. apply Qmult_le_compat_r; [|apply Qlt_le_weak, Hp].
      rewrite <- Zle_Qle. apply roundHalfEven_ge.
      apply Qlt_shift_div_l; [exact Hp|]. rewrite Ea. exact Hx.
    - assert (Hm : 2 ^ 52 <= m).
      { apply roundHalfEven_ge.
        apply Qlt_le_trans with (inject_Z (2 ^ 52)); [lra|].
        apply Qle_shift_div_l; [exact Hp|].
        rewrite (Zpower_Qpower 2) by lia. rewrite <- Qpower_plus by discriminate.
        unfold exponent. replace (52 + (floorLog2 a - 52)) with (floorLog2 a) by lia.
        exact Hfl. }
      apply Qle_trans with (2 ^ (53 + e))%Q.
      + rewrite Qpower_plus by discriminate.
        apply Qmult_le_compat_r; [|apply Qlt_le_weak, Hpe].
        rewrite <- (Zpower_Qpower 2) by lia. rewrite <- Zle_Qle. lia.
      + apply Qle_trans with (2 ^ (52 + exponent))%Q.
        * apply Qpower_le_compat_l; [lia | discriminate].
        * rewrite Qpower_plus by discriminate.
          apply Qmult_le_compat_r; [|apply Qlt_le_weak, Hp].
          rewrite <- (Zpower_Qpower 2) by lia. rewrite <- Zle_Qle. exact Hm. }
  set (magnitude := Qred (inject_Z m * 2 ^ exponent)).
  assert (Hr : (magnitude == inject_Z m * 2 ^ exponent)%Q) by apply Qred_correct.
  destruct (Qle_bool (2 ^ 1024) magnitude); [reflexivity|].
  rewrite Hr. exact Hmag.
Qed.

Lemma roundHalfEven_Z (n : Z) : roundHalfEven (inject_Z n) = n.
Proof.
  apply Z.le_antisymm.
  - apply roundHalfEven_le. apply Qle_refl.
  - apply roundHalfEven_ge. lra.
Qed.

Lemma roundHalfEven_eq (x : Q) (n : Z) : (x == inject_Z n)%Q -> roundHalfEven x = n.
Proof.
  intros H. apply Z.le_antisymm.
  - apply roundHalfEven_le. rewrite H. apply Qle_refl.
  - apply roundHalfEven_ge. rewrite H. lra.
Qed.

(** The binary logarithm is determined by the binade. *)
Lemma floorLog2_unique (x : Q) (e : Z) :
  (2 ^ e <= x)%Q -> (x < 2 ^ (e + 1))%Q -> floorLog2 x = e.
Proof.
  intros Hl Hu.
  assert (Hx : (0 < x)%Q) by (eapply Qlt_le_trans; [apply pow2_pos | exact Hl]).
  pose proof (floorLog2_spec x Hx) as Sl. pose proof (floorLog2_lt x Hx) as Su.
  assert (H1 : (2 ^ e < 2 ^ (floorLog2 x + 1))%Q) by (eapply Qle_lt_trans; eassumption).
  assert (H2 : (2 ^ floorLog2 x < 2 ^ (e + 1))%Q) by (eapply Qle_lt_trans; eassumption).
  apply Qpower_lt_compat_l_inv in H1; [|reflexivity].
  apply Qpower_lt_compat_l_inv in H2; [|reflexivity].
  lia.
Qed.

(** A value [m * 2 ^ e] with the significand and exponent of a double is
    its own double. *)
Lemma toDouble_exact (x : Q) (m e : Z) :
  -1074 <= e -> 0 < m < 2 ^ 53 -> (e = -1074 \/ 2 ^ 52 <= m) ->
  (inject_Z m * 2 ^ e < 2 ^ 1024)%Q ->
  (Qabs x == inject_Z m * 2 ^ e)%Q ->
  toDouble x = Num (if Qle_bool 0 x then Qred (Qabs x) else - Qred (Qabs x)).
Proof.
  intros He Hm Hnorm Hfin Hx.
  pose proof (pow2_pos e) as Hpe.
  assert (Hm0 : (0 < inject_Z m)%Q)
    by (change 0%Q with (inject_Z 0); rewrite <- Zlt_Qlt; lia).
  assert (Ha : (0 < Qabs x)%Q).
  { rewrite Hx. apply Qmult_lt_0_compat; assumption. }
  unfold toDouble.
  assert (E0 : Qeq_bool x 0 = false).
  { destruct (Qeq_bool x 0) eqn:E; [|reflexivity].
    apply Qeq_bool_iff in E. rewrite E in Ha. discriminate. }
  rewrite E0.
  set (a := Qabs x) in *.
  assert (Hexp : Z.max (floorLog2 a - 52) (-1074) = e).
  { destruct (Z_lt_le_dec m (2 ^ 52)) as [Hsub | Hnrm].
    - destruct Hnorm as [-> | Hn]; [|lia].
      assert (Hlt : (2 ^ floorLog2 a < 2 ^ (52 + -1074))%Q).
      { eapply Qle_lt_trans; [apply floorLog2_spec, Ha|]. rewrite Hx.
        rewrite (Qpower_plus 2 52) by discriminate.
        apply Qmult_lt_compat_r; [exact Hpe|].
        rewrite <- (Zpower_Qpower 2) by lia. rewrite <- Zlt_Qlt. exact Hsub. }
      apply Qpower_lt_compat_l_inv in Hlt; [|reflexivity]. lia.
    - rewrite (floorLog2_unique a (52 + e)); [lia| |].
      + rewrite Hx, Qpower_plus by discriminate.
        apply Qmult_le_compat_r; [|apply Qlt_le_weak, Hpe].
        rewrite <- (Zpower_Qpower 2) by lia. rewrite <- Zle_Qle. exact Hnrm.
      + rewrite Hx. replace (52 + e + 1) with (53 + e) by lia.
        rewrite Qpower_plus by discriminate.
        apply Qmult_lt_compat_r; [exact Hpe|].
        rewrite <- (Zpower_Qpower 2) by lia. rewrite <- Zlt_Qlt. lia. }
  rewrite Hexp.
  assert (Hq : (a / 2 ^ e == inject_Z m)%Q).
  { rewrite Hx. field. intros H. rewrite H in Hpe. discriminate. }
  rewrite (roundHalfEven_eq _ m Hq).
  assert (Hred : Qred (inject_Z m * 2 ^ e) = Qred a).
  { apply Qred_complete. symmetry. exact Hx. }
  rewrite Hred.
  destruct (Qle_bool (2 ^ 1024) (Qred a)) eqn:Eo; [|reflexivity].
  apply Qle_bool_iff in Eo. rewrite Qred_correct, Hx in Eo.
  exfalso. apply (Qlt_irrefl (2 ^ 1024)). eapply Qle_lt_trans; eassumption.
Qed.

Lemma Qabs_pos_eq (y : Q) : (0 <= y)%Q -> Qabs y = y.
Proof.
  destruct y as [n d]. unfold Qle, Qabs. simpl. intros H.
  rewrite Z.abs_eq by lia. reflexivity.
Qed.

Lemma Qabs_opp_eq (y : Q) : (0 <= y)%Q -> Qabs (- y) = y.
Proof.
  destruct y as [n d]. unfold Qle, Qabs, Qopp. simpl. intros H.
  rewrite Z.abs_opp, Z.abs_eq by lia. reflexivity.
Qed.

Lemma Qred_Qred (y : Q) : Qred (Qred y) = Qred y.
Proof. apply Qred_complete, Qred_correct. Qed.

(** The double of a rational is its own double. *)
Lemma toDouble_idempotent (x : Q) :
  match toDouble x with
  | Num y => toDouble y = Num y
  | _ => True
  end.
Proof.
  unfold toDouble at 1.
  destruct (Qeq_bool x 0) eqn:E0; [reflexivity|].
  assert (Ha : (0 < Qabs x)%Q).
  { destruct (Qlt_le_dec 0 (Qabs x)) as [H | H]; [exact H|].
    assert (Hz : (Qabs x == 0)%Q) by (apply Qle_antisym; [exact H | apply Qabs_nonneg]).
    assert (H0 : (x == 0)%Q).
    { revert Hz. apply Qabs_case; intros _ Hz; [exact Hz|].
      rewrite <- (Qopp_involutive x), Hz. reflexivity. }
    apply Qeq_bool_iff in H0. congruence. }
  set (a := Qabs x) in *.
  set (e := Z.max (floorLog2 a - 52) (-1074)).
  pose proof (pow2_pos e) as Hpe.
  pose proof (floorLog2_spec a Ha) as Hfl.
  pose proof (floorLog2_lt a Ha) as Hfu.
  assert (Hq0 : (0 <= a / 2 ^ e)%Q).
  { apply Qle_shift_div_l; [exact Hpe|]. rewrite Qmult_0_l. apply Qlt_le_weak, Ha. }
  assert (Hq53 : (a / 2 ^ e <= inject_Z (2 ^ 53))%Q).
  { apply Qle_shift_div_r; [exact Hpe|].
    rewrite (Zpower_Qpower 2) by lia. rewrite <- Qpower_plus by discriminate.
    apply Qlt_le_weak. eapply Qlt_le_trans; [exact Hfu|].
    apply Qpower_le_compat_l; [unfold e; lia | discriminate]. }
  pose proof (roundHalfEven_nonneg _ Hq0) as Hm0.
  pose proof (roundHalfEven_le _ _ Hq53) as Hm53.
  assert (Hnorm : e = -1074 \/ 2 ^ 52 <= roundHalfEven (a / 2 ^ e)).
  { destruct (Z.eq_dec e (-1074)) as [E | E]; [left; exact E | right].
    assert (Ee : e = floorLog2 a - 52) by (unfold e in *; lia).
    apply roundHalfEven_ge.
    apply Qlt_le_trans with (inject_Z (2 ^ 52)); [lra|].
    apply Qle_shift_div_l; [exact Hpe|].
    rewrite (Zpower_Qpower 2) by lia. rewrite <- Qpower_plus by discriminate.
    rewrite Ee. replace (52 + (floorLog2 a - 52)) with (floorLog2 a) by lia.
    exact Hfl. }
  set (m := roundHalfEven (a / 2 ^ e)) in *.
  set (magnitude := Qred (inject_Z m * 2 ^ e)).
  assert (Hr : (magnitude == inject_Z m * 2 ^ e)%Q) by apply Qred_correct.
  destruct (Qle_bool (2 ^ 1024) magnitude) eqn:Eo; [exact I|].
  assert (Hfin : (inject_Z m * 2 ^ e < 2 ^ 1024)%Q).
  { apply Qnot_le_lt. intros H. rewrite <- Hr in H.
    apply Qle_bool_iff in H. congruence. }
  destruct (Z.eq_dec m 0) as [Ez | Ez].
  { assert (Em : magnitude = 0%Q).
    { unfold magnitude. rewrite Ez. change 0%Q with (Qred 0).
      apply Qred_complete. ring. }
    rewrite Em. destruct (Qle_bool 0 x); reflexivity. }
  assert (Hmag : (0 < magnitude)%Q).
  { rewrite Hr. apply Qmult_lt_0_compat; [|exact Hpe].
    change 0%Q with (inject_Z 0). rewrite <- Zlt_Qlt. lia. }
  assert (Hexact : forall y, (Qabs y == inject_Z m * 2 ^ e)%Q ->
            toDouble y = Num (if Qle_bool 0 y then Qred (Qabs y) else - Qred (Qabs y))).
  { intros y Hy. destruct (Z.eq_dec m (2 ^ 53)) as [E53 | E53].
    - apply (toDouble_exact y (2 ^ 52) (e + 1)).
      + unfold e. lia.
      + split; [reflexivity | reflexivity].
      + right. lia.
      + eapply Qle_lt_trans; [|exact Hfin]. rewrite E53.
        rewrite (Qpower_plus 2 e 1) by discriminate.
        rewrite !(Zpower_Qpower 2) by lia.
        change (inject_Z 2 ^ 53)%Q with (inject_Z 2 ^ 52 * 2)%Q.
        change (2 ^ 1)%Q with 2%Q. change (inject_Z 2) with 2%Q.
        apply Qle_lteq. right. ring.
      + rewrite Hy, E53. rewrite (Qpower_plus 2 e 1) by discriminate.
        rewrite !(Zpower_Qpower 2) by lia.
        change (inject_Z 2 ^ 53)%Q with (inject_Z 2 ^ 52 * 2)%Q.
        change (2 ^ 1)%Q with 2%Q. change (inject_Z 2) with 2%Q. ring.
    - apply (toDouble_exact y m e); [unfold e; lia | lia | exact Hnorm | exact Hfin
                                    | exact Hy]. }
  destruct (Qle_bool 0 x).
  - rewrite Hexact by (rewrite Qabs_pos_eq by (apply Qlt_le_weak, Hmag); exact Hr).
    assert (Hle : Qle_bool 0 magnitude = true) by (apply Qle_bool_iff, Qlt_le_weak, Hmag).
    rewrite Hle, Qabs_pos_eq by (apply Qlt_le_weak, Hmag).
    unfold magnitude. rewrite Qred_Qred. reflexivity.
  - rewrite Hexact by (rewrite Qabs_opp_eq by (apply Qlt_le_weak, Hmag); exact Hr).
    assert (Hle : Qle_bool 0 (- magnitude) = false).
    { destruct (Qle_bool 0 (- magnitude)) eqn:E; [|reflexivity].
      apply Qle_bool_iff in E. lra. }
    rewrite Hle, Qabs_opp_eq by (apply Qlt_le_weak, Hmag).
    unfold magnitude. rewrite Qred_Qred. reflexivity.
Qed.

(** Reading a number as a double is the identity on a double. *)
Lemma asDouble_idempotent (x : number) : asDouble (asDouble x) = asDouble x.
Proof.
  destruct x as [|q|sg]; [reflexivity| |reflexivity].
  cbn [asDouble]. pose proof (toDouble_idempotent q) as H.
  destruct (toDouble q) as [|y|sg]; [reflexivity | exact H | reflexivity].
Qed.

End JSFacts.

(** ** Regular expressions *)

Module RegexFacts.

(** A pattern anchored with [^] matches at the start only. *)
Lemma searchFrom_anchored (ci : bool) (r : re) (x : N) (before rest : jstring) :
  searchFrom ci (Seq Bol r) (x :: before) rest = None.
Proof.
  revert x before. induction rest as [|y rest IH]; intros x before; simpl.
  - reflexivity.
  - apply IH.
Qed.

Lemma exec_anchored_cons (ci : bool) (r : re) (x : N) (s : jstring) :
  exec ci (Seq Bol r) (x :: s)
  = matchAt ci (Seq Bol r) ([], x :: s).
Proof.
  unfold exec. simpl searchFrom at 1.
  destruct (matchAt ci (Seq Bol r) ([], x :: s)); [reflexivity|].
  apply searchFrom_anchored.
Qed.

Lemma matchAt_anchored_unit (x c : N) (s : jstring) :
  N.eqb x c = false -> matchAt false (Seq Bol (Chr x)) ([], c :: s) = None.
Proof. intros H. unfold matchAt. cbn [run fst snd]. unfold chrEq. rewrite H. reflexivity. Qed.

(** [s.includes(c)] for a single unit. *)
Lemma includes_unit (s : jstring) (x : N) :
  includes s [x] = List.existsb (N.eqb x) s.
Proof.
  induction s as [|y s IH]; simpl; [reflexivity|].
  rewrite IH, andb_true_r. reflexivity.
Qed.

Lemma consumed_prefix (before before' pre rest : jstring) :
  consumed (before, pre ++ rest) (before', rest) = pre.
Proof.
  unfold consumed; simpl. rewrite List.length_app.
  replace (List.length pre + List.length rest - List.length rest)%nat
    with (List.length pre) by lia.
  rewrite List.firstn_app, Nat.sub_diag, List.firstn_all. simpl.
  apply List.app_nil_r.
Qed.

(** Where a one-unit class first matches. *)
Lemma searchFrom_class (p : N -> bool) (rest : jstring) :
  forall before,
    match searchFrom false (Cls p) before rest with
    | None => List.filter (fun c => negb (p c)) rest = rest
    | Some m =>
        exists pre y post,
          rest = pre ++ y :: post
          /\ List.filter (fun c => negb (p c)) pre = pre
          /\ p y = true
          /\ m_start m = (List.rev pre ++ before, y :: post)
          /\ m_end m = (y :: List.rev pre ++ before, post)
    end.
Proof.
  induction rest as [|y rest IH]; intros before.
  - reflexivity.
  - simpl searchFrom. unfold matchAt; simpl run. unfold clsOk.
    destruct (p y) eqn:Hy.
    + exists [], y, rest. repeat split; assumption.
    + specialize (IH (y :: before)).
      destruct (searchFrom false (Cls p) (y :: before) rest) as [m|].
      * destruct IH as (pre & z & post & -> & Hpre & Hz & Hs & He).
        exists (y :: pre), z, post. simpl. rewrite Hy; simpl. rewrite Hpre.
        rewrite <- !List.app_assoc. simpl. repeat split; assumption.
      * simpl. rewrite Hy; simpl. f_equal. exact IH.
Qed.

(** Replacing every unit of a class by nothing filters the class out. *)
Lemma replaceFrom_class (p : N -> bool) (fuel : nat) :
  forall before rest,
    (List.length rest < fuel)%nat ->
    replaceFrom false (Cls p) (fun _ => []) fuel before rest
    = List.filter (fun c => negb (p c)) rest.
Proof.
  induction fuel as [|fuel IH]; intros before rest Hlen; [lia|].
  simpl replaceFrom.
  pose proof (searchFrom_class p rest before) as H.
  destruct (searchFrom false (Cls p) before rest) as [m|].
  - destruct H as (pre & y & post & -> & Hpre & Hy & Hs & He).
    unfold matched. rewrite Hs, He.
    rewrite (consumed_prefix before _ pre (y :: post)).
    change (y :: post) with ([y] ++ post) at 1.
    rewrite (consumed_prefix _ _ [y] post). simpl.
    rewrite List.app_nil_r, IH.
    + rewrite List.filter_app. simpl. rewrite Hy; simpl. rewrite Hpre. reflexivity.
    + rewrite List.length_app in Hlen. simpl in Hlen. lia.
  - symmetry; exact H.
Qed.

Lemma replaceAll_class (p : N -> bool) (s : jstring) :
  replaceAll false (Cls p) (fun _ => []) s = List.filter (fun c => negb (p c)) s.
Proof. apply replaceFrom_class. lia. Qed.

End RegexFacts.

(** ** The type classifier and [parseFile] *)

Module SimpleParserSpec.
Import SimpleParser JSFacts Examples.

(** C8.  The transaction-type classifier returns expense for amount -50
    with description "Grocery Store", income for amount 200 with
    description "Direct Deposit Payroll", and income for amount -30 with
    description "Merchant Refund": the refund keyword overrides the rule
    that a negative amount is an expense. *)
Theorem determineTransactionType_examples :
  determineTransactionType (Num (-50)) (str "Grocery Store") = expense
  /\ determineTransactionType (Num 200) (str "Direct Deposit Payroll") = income
  /\ determineTransactionType (Num (-30)) (str "Merchant Refund") = income.
Proof. repeat split; vm_compute; reflexivity. Qed.

(** Without the keyword the same negative amount is an expense: the third
    answer above is the refund override at work. *)
Lemma negative_amount_without_refund_is_expense :
  determineTransactionType (Num (-30)) (str "Merchant") = expense.
Proof. vm_compute; reflexivity. Qed.

(** C9.  [parseFile] on a file of size 0 fails with an error whose message
    says that the file is empty, and it does so before any of the
    per-format strategies (CSV, text, PDF) is started: the list of started
    strategies is empty, whatever the strategies would do and whatever the
    name and type of the file. *)
Theorem parseFile_rejects_empty_file
    (parseCSV parseText parsePDF : File -> Thrown + list Transaction)
    (file : File) :
  f_size file = 0 ->
  parseFile parseCSV parseText parsePDF file = ([], inl (ErrorWith emptyFileMessage))
  /\ includes emptyFileMessage (str "File is empty") = true.
Proof.
  intros Hsize. split; [|vm_compute; reflexivity].
  unfold parseFile. rewrite Hsize. reflexivity.
Qed.

Lemma parseFile_rejects_empty_file_witness :
  f_size emptyCsv = 0
  /\ parseFile (fun _ => inr []) (fun _ => inr []) (fun _ => inr []) emptyCsv
     = ([], inl (ErrorWith emptyFileMessage)).
Proof.
  split; [reflexivity|].
  apply (parseFile_rejects_empty_file (fun _ => inr []) (fun _ => inr [])
           (fun _ => inr []) emptyCsv).
  reflexivity.
Defined.

(** A file that is not empty does reach its strategy. *)
Lemma parseFile_starts_strategy_otherwise :
  fst (parseFile (fun _ => inr []) (fun _ => inr []) (fun _ => inr [])
         {| f_name := str "statement.csv"; f_type := str "text/csv"; f_size := 10 |})
  = [ParseCSV].
Proof. vm_compute; reflexivity. Qed.

End SimpleParserSpec.

(** ** The store *)

Module StoreSpec.
Import Store JSFacts Pipeline Similarity Examples.








(** The scenario of the specification read with two expenses of $10 each:
    the net is then 17 and the gross 23. *)
Lemma two_expenses_of_ten :
  let s :=
    {| transactions :=
         [ tx "a" 0 "Grocery Store" 10 "Shopping" expense;
           tx "b" 0 "Coffee Shop" 10 "Food & Dining" expense;
           tx "c" 0 "Merchant Refund" 3 "Refunds" income ];
       debitCardBalance := Num 0 |} in
  isNum (totalExpenses (getFinancialSummary s noWindows)) 17
  /\ isNum (totalSpending (getFinancialSummary s noWindows)) 23.
Proof. split; vm_compute; reflexivity. Qed.

(** *** Manual entry *)

(** C10.  For every call of [addManualTransaction] the transaction that is
    stored has the category that the categorizer gives for the supplied
    description, amount and type; the category passed by the caller is
    discarded, whatever it is: two calls that differ only in that category
    leave the same store. *)
Theorem addManualTransaction_recategorizes
    (cz : Categorizer.TransactionCategorizer) (s : TransactionStore)
    (newId : jstring) (t : Transaction) :
  (exists stored,
      transactions (addManualTransaction cz s newId t) = transactions s ++ [stored]
      /\ t_category stored
         = Categorizer.categorizeTransaction cz (t_description t) (t_amount t)
             (Some (t_type t))
      /\ t_description stored = t_description t
      /\ t_amount stored = t_amount t
      /\ t_type stored = t_type t)
  /\ forall callerCategory,
      addManualTransaction cz s newId (setCategory callerCategory t)
      = addManualTransaction cz s newId t.
Proof.
  split.
  - eexists; split; [reflexivity|]. repeat split.
  - intros c. reflexivity.
Qed.

(** A category that is valid for the type is replaced too. *)
Lemma addManualTransaction_replaces_valid_category :
  List.map t_category
    (transactions
       (addManualTransaction Categorizer.initial empty (str "m1")
          (tx "" 0 "Starbucks Coffee" 5 "Shopping" expense)))
  = [str "Food & Dining"].
Proof. vm_compute; reflexivity. Qed.

(** *** Updates *)

(** C7, as stated, fails.  After the description of a transaction filed
    under "Food & Dining" is changed to "Shell Gas Station" the stored
    category is still "Food & Dining", while the categorizer gives
    "Transportation" for the updated transaction. *)
Lemma updateTransaction_keeps_category_counterexample :
  exists t,
    transactions (updateTransaction updateExample (str "t1") renameToShell) = [t]
    /\ t_description t = str "Shell Gas Station"
    /\ t_category t = str "Food & Dining"
    /\ Categorizer.categorizeTransaction Categorizer.initial (t_description t)
         (t_amount t) (Some (t_type t)) = str "Transportation"
    /\ t_category t
       <> Categorizer.categorizeTransaction Categorizer.initial (t_description t)
            (t_amount t) (Some (t_type t)).
Proof.
  eexists. split; [vm_compute; reflexivity|]. simpl.
  split; [reflexivity|]. split; [reflexivity|]. split; [vm_compute; reflexivity|].
  vm_compute. discriminate.
Qed.

Lemma updateFirst_at (id : jstring) (u : Updates) (before after : list Transaction)
    (t : Transaction) :
  (forall x, In x before -> t_id x <> id) -> t_id t = id ->
  updateFirst id u (before ++ t :: after) = before ++ spread t u :: after.
Proof.
  intros Hb Ht. induction before as [|x before IH]; simpl.
  - rewrite Ht, jeqb_refl. reflexivity.
  - assert (Hx : jeqb (t_id x) id = false) by (apply jeqb_neq, Hb; left; reflexivity).
    rewrite Hx. f_equal. apply IH. intros y Hy. apply Hb. right; exact Hy.
Qed.

(** C7, amended.  [updateTransaction] replaces the first transaction that
    has the given id by the same transaction with the supplied fields
    overwritten, and leaves every other transaction as it was.  The
    category of the updated transaction is the supplied category when the
    update carries one, and the category it had before otherwise: the
    categorizer is not consulted. *)
Theorem updateTransaction_overwrites_fields
    (s : TransactionStore) (id : jstring) (u : Updates)
    (before after : list Transaction) (t : Transaction) :
  transactions s = before ++ t :: after ->
  (forall x, In x before -> t_id x <> id) ->
  t_id t = id ->
  transactions (updateTransaction s id u) = before ++ spread t u :: after
  /\ t_category (spread t u) = default (t_category t) (u_category u)
  /\ t_description (spread t u) = default (t_description t) (u_description u)
  /\ t_amount (spread t u) = default (t_amount t) (u_amount u)
  /\ t_type (spread t u) = default (t_type t) (u_type u)
  /\ t_date (spread t u) = default (t_date t) (u_date u).
Proof.
  intros Hs Hb Ht. split; [|repeat split].
  unfold updateTransaction; simpl. rewrite Hs. apply updateFirst_at; assumption.
Qed.

Lemma updateTransaction_overwrites_fields_witness :
  transactions (updateTransaction updateExample (str "t1") renameToShell)
  = [] ++ spread (tx "t1" 0 "Starbucks Coffee" 5 "Food & Dining" expense) renameToShell
       :: []
  /\ t_category (spread (tx "t1" 0 "Starbucks Coffee" 5 "Food & Dining" expense)
                   renameToShell)
     = str "Food & Dining".
Proof.
  destruct (updateTransaction_overwrites_fields updateExample (str "t1") renameToShell
              [] [] (tx "t1" 0 "Starbucks Coffee" 5 "Food & Dining" expense))
    as (H1 & H2 & _).
  - reflexivity.
  - intros x [].
  - reflexivity.
  - split; [exact H1 | exact H2].
Defined.

(** X4.  An update without a matching id changes nothing. *)
Lemma updateTransaction_unknown_id (s : TransactionStore) (id : jstring) (u : Updates) :
  (forall x, In x (transactions s) -> t_id x <> id) ->
  transactions (updateTransaction s id u) = transactions s.
Proof.
  unfold updateTransaction; simpl. induction (transactions s) as [|x l IH]; intros H.
  - reflexivity.
  - simpl. assert (Hx : jeqb (t_id x) id = false) by (apply jeqb_neq, H; left; reflexivity).
    rewrite Hx. f_equal. apply IH. intros y Hy. apply H. right; exact Hy.
Qed.

(** *** Amounts *)

Lemma amountOk_setType ty t : amountOk t -> amountOk (setType ty t).
Proof. intros H; exact H. Qed.

Lemma amountOk_setCategory c t : amountOk t -> amountOk (setCategory c t).
Proof. intros H; exact H. Qed.

(** [SimpleTransactionParser.createTransaction] rejects an amount that is
    not a number or is zero, and records the signed amount next to its
    magnitude. *)
Lemma simple_createTransaction_amount h cz newId dateStr description amountStr t :
  SimpleParser.createTransaction h cz newId dateStr description amountStr = Some t ->
  exists oa,
    t_originalAmount t = Some oa /\ t_amount t = abs oa
    /\ isNaN oa = false /\ strictEq oa (Num 0) = false.
Proof.
  unfold SimpleParser.createTransaction.
  destruct (SimpleParser.parseDate _ _) as [date|]; [|discriminate].
  set (oa := parseFloat _).
  destruct (isNaN oa || strictEq oa (Num 0)) eqn:Hbad; [discriminate|].
  apply orb_false_iff in Hbad as [Hnan Hzero].
  destruct (_ <? 3)%nat; [discriminate|].
  destruct (SimpleParser.isNonSpendingTransaction _); [discriminate|].
  intros [= <-]. exists oa. repeat split; assumption.
Qed.

Lemma parseAmount_sound amountStr oa :
  PdfParser.parseAmount amountStr = Some oa ->
  isNaN oa = false /\ strictEq oa (Num 0) = false.
Proof.
  unfold PdfParser.parseAmount.
  set (v := PdfParser.signedAmount _).
  destruct (isNaN v || strictEq v (Num 0)) eqn:Hbad; [discriminate|].
  apply orb_false_iff in Hbad. intros [= <-]. exact Hbad.
Qed.

(** [PDFTransactionParser.createTransaction] does the same, without
    recording the signed amount. *)
Lemma pdf_createTransaction_amount h newId dateStr description amountStr allow t :
  PdfParser.createTransaction h newId dateStr description amountStr allow = Some t ->
  exists oa,
    PdfParser.parseAmount amountStr = Some oa
    /\ t_originalAmount t = None /\ t_amount t = abs oa.
Proof.
  unfold PdfParser.createTransaction.
  destruct (PdfParser.parseAmount amountStr) as [oa|]; [|discriminate].
  destruct (negb allow && _); [discriminate|].
  destruct (PdfParser.parseDate _ _) as [date|]; [|discriminate].
  destruct (_ <? 2)%nat; [discriminate|].
  intros [= <-]. exists oa. repeat split.
Qed.

Lemma parserMade_amountOk t : parserMade t -> amountOk t.
Proof.
  induction 1 as [h cz newId d desc a t H | h newId d desc a allow t H | |].
  - apply simple_createTransaction_amount in H as (oa & Ho & Ha & Hn & Hz).
    split.
    + rewrite Ha. apply abs_positive; assumption.
    + intros oa' E. rewrite Ho in E. injection E as <-. exact Ha.
  - apply pdf_createTransaction_amount in H as (oa & Hp & Ho & Ha).
    apply parseAmount_sound in Hp as [Hn Hz]. split.
    + rewrite Ha. apply abs_positive; assumption.
    + intros oa' E. rewrite Ho in E. discriminate.
  - apply amountOk_setType; assumption.
  - apply amountOk_setCategory; assumption.
Qed.

(** C6, amended.  Every transaction held by a store that the parsing
    pipeline has filled (by [addTransactions] of transactions created by
    the two parsers, and by deletions) satisfies: amount =
    abs(originalAmount) whenever originalAmount is present, and amount > 0.
    Both [createTransaction] functions reject a zero amount.  Manual entry
    is outside this statement: [addManualTransaction] stores the amount it
    is given. *)
Theorem uploaded_amounts_positive (s : TransactionStore) :
  fromUploads s -> List.Forall amountOk (transactions s).
Proof.
  induction 1 as [balance | cz s news Hs IH Hnews | s id Hs IH]; simpl.
  - constructor.
  - apply List.Forall_app. split; [exact IH|].
    apply List.Forall_forall. intros t Ht.
    unfold validTransactions in Ht. apply List.filter_In in Ht as [Ht _].
    apply List.in_map_iff in Ht as (t0 & <- & Ht0).
    apply amountOk_setCategory, parserMade_amountOk.
    eapply List.Forall_forall in Hnews; eassumption.
  - apply List.Forall_forall. intros t Ht.
    apply List.filter_In in Ht as [Ht _].
    eapply List.Forall_forall in IH; eassumption.
Qed.

(** *** Duplicates *)

Lemma arrIncludes_In (l : list jstring) (x : jstring) :
  arrIncludes l x = true <-> In x l.
Proof.
  unfold arrIncludes. rewrite List.existsb_exists. split.
  - intros (y & Hy & E). apply jeqb_eq in E as ->. exact Hy.
  - intros H. exists x. split; [exact H | apply jeqb_refl].
Qed.

(** When the first list repeats no word, that count is the number of
    common words. *)
Lemma occurrences_common (words1 words2 : list jstring) :
  NoDup words1 ->
  occurrencesIn words1 words2 = size (setOf words1 ∩ setOf words2).
Proof.
  intros Hnd. unfold occurrencesIn, setOf.
  rewrite <- (size_list_to_set (C := gset jstring)).
  - f_equal. apply set_eq. intros x.
    rewrite elem_of_list_to_set, elem_of_intersection, !elem_of_list_to_set,
      !list_elem_of_In, List.filter_In, arrIncludes_In. reflexivity.
  - apply NoDup_ListNoDup, List.NoDup_filter, NoDup_ListNoDup, Hnd.
Qed.

Lemma similarity_cases (desc1 desc2 : jstring) :
  let words1 := significantWords (normalize desc1) in
  let words2 := significantWords (normalize desc2) in
  (normalize desc1 = normalize desc2 ->
   calculateDescriptionSimilarity desc1 desc2 = 1%Q)
  /\ (normalize desc1 <> normalize desc2 -> words1 = [] -> words2 = [] ->
      calculateDescriptionSimilarity desc1 desc2 = 1%Q)
  /\ (normalize desc1 <> normalize desc2 ->
      (words1 = [] /\ words2 <> []) \/ (words1 <> [] /\ words2 = []) ->
      calculateDescriptionSimilarity desc1 desc2 = 0%Q)
  /\ (normalize desc1 <> normalize desc2 -> words1 <> [] -> words2 <> [] ->
      calculateDescriptionSimilarity desc1 desc2
      = (inject_Z (Z.of_nat (occurrencesIn words1 words2))
         / inject_Z (Z.of_nat (size (setOf words1 ∪ setOf words2))))%Q).
Proof.
  intros words1 words2. unfold calculateDescriptionSimilarity.
  fold words1 words2. repeat split.
  - intros ->. rewrite jeqb_refl. reflexivity.
  - intros Hne -> ->. apply jeqb_neq in Hne. rewrite Hne. reflexivity.
  - intros Hne H. apply jeqb_neq in Hne. rewrite Hne.
    destruct H as [[-> H2] | [H1 ->]].
    + destruct words2; [contradiction | reflexivity].
    + destruct words1; [contradiction | reflexivity].
  - intros Hne H1 H2. apply jeqb_neq in Hne. rewrite Hne.
    destruct words1 as [|a l1] eqn:E1; [contradiction|].
    destruct words2 as [|b l2] eqn:E2; [contradiction|].
    unfold occurrencesIn, setOf. rewrite list_to_set_app_L. reflexivity.
Qed.

(** Where the existing description repeats none of its significant words
    and both descriptions have some, the similarity of the code is the
    Jaccard index of the specification. *)
Lemma similarity_is_jaccard (desc1 desc2 : jstring) :
  NoDup (significantWords (normalize desc1)) ->
  significantWords (normalize desc1) <> [] ->
  significantWords (normalize desc2) <> [] ->
  calculateDescriptionSimilarity desc1 desc2 = jaccardSimilarity desc1 desc2.
Proof.
  intros Hnd H1 H2. unfold jaccardSimilarity.
  destruct (similarity_cases desc1 desc2) as (Heq & _ & _ & Hratio).
  destruct (jeqb (normalize desc1) (normalize desc2)) eqn:E.
  - apply Heq, jeqb_eq, E.
  - rewrite Hratio; [|apply jeqb_neq, E|exact H1|exact H2].
    rewrite occurrences_common by exact Hnd. reflexivity.
Qed.

Lemma asDouble_cent : asDouble (Num amountThreshold) = Num centDouble.
Proof. vm_compute. reflexivity. Qed.

(** The amount test of the code passes exactly when the rounded difference
    of the doubles is not greater than the double 0.01. *)
Lemma amount_test (x y : number) :
  gt (abs (subDouble x y)) (asDouble (Num amountThreshold)) = false
  <-> withinOneCentRounded x y.
Proof.
  rewrite asDouble_cent. unfold withinOneCentRounded.
  destruct (subDouble x y) as [|d|sg].
  - split; [intros _; exact I | reflexivity].
  - change (gt (abs (Num d)) (Num centDouble))
      with (negb (Qle_bool (Qabs d) centDouble)).
    rewrite negb_false_iff. apply Qle_bool_iff.
  - split; [discriminate | intros []].
Qed.

(** Two doubles whose exact difference is at most 1/100 pass the amount
    test: rounding the difference does not take it past the double 0.01. *)
Lemma near_amounts_within (x y : number) (a b : Q) :
  asDouble x = Num a -> asDouble y = Num b ->
  (Qabs (a - b) <= amountThreshold)%Q -> withinOneCentRounded x y.
Proof.
  intros Ha Hb H. unfold withinOneCentRounded, subDouble. rewrite Ha, Hb.
  change (asDouble (sub (Num a) (Num b))) with (toDouble (a - b)).
  destruct (toDouble_below (a - b) 5764607523034235 (-59)) as (d & -> & Hd).
  - lia.
  - split; [lia | reflexivity].
  - eapply Qle_trans; [exact H|]. vm_compute. discriminate.
  - eapply Qle_trans; [exact Hd|]. vm_compute. discriminate.
Qed.

(** The similarity test in doubles.  A quotient of two counts, of which
    the divisor is at most [2 ^ 50], lies below 4/5 exactly when the double
    nearest to it lies below the double nearest to 0.8. *)
Lemma ratio_test_rounding (i u : Z) :
  0 <= i -> 0 < u <= 2 ^ 50 ->
  lt (toDouble (inject_Z i / inject_Z u)) (toDouble 0.8)
  = negb (Qle_bool 0.8 (inject_Z i / inject_Z u)).
Proof.
  intros Hi Hu.
  assert (E8 : toDouble 0.8 = Num (3602879701896397 # 4503599627370496))
    by (vm_compute; reflexivity).
  rewrite E8.
  assert (Hu0 : (0 < inject_Z u)%Q)
    by (change 0%Q with (inject_Z 0); rewrite <- Zlt_Qlt; lia).
  set (q := (inject_Z i / inject_Z u)%Q).
  destruct (Qle_bool 0.8 q) eqn:E; cbn [negb].
  - apply Qle_bool_iff in E.
    assert (Hmid : ((inject_Z 7205759403792794 - (1 # 2)) * 2 ^ (-53) < q)%Q).
    { eapply Qlt_le_trans; [|exact E]. vm_compute. reflexivity. }
    pose proof (toDouble_above q 7205759403792794 (-53) ltac:(lia)
                  ltac:(split; reflexivity) Hmid) as H.
    destruct (toDouble q) as [|d|sg].
    + contradiction.
    + unfold lt. apply negb_false_iff, Qle_bool_iff.
      eapply Qle_trans; [|exact H]. vm_compute. discriminate.
    + rewrite H. reflexivity.
  - assert (Hz : 5 * i < 4 * u).
    { destruct (Z_lt_le_dec (5 * i) (4 * u)) as [Hz | Hz]; [exact Hz | exfalso].
      assert (H : (0.8 <= q)%Q).
      { apply Qle_shift_div_l; [exact Hu0|]. unfold Qle. simpl. lia. }
      apply Qle_bool_iff in H. congruence. }
    assert (Hq0 : (0 <= q)%Q).
    { apply Qle_shift_div_l; [exact Hu0|]. rewrite Qmult_0_l.
      change 0%Q with (inject_Z 0). rewrite <- Zle_Qle. exact Hi. }
    assert (Hq : (Qabs q <= inject_Z 7205759403792793 * 2 ^ (-53))%Q).
    { rewrite Qabs_pos by exact Hq0.
      apply Qle_shift_div_r; [exact Hu0|]. unfold Qle. simpl. lia. }
    destruct (toDouble_below q 7205759403792793 (-53)) as (d & -> & Hd);
      [lia | split; [lia | reflexivity] | exact Hq |].
    unfold lt. apply negb_true_iff.
    destruct (Qle_bool _ d) eqn:Ed; [exfalso | reflexivity].
    apply Qle_bool_iff in Ed.
    assert (H : (3602879701896397 # 4503599627370496
                 <= inject_Z 7205759403792793 * 2 ^ (-53))%Q).
    { eapply Qle_trans; [exact Ed|]. eapply Qle_trans; [apply Qle_Qabs | exact Hd]. }
    vm_compute in H. apply H. reflexivity.
Qed.

Lemma size_setOf_le (l : list jstring) : (size (setOf l) <= List.length l)%nat.
Proof.
  unfold setOf. induction l as [|x l IH]; cbn [List.length].
  - rewrite list_to_set_nil, size_empty. lia.
  - rewrite list_to_set_cons, size_union_alt, size_singleton.
    assert (Hs : list_to_set l ∖ {[x]} ⊆ (list_to_set l : gset jstring)).
    { intros y Hy. apply elem_of_difference in Hy as [Hy _]. exact Hy. }
    apply subseteq_size in Hs. lia.
Qed.

(** The code compares the double [similarity] with the double [0.8]; the
    embedding compares the quotient with 4/5.  For descriptions of fewer
    than [2 ^ 50] words the two tests decide alike. *)
Lemma similarity_test_rounding (desc1 desc2 : jstring) :
  Z.of_nat (List.length (significantWords (normalize desc1)))
  + Z.of_nat (List.length (significantWords (normalize desc2))) <= 2 ^ 50 ->
  lt (toDouble (calculateDescriptionSimilarity desc1 desc2)) (toDouble 0.8)
  = negb (Qle_bool 0.8 (calculateDescriptionSimilarity desc1 desc2)).
Proof.
  intros Hsize. unfold calculateDescriptionSimilarity.
  assert (H1 : lt (toDouble 1) (toDouble 0.8) = negb (Qle_bool 0.8 1))
    by (vm_compute; reflexivity).
  assert (H0 : lt (toDouble 0) (toDouble 0.8) = negb (Qle_bool 0.8 0))
    by (vm_compute; reflexivity).
  destruct (jeqb _ _); [exact H1|].
  set (words1 := significantWords (normalize desc1)) in *.
  set (words2 := significantWords (normalize desc2)) in *.
  pose proof (size_setOf_le (words1 ++ words2)) as Hle.
  rewrite List.length_app in Hle.
  assert (Hpos : words1 <> [] -> (0 < size (setOf (words1 ++ words2)))%nat).
  { intros Hne. destruct words1 as [|w l]; [contradiction|].
    assert (Hin : w ∈ setOf ((w :: l) ++ words2))
      by (apply elem_of_list_to_set; left).
    destruct (size (setOf ((w :: l) ++ words2))) eqn:Es; [exfalso | lia].
    apply size_empty_iff in Es. apply Es in Hin.
    exact (not_elem_of_empty (C := gset jstring) w Hin). }
  destruct words1 as [|w1 l1] eqn:E1; destruct words2 as [|w2 l2] eqn:E2;
    [exact H1 | exact H0 | exact H0 |].
  apply ratio_test_rounding; [lia|].
  specialize (Hpos ltac:(discriminate)). lia.
Qed.

Lemma duplicateOf_iff (newTransaction existing : Transaction) :
  duplicateOf newTransaction existing = true
  <-> fourConditions withinOneCentRounded calculateDescriptionSimilarity
        newTransaction existing.
Proof.
  unfold duplicateOf, fourConditions.
  destruct (dateThreshold <? _) eqn:Hd.
  { apply Z.ltb_lt in Hd. split; [discriminate | intros [H _]; lia]. }
  apply Z.ltb_ge in Hd.
  destruct (gt (abs (subDouble _ _)) _) eqn:Hm.
  { split; [discriminate|]. intros (_ & H & _).
    apply amount_test in H. congruence. }
  apply amount_test in Hm.
  destruct (Qle_bool 0.8 _) eqn:Hs; cbn [negb].
  2:{ split; [discriminate|]. intros (_ & _ & _ & H).
      apply Qle_bool_iff in H. congruence. }
  apply Qle_bool_iff in Hs.
  destruct (TxType_eqb _ _) eqn:Ht; cbn [negb].
  - apply TxType_eqb_eq in Ht. split; [|reflexivity]. intros _. repeat split; assumption.
  - split; [discriminate|]. intros (_ & _ & H & _).
    apply TxType_eqb_eq in H. congruence.
Qed.

Lemma isDuplicate_recategorize cz s t :
  isDuplicateTransaction s (recategorize cz t) = isDuplicateTransaction s t.
Proof. reflexivity. Qed.

Lemma duplicate_not_added cz s batch t :
  isDuplicateTransaction s t = true ->
  ~ In (recategorize cz t) (validTransactions cz s batch).
Proof.
  intros Hdup Hin. unfold validTransactions in Hin.
  apply List.filter_In in Hin as [_ H].
  rewrite isDuplicate_recategorize, Hdup in H. discriminate.
Qed.

(** C4, as stated, fails.  Against an existing "aaa aaa aaa aaa bbb" the
    new "aaa ccc" (same day, amount and type) is judged a duplicate,
    although the two have one word in common out of three: the common
    words over the union is 1/3, below 0.80.  And "UA 7" is judged a
    duplicate of "BP 12": they differ after normalization, have no word in
    common and no word longer than two characters at all.  The amounts are
    compared as doubles.  An amount of 20.01 is not judged a duplicate of
    an amount of 20.00 with the same date, type and description, although
    they differ by one cent: the double nearest to 20.01 is more than 0.01
    above 20.  And 0.02 is judged a duplicate of 0.01, although the double
    nearest to 0.02 exceeds the double nearest to 0.01 by more than
    1/100. *)
Lemma duplicate_test_counterexample :
  (duplicateOf singleWord repeatedWord = true
   /\ ~ fourConditions withinOneCent jaccardSimilarity singleWord repeatedWord
   /\ (jaccardSimilarity (t_description repeatedWord) (t_description singleWord)
       == 1 # 3)%Q
   /\ (calculateDescriptionSimilarity (t_description repeatedWord)
         (t_description singleWord) == 4 # 3)%Q)
  /\ (duplicateOf otherShortWords onlyShortWords = true
      /\ normalize (t_description onlyShortWords)
         <> normalize (t_description otherShortWords)
      /\ significantWords (normalize (t_description onlyShortWords)) = []
      /\ significantWords (normalize (t_description otherShortWords)) = []
      /\ ~ fourConditions withinOneCent jaccardSimilarity otherShortWords
            onlyShortWords)
  /\ (duplicateOf oneCentMore twentyDollars = false
      /\ fourConditions withinOneCent jaccardSimilarity oneCentMore twentyDollars)
  /\ (duplicateOf twoCents oneCent = true
      /\ ~ withinOneCent (asDouble (t_amount oneCent)) (asDouble (t_amount twoCents))).
Proof.
  assert (Hj : (jaccardSimilarity (t_description repeatedWord)
                   (t_description singleWord) == 1 # 3)%Q)
    by (vm_compute; reflexivity).
  assert (Hk : (jaccardSimilarity (t_description onlyShortWords)
                   (t_description otherShortWords) == 0)%Q)
    by (vm_compute; reflexivity).
  split; [|split; [|split]].
  - split; [vm_compute; reflexivity|].
    split; [|split; [exact Hj | vm_compute; reflexivity]].
    intros (_ & _ & _ & H). rewrite Hj in H. revert H. apply Qlt_not_le. reflexivity.
  - split; [vm_compute; reflexivity|].
    split; [vm_compute; discriminate|].
    split; [vm_compute; reflexivity|]. split; [vm_compute; reflexivity|].
    intros (_ & _ & _ & H). rewrite Hk in H. revert H. apply Qlt_not_le. reflexivity.
  - split; [vm_compute; reflexivity|].
    split; [vm_compute; discriminate|].
    split; [vm_compute; discriminate|].
    split; [reflexivity|]. vm_compute. discriminate.
  - split; [vm_compute; reflexivity|].
    intros H. vm_compute in H. apply H. reflexivity.
Qed.

(** C4, amended.  The duplicate test of the store holds for a new
    transaction against an existing one if and only if the dates differ by
    at most one day, the difference of the amounts, computed in double
    precision, is not greater than 0.01, the types are equal, and the
    description similarity is at least 0.80.  Two amounts whose doubles
    differ by at most 1/100 exactly pass the amount test.  The similarity
    is 1 for identical normalized strings and when neither description has
    a word longer than 2 characters, 0 when only one has none, and, when
    the existing description repeats none of its words longer than 2
    characters, the number of such words common to both divided by the
    size of the union of such words.  A transaction judged duplicate of one
    in the store is not added by [addTransactions]. *)
Theorem duplicate_test_four_conditions
    (cz : Categorizer.TransactionCategorizer) (s : TransactionStore)
    (newTransaction existing : Transaction) :
  let desc1 := t_description existing in
  let desc2 := t_description newTransaction in
  let words1 := significantWords (normalize desc1) in
  let words2 := significantWords (normalize desc2) in
  (duplicateOf newTransaction existing = true
   <-> fourConditions withinOneCentRounded calculateDescriptionSimilarity
         newTransaction existing)
  /\ (forall a b : Q,
        asDouble (t_amount existing) = Num a ->
        asDouble (t_amount newTransaction) = Num b ->
        (Qabs (a - b) <= amountThreshold)%Q ->
        withinOneCentRounded (t_amount existing) (t_amount newTransaction))
  /\ (normalize desc1 = normalize desc2 ->
      calculateDescriptionSimilarity desc1 desc2 = 1%Q)
  /\ (normalize desc1 <> normalize desc2 -> words1 = [] -> words2 = [] ->
      calculateDescriptionSimilarity desc1 desc2 = 1%Q)
  /\ (normalize desc1 <> normalize desc2 ->
      (words1 = [] /\ words2 <> []) \/ (words1 <> [] /\ words2 = []) ->
      calculateDescriptionSimilarity desc1 desc2 = 0%Q)
  /\ (NoDup words1 -> words1 <> [] -> words2 <> [] ->
      calculateDescriptionSimilarity desc1 desc2 = jaccardSimilarity desc1 desc2)
  /\ (In existing (transactions s) -> duplicateOf newTransaction existing = true ->
      isDuplicateTransaction s newTransaction = true)
  /\ (isDuplicateTransaction s newTransaction = true ->
      forall batch,
        ~ In (recategorize cz newTransaction) (validTransactions cz s batch)
        /\ transactions (addTransactions cz s batch)
           = transactions s ++ validTransactions cz s batch).
Proof.
  intros desc1 desc2 words1 words2.
  destruct (similarity_cases desc1 desc2) as (H1 & H2 & H3 & _).
  split; [exact (duplicateOf_iff _ _)|].
  split; [intros a b; apply near_amounts_within|].
  split; [exact H1|]. split; [exact H2|]. split; [exact H3|].
  split; [apply similarity_is_jaccard|]. split.
  - intros Hin Hd. unfold isDuplicateTransaction. apply List.existsb_exists.
    exists existing. split; assumption.
  - intros Hd batch. split; [apply duplicate_not_added; exact Hd | reflexivity].
Qed.

Lemma duplicate_test_four_conditions_witness :
  duplicateOf coffeeAgain coffeeStored = true
  /\ withinOneCentRounded (t_amount coffeeStored) (t_amount coffeeAgain)
  /\ fourConditions withinOneCentRounded calculateDescriptionSimilarity coffeeAgain
       coffeeStored
  /\ transactions (addTransactions Categorizer.initial coffeeStore [coffeeAgain])
     = [coffeeStored].
Proof.
  destruct (duplicate_test_four_conditions Categorizer.initial coffeeStore
              coffeeAgain coffeeStored)
    as (Hiff & Hnear & _ & _ & _ & _ & Hin & Hnot).
  assert (Hd : duplicateOf coffeeAgain coffeeStored = true) by (vm_compute; reflexivity).
  split; [exact Hd|]. split; [|split; [apply Hiff; exact Hd|]].
  - eapply Hnear; [vm_compute; reflexivity | vm_compute; reflexivity |].
    vm_compute. discriminate.
  - vm_compute; reflexivity.
Defined.

(** C6, as stated, fails.  Manual entry of a transaction with amount 0 is
    not rejected: the store then holds a transaction whose amount is not
    positive. *)
Lemma addManualTransaction_accepts_zero_counterexample :
  exists t,
    transactions (addManualTransaction Categorizer.initial empty (str "m1") freeSample)
    = [t]
    /\ isNum (t_amount t) 0
    /\ gt (t_amount t) (Num 0) = false
    /\ ~ amountOk t.
Proof.
  eexists. split; [vm_compute; reflexivity|]. simpl.
  split; [reflexivity|]. split; [reflexivity|].
  intros [H _]. vm_compute in H. discriminate.
Qed.

Lemma uploaded_amounts_positive_witness :
  exists t,
    SimpleParser.createTransaction (UtcHost.host 2026 []) Categorizer.initial
      (str "u1") (str "03/15/2024") (str "Starbucks Coffee") (str "-5.75") = Some t
    /\ isNum (t_amount t) 5.75
    /\ List.Forall amountOk
         (transactions (addTransactions Categorizer.initial empty [t])).
Proof.
  eexists. split; [vm_compute; reflexivity|]. split; [vm_compute; reflexivity|].
  apply uploaded_amounts_positive.
  apply up_add; [apply up_empty|].
  constructor; [|constructor].
  eapply made_simple with (h := UtcHost.host 2026 []) (cz := Categorizer.initial)
    (newId := str "u1") (dateStr := str "03/15/2024")
    (description := str "Starbucks Coffee") (amountStr := str "-5.75").
  vm_compute; reflexivity.
Defined.

End StoreSpec.

(** ** The PDF parser *)

Module PdfParserSpec.
Import PdfParser JSFacts Examples.

(** *** Deduplication *)

Section Dedupe.
Variable toISOString : Z -> jstring.
Variable toFixed2 : number -> jstring.

Local Abbreviation dedupe := (dedupe toISOString toFixed2).
Local Abbreviation keeps := (keeps toISOString toFixed2).

(** A second pass that starts from the same [seen] keeps everything the
    first pass kept: each kept transaction meets the very map it met the
    first time. *)
Lemma dedupe_idempotent (l : list Transaction) :
  forall seen : gmap jstring Transaction, dedupe seen (dedupe seen l) = dedupe seen l.
Proof.
  induction l as [|t l IH]; intros seen; simpl.
  - reflexivity.
  - destruct (keeps seen t) eqn:K.
    + simpl. rewrite K. f_equal. apply IH.
    + apply IH.
Qed.

(** The result is a sublist of the input: nothing is added or reordered. *)
Lemma dedupe_sublist (l : list Transaction) :
  forall seen : gmap jstring Transaction, sublist (dedupe seen l) l.
Proof.
  induction l as [|t l IH]; intros seen; simpl.
  - constructor.
  - destruct (keeps seen t).
    + apply sublist_skip, IH.
    + apply sublist_cons, IH.
Qed.

(** The function does remove: of two copies of a transaction the second
    is dropped. *)
Lemma removeDuplicates_drops_copy (t : Transaction) :
  removeDuplicates toISOString toFixed2 [t; t] = [t].
Proof.
  unfold removeDuplicates, PdfParser.dedupe, PdfParser.keeps.
  rewrite !lookup_empty, lookup_insert_eq. reflexivity.
Qed.

(** C5.  The parse-time deduplication is idempotent: for every list of
    transactions, [removeDuplicates] applied to its own output returns that
    output unchanged. *)
Theorem removeDuplicates_idempotent (l : list Transaction) :
  removeDuplicates toISOString toFixed2 (removeDuplicates toISOString toFixed2 l)
  = removeDuplicates toISOString toFixed2 l.
Proof. apply dedupe_idempotent. Qed.

End Dedupe.

(** *** Amounts *)

Import Amounts RegexFacts.

Lemma amountUnit_not_equals (c : N) : amountUnit c = true -> N.eqb 61 c = false.
Proof.
  intros H. destruct (N.eqb_spec 61 c) as [<-|]; [|reflexivity].
  vm_compute in H. discriminate.
Qed.

Lemma amountUnit_not_space (c : N) : amountUnit c = true -> isSpace c = false.
Proof.
  unfold amountUnit, dashes, isDigit, inRange; simpl. intros H.
  repeat (apply orb_true_iff in H as [H|H]);
    try (apply andb_true_iff in H as [H1 H2]; apply N.leb_le in H1, H2);
    try (apply N.eqb_eq in H; subst c; reflexivity);
    try discriminate.
  unfold isSpace, inRange.
  repeat (apply orb_false_iff; split);
    try (apply andb_false_iff);
    try (apply N.eqb_neq; lia).
  - right. apply N.leb_gt. lia.
  - left. apply N.leb_gt. lia.
Qed.

Lemma amountUnit_not_lower (c : N) : amountUnit c = true -> isLower c = false.
Proof.
  unfold amountUnit, dashes, isDigit, inRange; simpl. intros H.
  repeat (apply orb_true_iff in H as [H|H]);
    try (apply andb_true_iff in H as [H1 H2]; apply N.leb_le in H1, H2);
    try (apply N.eqb_eq in H; subst c; reflexivity);
    try discriminate.
  unfold isLower, inRange. apply andb_false_iff. left. apply N.leb_gt. lia.
Qed.

(** No key of the correction table is a plainly written amount: the keys
    start with a letter. *)
Lemma lookupCorrection_plain (s : jstring) :
  List.forallb amountUnit s = true -> lookupCorrection ocrCorrections s = None.
Proof.
  intros Hs.
  assert (Hkeys : List.Forall
            (fun kv => exists x rest, str (fst kv) = x :: rest /\ isLower x = true)
            ocrCorrections).
  { repeat constructor; eexists; eexists; split; reflexivity. }
  induction Hkeys as [|[k v] tbl (x & rest & Hk & Hx) _ IH]; simpl; [reflexivity|].
  simpl in Hk. rewrite Hk. destruct s as [|c s']; simpl; [exact IH|].
  simpl in Hs. apply andb_true_iff in Hs as [Hc _].
  apply amountUnit_not_lower in Hc.
  destruct (N.eqb_spec x c) as [->|]; [congruence|]. simpl. exact IH.
Qed.

Lemma stripGrouping_units (s : jstring) :
  List.forallb amountUnit s = true -> List.forallb amountUnit (stripGrouping s) = true.
Proof.
  rewrite !List.forallb_forall. intros H c Hc.
  apply List.filter_In in Hc as [Hc _]. apply H, Hc.
Qed.

Lemma stripGrouping_keeps_point (s : jstring) :
  includes s (str ".") = true -> includes (stripGrouping s) (str ".") = true.
Proof.
  change (str ".") with [46%N]. rewrite !includes_unit, !List.existsb_exists.
  intros (c & Hc & E). exists c. split; [|exact E].
  apply List.filter_In. split; [exact Hc|].
  apply N.eqb_eq in E. subst c. reflexivity.
Qed.

(** On a plainly written amount, the cleaning of [createTransaction] only
    drops the dollar signs and the commas. *)
Lemma cleanAmount_plain (s : jstring) :
  plainAmount s -> cleanAmount s = stripGrouping s.
Proof.
  intros [Hs Hp]. unfold cleanAmount.
  assert (H1 : replaceFirst false (Seq Bol (lit "=")) (fun _ => []) s = s).
  { destruct s as [|c s']; [reflexivity|].
    unfold replaceFirst. rewrite exec_anchored_cons.
    change (lit "=") with (Chr 61).
    simpl in Hs. apply andb_true_iff in Hs as [Hc _].
    rewrite matchAt_anchored_unit by (apply amountUnit_not_equals, Hc). reflexivity. }
  rewrite H1.
  assert (H2 : decimalComma s = s).
  { unfold decimalComma. rewrite Hp, andb_false_r. reflexivity. }
  rewrite H2.
  assert (H3 : replaceAll false SimpleParser.dollarCommaSpace (fun _ => []) s
               = stripGrouping s).
  { unfold SimpleParser.dollarCommaSpace. rewrite replaceAll_class. unfold stripGrouping.
    apply List.filter_ext_in. intros c Hc.
    rewrite List.forallb_forall in Hs.
    rewrite (amountUnit_not_space c (Hs c Hc)), orb_false_r. reflexivity. }
  rewrite H3.
  rewrite lookupCorrection_plain by (apply stripGrouping_units, Hs).
  unfold restoreDecimalPoint. rewrite stripGrouping_keeps_point by exact Hp.
  reflexivity.
Qed.

Lemma parseAmount_plain (s : jstring) :
  plainAmount s -> parseAmount s = rejectZero (signedAmount (stripGrouping s)).
Proof. intros H. unfold parseAmount. rewrite cleanAmount_plain by exact H. reflexivity. Qed.

(** The sign test of [createTransaction]: a dash at the head of the cleaned
    text is taken off and negates the number read from the rest. *)
Lemma signedAmount_dash (d : N) (rest : jstring) :
  In d dashes -> signedAmount (d :: rest) = neg (parseFloat rest).
Proof.
  intros Hd. unfold signedAmount, startsWithDash.
  replace (List.existsb (N.eqb d) dashes) with true; [reflexivity|].
  symmetry. apply List.existsb_exists. exists d. split; [exact Hd | apply N.eqb_refl].
Qed.

Lemma parseAmount_dash (d : N) (body : jstring) :
  In d dashes -> plainAmount body ->
  parseAmount (d :: body) = rejectZero (neg (parseFloat (stripGrouping body))).
Proof.
  intros Hd [Hs Hp].
  assert (Hu : amountUnit d = true).
  { unfold amountUnit. apply orb_true_iff. right.
    apply List.existsb_exists. exists d. split; [exact Hd | apply N.eqb_refl]. }
  assert (Hk : negb (N.eqb d 36 || N.eqb d 44) = true).
  { destruct Hd as [<-|[<-|[<-|[<-|[]]]]]; reflexivity. }
  rewrite parseAmount_plain.
  - unfold stripGrouping at 1. simpl List.filter. rewrite Hk.
    fold (stripGrouping body). rewrite signedAmount_dash by exact Hd. reflexivity.
  - split.
    + simpl. rewrite Hu, Hs. reflexivity.
    + simpl. rewrite Hp. apply orb_true_r.
Qed.

Lemma parseAmount_None (amountStr : jstring) :
  parseAmount amountStr = None
  <-> isNaN (signedAmount (cleanAmount amountStr)) = true
      \/ strictEq (signedAmount (cleanAmount amountStr)) (Num 0) = true.
Proof.
  unfold parseAmount. set (v := signedAmount _).
  destruct (isNaN v || strictEq v (Num 0)) eqn:E.
  - apply orb_true_iff in E. tauto.
  - apply orb_false_iff in E as [E1 E2]. rewrite E1, E2.
    split; [discriminate | intros [H|H]; discriminate].
Qed.

Lemma createTransaction_rejects (h : Host) (newId dateStr description amountStr : jstring)
    (allowPayments : bool) :
  parseAmount amountStr = None ->
  createTransaction h newId dateStr description amountStr allowPayments = None.
Proof. intros H. unfold createTransaction. rewrite H. reflexivity. Qed.

Lemma createTransaction_magnitude (h : Host)
    (newId dateStr description amountStr : jstring) (allowPayments : bool) (t : Transaction) :
  createTransaction h newId dateStr description amountStr allowPayments = Some t ->
  exists v, parseAmount amountStr = Some v /\ t_amount t = abs v.
Proof.
  unfold createTransaction.
  destruct (parseAmount amountStr) as [v|]; [|discriminate].
  destruct (negb allowPayments && _); [discriminate|].
  destruct (parseDate _ _); [|discriminate].
  destruct (_ <? 2)%nat; [discriminate|].
  intros [= <-]. exists v. split; reflexivity.
Qed.

(** C3.  The amount parsing of [createTransaction] maps "$1,234.56" to
    1234.56 and, more generally, a plainly written amount with a decimal
    point to the number that is left when dollar signs and grouping commas
    are dropped; it maps the bare "1234" to 12.34, the last two digits
    being the cents; a leading dash, ASCII or one of the three Unicode
    dashes, is applied as a negative sign; the amount part gives up exactly
    when the number read is [NaN] or zero, and [createTransaction] then
    yields no transaction ([None]).  The amount of a created transaction is
    the magnitude of the number read. *)
Theorem amount_parsing :
  yields (parseAmount (str "$1,234.56")) 1234.56
  /\ (forall s, plainAmount s ->
        parseAmount s = rejectZero (signedAmount (stripGrouping s)))
  /\ yields (parseAmount (str "1234")) 12.34
  /\ (forall d rest, In d dashes -> signedAmount (d :: rest) = neg (parseFloat rest))
  /\ (forall d body, In d dashes -> plainAmount body ->
        parseAmount (d :: body) = rejectZero (neg (parseFloat (stripGrouping body))))
  /\ yields (parseAmount (hyphen :: str "5.25")) (-5.25)
  /\ yields (parseAmount (emDash :: str "5.25")) (-5.25)
  /\ yields (parseAmount (enDash :: str "5.25")) (-5.25)
  /\ yields (parseAmount (minusSign :: str "5.25")) (-5.25)
  /\ (forall amountStr,
        parseAmount amountStr = None
        <-> isNaN (signedAmount (cleanAmount amountStr)) = true
            \/ strictEq (signedAmount (cleanAmount amountStr)) (Num 0) = true)
  /\ (forall h newId dateStr description amountStr allowPayments,
        parseAmount amountStr = None ->
        createTransaction h newId dateStr description amountStr allowPayments = None)
  /\ parseAmount (str "0.00") = None
  /\ parseAmount (str "abc") = None
  /\ (forall h newId dateStr description amountStr allowPayments t,
        createTransaction h newId dateStr description amountStr allowPayments = Some t ->
        exists v, parseAmount amountStr = Some v /\ t_amount t = abs v).
Proof.
  split; [vm_compute; reflexivity|].
  split; [exact parseAmount_plain|].
  split; [vm_compute; reflexivity|].
  split; [exact signedAmount_dash|].
  split; [exact parseAmount_dash|].
  do 4 (split; [vm_compute; reflexivity|]).
  split; [exact parseAmount_None|].
  split; [exact createTransaction_rejects|].
  do 2 (split; [vm_compute; reflexivity|]).
  exact createTransaction_magnitude.
Qed.

(** The parts of C3 at work on a statement line: "$1,234.56" gives a
    transaction of amount 1234.56, "0.00" gives none. *)
Lemma amount_parsing_witness :
  (exists t,
      createTransaction (UtcHost.host 2026 []) (str "p1") (str "06/10/2025")
        (str "ACME HARDWARE") (str "$1,234.56") false = Some t
      /\ isNum (t_amount t) 1234.56)
  /\ createTransaction (UtcHost.host 2026 []) (str "p2") (str "06/10/2025")
       (str "ACME HARDWARE") (str "0.00") false = None
  /\ parseAmount (minusSign :: str "$1,234.56")
     = rejectZero (neg (parseFloat (str "1234.56"))).
Proof.
  destruct amount_parsing
    as (_ & _ & _ & _ & Hdash & _ & _ & _ & _ & _ & Hrej & Hzero & _ & Hmag).
  split; [|split].
  - eexists. split; [vm_compute; reflexivity|]. vm_compute; reflexivity.
  - apply Hrej. exact Hzero.
  - apply (Hdash minusSign (str "$1,234.56")).
    + right; right; right; left; reflexivity.
    + split; vm_compute; reflexivity.
Defined.

(** *** The Bank of America sections *)

Lemma forceBySection_type section t :
  t_type (forceBySection section t)
  = match section with credits => income | expenses => expense end.
Proof. destruct section; reflexivity. Qed.

Lemma forceBySection_category t :
  t_category (forceBySection credits t) = str "Refunds".
Proof. reflexivity. Qed.

Lemma tryAlternatives_forced h newId line section t patterns :
  forall i,
    tryAlternatives h newId line section i patterns = Some t ->
    exists t0, t = forceBySection section t0.
Proof.
  induction patterns as [|pattern rest IH]; intros i; simpl; [discriminate|].
  destruct (exec false pattern line) as [m|]; [|apply IH].
  destruct (match i with 0%nat => _ | _ => _ end) as [[dateStr description] amountStr].
  destruct (createTransaction h newId dateStr description amountStr true) as [t0|];
    [|apply IH].
  intros [= <-]. exists t0; reflexivity.
Qed.

(** What both line parsers do establish: a transaction produced in the
    credits section is an income filed under "Refunds", one produced in the
    expenses section is an expense. *)
Lemma tabular_line_forced h newId line section t :
  parseBankOfAmericaTabularLine h newId line section = Some t ->
  t_type t = match section with credits => income | expenses => expense end
  /\ (section = credits -> t_category t = str "Refunds").
Proof.
  intros H.
  assert (Hf : exists t0, t = forceBySection section t0).
  { revert H. unfold parseBankOfAmericaTabularLine, parseAlternativeBOAFormat.
    destruct (_ || _); [discriminate|].
    destruct (_ <? 4)%nat; [apply tryAlternatives_forced|].
    destruct (leadingDate _) as [transDate|]; [|apply tryAlternatives_forced].
    destruct (findAmount _ _ _) as [[amountIndex amount]|];
      [|apply tryAlternatives_forced].
    destruct (_ <? 3)%nat; [discriminate|].
    destruct amount; [discriminate|].
    destruct (createTransaction _ _ _ _ _ _) as [t0|]; [|discriminate].
    destruct section.
    - destruct (mentionsCardPayment _); [discriminate|].
      intros [= <-]. exists t0; reflexivity.
    - intros [= <-]. exists t0; reflexivity. }
  destruct Hf as (t0 & ->). split.
  - apply forceBySection_type.
  - intros ->. reflexivity.
Qed.

(** The path through the date and amount columns checks the description
    once more after the line is cleaned, and discards the payment. *)
Lemma tabular_path_discards_payment h newId :
  parseBankOfAmericaTabularLine h newId
    (str "06/10 06/11 Payment  From CHK 9192 367.10") credits = None.
Proof.
  destruct h as [year make ofString today]. vm_compute.
  destruct (make 2025 5 10); [reflexivity|].
  destruct (make 6 9 2025); [reflexivity|].
  destruct (ofString _); reflexivity.
Qed.

(** The single-spaced line is discarded by the test on the raw line. *)
Lemma raw_line_test_discards_payment h newId :
  parseBankOfAmericaTabularLine h newId
    (str "06/10 Payment From CHK 9192 367.10") credits = None.
Proof. reflexivity. Qed.

(** A payment described as "PAYMENT - THANK YOU", which the first loop of
    the section walk would skip, is unknown to the test of the line
    parser: it is produced as income under "Refunds". *)
Lemma thank_you_payment_is_typed_refund h newId d :
  newDate h 2025 5 15 = Some d ->
  exists t,
    parseBankOfAmericaTabularLine h newId
      (str "06/15 06/15 PAYMENT - THANK YOU 1234 5678 -500.00") credits = Some t
    /\ t_description t = str "PAYMENT - THANK YOU"
    /\ t_type t = income
    /\ t_category t = str "Refunds".
Proof.
  intros H. destruct h as [year make ofString today]. simpl in H.
  eexists. split.
  - vm_compute. rewrite H. reflexivity.
  - repeat split; vm_compute; reflexivity.
Qed.

(** C2, evaluated where it fails.  In the credits section the line
    "06/10 Payment  From CHK 9192 367.10" (two spaces after "Payment")
    passes the test on the raw line, has no second date and so goes to
    [parseAlternativeBOAFormat], which types what it creates by the section
    without looking at the description again: a transaction is produced,
    as income under "Refunds", whose description "Payment From CHK 9192"
    matches the credit-card-payment test. *)
Theorem alternative_path_keeps_card_payment (h : Host) (newId : jstring) (d : Z) :
  newDate h 2025 5 10 = Some d ->
  exists t,
    parseBankOfAmericaTabularLine h newId paymentLine credits = Some t
    /\ t_description t = str "Payment From CHK 9192"
    /\ mentionsCardPayment (toLowerCase (t_description t)) = true
    /\ t_type t = income
    /\ t_category t = str "Refunds"
    /\ isNum (t_amount t) 367.10.
Proof.
  intros H. destruct h as [year make ofString today]. simpl in H.
  eexists. split.
  - vm_compute. rewrite H. reflexivity.
  - repeat split; vm_compute; reflexivity.
Qed.

Lemma alternative_path_keeps_card_payment_witness :
  exists t,
    parseBankOfAmericaTabularLine (UtcHost.host 2026 (str "11/1/2026")) (str "b1")
      paymentLine credits = Some t
    /\ t_description t = str "Payment From CHK 9192"
    /\ mentionsCardPayment (toLowerCase (t_description t)) = true
    /\ t_type t = income
    /\ t_category t = str "Refunds"
    /\ isNum (t_amount t) 367.10.
Proof.
  apply (alternative_path_keeps_card_payment (UtcHost.host 2026 (str "11/1/2026"))
           (str "b1") 1749513600000).
  vm_compute; reflexivity.
Defined.

(** The same line inside a statement: when the comprehensive scan finds
    nothing, the walk over the sections returns that transaction. *)
Lemma sections_return_card_payment (h : Host)
    (extractAllTransactionPatterns : jstring -> list Transaction)
    (idOfLine : nat -> jstring) (d : Z) :
  newDate h 2025 5 10 = Some d ->
  extractAllTransactionPatterns (join [10%N] paymentStatement) = [] ->
  exists t,
    parseBankOfAmericaCreditCardSections h extractAllTransactionPatterns idOfLine
      paymentStatement = [t]
    /\ mentionsCardPayment (toLowerCase (t_description t)) = true
    /\ t_type t = income
    /\ t_category t = str "Refunds".
Proof.
  intros H He. destruct h as [year make ofString today]. simpl in H.
  unfold parseBankOfAmericaCreditCardSections. rewrite He.
  eexists. split.
  - vm_compute. rewrite H. reflexivity.
  - repeat split; vm_compute; reflexivity.
Qed.

End PdfParserSpec.

(** ** The store: uploads, deletions and updates *)

Module StoreLaws.
Import Store JSFacts Similarity Examples StoreSpec.

Lemma toDouble_zero (q : Q) : (q == 0)%Q -> toDouble q = Num 0.
Proof.
  intros H. unfold toDouble. apply Qeq_bool_iff in H. rewrite H. reflexivity.
Qed.

(** An amount passes the amount test against itself, whatever it is. *)
Lemma withinOneCentRounded_refl (x : number) : withinOneCentRounded x x.
Proof.
  unfold withinOneCentRounded, subDouble.
  destruct (asDouble x) as [|a|sg].
  - exact I.
  - change (asDouble (sub (Num a) (Num a))) with (toDouble (a - a)).
    rewrite toDouble_zero by ring. vm_compute. discriminate.
  - destruct sg; exact I.
Qed.

(** The duplicate test reads the date, the amount, the description and the
    type only: two transactions that agree on these are duplicates. *)
Lemma duplicateOf_same_fields (newTransaction existing : Transaction) :
  t_date existing = t_date newTransaction ->
  t_amount existing = t_amount newTransaction ->
  t_description existing = t_description newTransaction ->
  t_type existing = t_type newTransaction ->
  duplicateOf newTransaction existing = true.
Proof.
  intros Hd Ha Hs Ht. apply duplicateOf_iff. unfold fourConditions.
  rewrite Hd, Ha, Hs, Ht. split; [|split; [|split]].
  - rewrite Z.sub_diag. vm_compute. discriminate.
  - apply withinOneCentRounded_refl.
  - reflexivity.
  - destruct (similarity_cases (t_description newTransaction)
                (t_description newTransaction)) as (H & _).
    rewrite H by reflexivity. vm_compute. discriminate.
Qed.

Lemma filter_none {A} (f : A -> bool) (l : list A) :
  (forall x, In x l -> f x = false) -> List.filter f l = [].
Proof.
  induction l as [|x l IH]; intros H; simpl; [reflexivity|].
  rewrite (H x) by (left; reflexivity). apply IH. intros y Hy. apply H. right; exact Hy.
Qed.

Lemma filter_all {A} (f : A -> bool) (l : list A) :
  (forall x, In x l -> f x = true) -> List.filter f l = l.
Proof.
  induction l as [|x l IH]; intros H; simpl; [reflexivity|].
  rewrite (H x) by (left; reflexivity). f_equal. apply IH.
  intros y Hy. apply H. right; exact Hy.
Qed.

(** X1.  Uploading the same batch a second time adds nothing: after
    [addTransactions] every transaction of the batch duplicates a stored
    one, so the second call leaves the store as the first one left it. *)
Theorem addTransactions_twice (cz : Categorizer.TransactionCategorizer)
    (s : TransactionStore) (batch : list Transaction) :
  addTransactions cz (addTransactions cz s batch) batch = addTransactions cz s batch.
Proof.
  set (s' := addTransactions cz s batch).
  assert (Hnone : validTransactions cz s' batch = []).
  { unfold validTransactions. apply filter_none. intros t' Hin.
    apply negb_false_iff.
    unfold isDuplicateTransaction, s', addTransactions. cbn [transactions withTransactions].
    rewrite List.existsb_app.
    destruct (List.existsb (duplicateOf t') (transactions s)) eqn:E; [reflexivity|].
    cbn [orb]. apply List.existsb_exists. exists t'. split.
    - unfold validTransactions. apply List.filter_In. split; [exact Hin|].
      unfold isDuplicateTransaction. rewrite E. reflexivity.
    - apply duplicateOf_same_fields; reflexivity. }
  unfold addTransactions at 1. rewrite Hnone, List.app_nil_r. reflexivity.
Qed.

(** X2.  A new transaction is compared with the stored transactions only,
    never with the rest of its batch: when no transaction of a batch
    duplicates a stored one, the whole batch is appended, re-categorised,
    also when it holds the same transaction more than once. *)
Theorem addTransactions_keeps_batch (cz : Categorizer.TransactionCategorizer)
    (s : TransactionStore) (batch : list Transaction) :
  (forall t, In t batch -> isDuplicateTransaction s t = false) ->
  transactions (addTransactions cz s batch)
  = transactions s ++ List.map (recategorize cz) batch.
Proof.
  intros H. unfold addTransactions, validTransactions. cbn [transactions withTransactions].
  f_equal. apply filter_all. intros t' Hin.
  apply List.in_map_iff in Hin as (t & <- & Hin).
  rewrite isDuplicate_recategorize, (H t Hin). reflexivity.
Qed.

Lemma addTransactions_keeps_batch_witness :
  (forall t, In t [coffeeStored; coffeeStored] -> isDuplicateTransaction empty t = false)
  /\ transactions (addTransactions Categorizer.initial empty [coffeeStored; coffeeStored])
     = [coffeeStored; coffeeStored].
Proof.
  assert (H : forall t, In t [coffeeStored; coffeeStored] ->
                        isDuplicateTransaction empty t = false)
    by (intros t _; reflexivity).
  split; [exact H|].
  rewrite (addTransactions_keeps_batch Categorizer.initial empty
             [coffeeStored; coffeeStored] H).
  vm_compute. reflexivity.
Defined.

(** X3.  [deleteTransaction] removes every transaction that has the id
    and keeps the others; a manual entry under an id that no stored
    transaction has, followed by the deletion of that id, gives the store
    back. *)
Theorem deleteTransaction_round_trip (cz : Categorizer.TransactionCategorizer)
    (s : TransactionStore) (newId : jstring) (t : Transaction) :
  (forall x, In x (transactions s) -> t_id x <> newId) ->
  (forall id x, In x (transactions (deleteTransaction s id))
                <-> In x (transactions s) /\ t_id x <> id)
  /\ deleteTransaction s newId = s
  /\ deleteTransaction (addManualTransaction cz s newId t) newId = s.
Proof.
  intros Hfresh.
  assert (Hkeep : List.filter (fun x => negb (jeqb (t_id x) newId)) (transactions s)
                  = transactions s).
  { apply filter_all. intros x Hx. apply negb_true_iff, jeqb_neq, Hfresh, Hx. }
  split; [|split].
  - intros id x. unfold deleteTransaction. cbn [transactions withTransactions].
    rewrite List.filter_In, negb_true_iff, jeqb_neq. reflexivity.
  - unfold deleteTransaction, withTransactions. rewrite Hkeep. destruct s; reflexivity.
  - unfold deleteTransaction, addManualTransaction, withTransactions.
    cbn [transactions debitCardBalance].
    rewrite List.filter_app, Hkeep. cbn [List.filter setCategory t_id].
    rewrite jeqb_refl. cbn [negb]. rewrite List.app_nil_r. destruct s; reflexivity.
Qed.

Lemma deleteTransaction_round_trip_witness :
  deleteTransaction
    (addManualTransaction Categorizer.initial coffeeStore (str "m1") freeSample)
    (str "m1")
  = coffeeStore.
Proof.
  apply (deleteTransaction_round_trip Categorizer.initial coffeeStore (str "m1")
           freeSample).
  intros x [<- | []]. vm_compute. discriminate.
Defined.

Lemma updateTransaction_unknown_id_witness :
  transactions (updateTransaction updateExample (str "zz") renameToShell)
  = transactions updateExample.
Proof.
  apply (updateTransaction_unknown_id updateExample (str "zz") renameToShell).
  intros x [<- | []]. vm_compute. discriminate.
Defined.

End StoreLaws.

(** ** Sorting *)

Module SortFacts.

Section Sorting.
Context {A : Type}.
Variable key : A -> Z.

Lemma insertSorted_permutation (after : A -> A -> bool) (x : A) (l : list A) :
  Permutation (insertSorted after x l) (x :: l).
Proof.
  induction l as [|y l IH]; simpl; [reflexivity|].
  destruct (after x y); [|reflexivity].
  rewrite IH. apply perm_swap.
Qed.

Lemma stableSort_permutation (after : A -> A -> bool) (l : list A) :
  Permutation (stableSort after l) l.
Proof.
  induction l as [|x l IH]; simpl; [reflexivity|].
  rewrite insertSorted_permutation, IH. reflexivity.
Qed.

Lemma insertSorted_sorted (x : A) (l : list A) :
  StronglySorted (notBelow key) l -> StronglySorted (notBelow key) (insertSorted (descending key) x l).
Proof.
  induction 1 as [|y l Hs IH Hy]; simpl.
  - repeat constructor.
  - unfold descending at 1. destruct (key x <? key y) eqn:E.
    + apply Z.ltb_lt in E. constructor; [exact IH|].
      apply List.Forall_forall. intros z Hz.
      apply (Permutation_in _ (insertSorted_permutation (descending key) x l)) in Hz.
      destruct Hz as [<- | Hz]; [unfold notBelow; lia|].
      eapply List.Forall_forall in Hy; eassumption.
    + apply Z.ltb_ge in E. constructor; [constructor; assumption|].
      constructor; [exact E|].
      apply List.Forall_forall. intros z Hz.
      eapply List.Forall_forall in Hy; [|exact Hz]. unfold notBelow in *. lia.
Qed.

Lemma stableSort_sorted (l : list A) :
  StronglySorted (notBelow key) (stableSort (descending key) l).
Proof.
  induction l as [|x l IH]; simpl; [constructor | apply insertSorted_sorted, IH].
Qed.

(** The sort is stable: it keeps the order of the elements that have a
    given key. *)
Lemma insertSorted_filter (k : Z) (x : A) (l : list A) :
  StronglySorted (notBelow key) l ->
  List.filter (fun a => key a =? k) (insertSorted (descending key) x l)
  = List.filter (fun a => key a =? k) (x :: l).
Proof.
  induction 1 as [|y l Hs IH Hy]; [reflexivity|].
  cbn [insertSorted]. unfold descending at 1. destruct (key x <? key y) eqn:E;
    [|reflexivity].
  apply Z.ltb_lt in E. cbn [List.filter] in *.
  destruct (key y =? k) eqn:Ey.
  - apply Z.eqb_eq in Ey. assert (Ex : (key x =? k) = false) by (apply Z.eqb_neq; lia).
    rewrite Ex in *. rewrite IH. reflexivity.
  - exact IH.
Qed.

Lemma stableSort_stable (k : Z) (l : list A) :
  List.filter (fun a => key a =? k) (stableSort (descending key) l)
  = List.filter (fun a => key a =? k) l.
Proof.
  induction l as [|x l IH]; [reflexivity|].
  cbn [stableSort List.fold_right].
  change (List.fold_right (insertSorted (descending key)) [] l) with (stableSort (descending key) l).
  rewrite insertSorted_filter by apply stableSort_sorted.
  cbn [List.filter]. rewrite IH. reflexivity.
Qed.
End Sorting.

End SortFacts.

(** ** The categorizer *)

Module CategorizerSpec.
Import Categorizer SortFacts.

(** The loop of [calculateMatchScore] from a running score. *)
Lemma score_loop (description : jstring) (words kws : list jstring) (acc : Z) :
  let r :=
    List.fold_left
      (fun score keyword =>
         if includes description keyword then
           if arrIncludes words keyword then score + 3 else score + 1
         else score)
      kws acc in
  acc <= r <= acc + 3 * Z.of_nat (List.length kws)
  /\ (acc < r <-> exists k, In k kws /\ includes description k = true).
Proof.
  revert acc. induction kws as [|k kws IH]; intros acc; cbn [List.fold_left List.length].
  - split; [lia|]. split; [lia | intros (k & [] & _)].
  - destruct (includes description k) eqn:E.
    + destruct (arrIncludes words k).
      * destruct (IH (acc + 3)) as [Hb _]. cbv zeta in Hb.
        split; [lia|]. split; [|lia]. intros _. exists k. split; [left; reflexivity | exact E].
      * destruct (IH (acc + 1)) as [Hb _]. cbv zeta in Hb.
        split; [lia|]. split; [|lia]. intros _. exists k. split; [left; reflexivity | exact E].
    + destruct (IH acc) as [Hb Hiff]. cbv zeta in Hb, Hiff.
      split; [lia|]. rewrite Hiff. split.
      * intros (k' & Hin & Hk). exists k'. split; [right; exact Hin | exact Hk].
      * intros (k' & [<- | Hin] & Hk); [congruence|]. exists k'. split; assumption.
Qed.

Lemma score_positive (description : jstring) (kws : list jstring) :
  0 < calculateMatchScore description kws
  <-> exists k, In k kws /\ includes description k = true.
Proof. apply (score_loop description (splitSpaces description) kws 0). Qed.

(** X5.  The match score of a description against a list of keywords lies
    between 0 and three times the number of keywords, and it is positive
    exactly when some keyword occurs in the description as a substring. *)
Theorem calculateMatchScore_bounds (description : jstring) (kws : list jstring) :
  0 <= calculateMatchScore description kws <= 3 * Z.of_nat (List.length kws)
  /\ (0 < calculateMatchScore description kws
      <-> exists k, In k kws /\ includes description k = true).
Proof.
  split; [|apply score_positive].
  apply (score_loop description (splitSpaces description) kws 0).
Qed.

(** What the loop over the rules has found after the rules [seen]: nothing
    when no rule seen matches, and otherwise a rule seen that matches and
    whose weighted score no matching rule seen exceeds. *)
Lemma consider_loop (desc : jstring) (rules seen : list CategoryRule)
    (bestMatch : option Best) :
  let weighted r := calculateMatchScore desc (keywords r) * priority r in
  let found (l : list CategoryRule) (best : option Best) :=
    match best with
    | None => forall r, In r l -> calculateMatchScore desc (keywords r) <= 0
    | Some b =>
        exists r, In r l /\ 0 < calculateMatchScore desc (keywords r)
          /\ b_category b = category r
          /\ b_score b * b_priority b = weighted r
          /\ forall r', In r' l -> 0 < calculateMatchScore desc (keywords r') ->
               weighted r' <= weighted r
    end in
  found seen bestMatch ->
  found (seen ++ rules) (List.fold_left (consider desc) rules bestMatch).
Proof.
  intros weighted found. revert seen bestMatch.
  induction rules as [|r rules IH]; intros seen bestMatch H; cbn [List.fold_left].
  - rewrite List.app_nil_r. exact H.
  - replace (seen ++ r :: rules) with ((seen ++ [r]) ++ rules)
      by (rewrite <- List.app_assoc; reflexivity).
    apply IH. unfold consider.
    destruct (0 <? calculateMatchScore desc (keywords r)) eqn:E.
    + apply Z.ltb_lt in E. destruct bestMatch as [b|]; cbn [found] in *.
      * destruct H as (r0 & Hin & Hpos & Hcat & Htot & Hmax).
        destruct (b_score b * b_priority b <? _) eqn:Eb.
        -- apply Z.ltb_lt in Eb. exists r. cbn [b_category b_score b_priority].
           split; [apply List.in_or_app; right; left; reflexivity|].
           split; [exact E|]. split; [reflexivity|]. split; [reflexivity|].
           intros r' Hr' Hp. apply List.in_app_or in Hr' as [Hr' | [<- | []]].
           ++ specialize (Hmax r' Hr' Hp). unfold weighted in *. lia.
           ++ unfold weighted in *. lia.
        -- apply Z.ltb_ge in Eb. exists r0.
           split; [apply List.in_or_app; left; exact Hin|].
           split; [exact Hpos|]. split; [exact Hcat|]. split; [exact Htot|].
           intros r' Hr' Hp. apply List.in_app_or in Hr' as [Hr' | [<- | []]].
           ++ apply Hmax; assumption.
           ++ unfold weighted in *. lia.
      * exists r. cbn [b_category b_score b_priority].
        split; [apply List.in_or_app; right; left; reflexivity|].
        split; [exact E|]. split; [reflexivity|]. split; [reflexivity|].
        intros r' Hr' Hp. apply List.in_app_or in Hr' as [Hr' | [<- | []]].
        -- specialize (H r' Hr'). lia.
        -- unfold weighted. lia.
    + apply Z.ltb_ge in E. destruct bestMatch as [b|]; cbn [found] in *.
      * destruct H as (r0 & Hin & Hpos & Hcat & Htot & Hmax). exists r0.
        split; [apply List.in_or_app; left; exact Hin|].
        split; [exact Hpos|]. split; [exact Hcat|]. split; [exact Htot|].
        intros r' Hr' Hp. apply List.in_app_or in Hr' as [Hr' | [<- | []]].
        -- apply Hmax; assumption.
        -- lia.
      * intros r' Hr'. apply List.in_app_or in Hr' as [Hr' | [<- | []]].
        -- apply H, Hr'.
        -- exact E.
Qed.

(** X6.  With the type given, [categorizeTransaction] looks at the rules
    of that type only.  When no keyword of any of these rules occurs in the
    trimmed, lower-cased description the result is the default category
    ("Other Income" or "Other").  Otherwise it is the category of a rule
    with an occurring keyword whose score times priority no such rule
    exceeds. *)
Theorem categorizeTransaction_best (cz : TransactionCategorizer)
    (description : jstring) (amount : number) (ty : TxType) :
  let desc := trim (toLowerCase description) in
  let rules := match ty with income => incomeRules cz | expense => expenseRules cz end in
  let occurs r := exists k, In k (keywords r) /\ includes desc k = true in
  let weighted r := calculateMatchScore desc (keywords r) * priority r in
  let result := categorizeTransaction cz description amount (Some ty) in
  ((forall r, In r rules -> ~ occurs r) ->
   result = match ty with income => str "Other Income" | expense => str "Other" end)
  /\ ((exists r, In r rules /\ occurs r) ->
      exists r, In r rules /\ occurs r /\ result = category r
        /\ forall r', In r' rules -> occurs r' -> weighted r' <= weighted r).
Proof.
  intros desc rules occurs weighted result.
  pose proof (consider_loop desc rules [] None) as H. cbv zeta in H.
  specialize (H ltac:(intros r [])). rewrite List.app_nil_l in H.
  assert (Hres : result
                 = match List.fold_left (consider desc) rules None with
                   | Some b => b_category b
                   | None => match ty with
                             | income => str "Other Income"
                             | expense => str "Other"
                             end
                   end).
  { unfold result, categorizeTransaction. fold desc. destruct ty; reflexivity. }
  split.
  - intros Hno. rewrite Hres.
    destruct (List.fold_left (consider desc) rules None) as [b|]; [|reflexivity].
    destruct H as (r & Hin & Hpos & _). exfalso. apply (Hno r Hin).
    apply score_positive, Hpos.
  - intros (r0 & Hin0 & Hocc0). rewrite Hres.
    destruct (List.fold_left (consider desc) rules None) as [b|].
    + destruct H as (r & Hin & Hpos & Hcat & _ & Hmax). exists r.
      split; [exact Hin|]. split; [apply score_positive, Hpos|].
      split; [exact Hcat|]. intros r' Hr' Hocc. apply Hmax; [exact Hr'|].
      apply score_positive, Hocc.
    + exfalso. specialize (H r0 Hin0). apply score_positive in Hocc0. lia.
Qed.

(** X7.  [addCustomRule] puts the rule into the table of its type (the
    expense table when the type is not income) and sorts that table by
    descending priority: the table then holds the old rules and the new
    one, no rule is followed by a rule of greater priority, rules of equal
    priority keep their order with the new rule last among them, and the
    other table is left as it was. *)
Theorem addCustomRule_sorted (cz : TransactionCategorizer) (r : CategoryRule) :
  let table (c : TransactionCategorizer) :=
    match rtype r with Some income => incomeRules c | _ => expenseRules c end in
  let other (c : TransactionCategorizer) :=
    match rtype r with Some income => expenseRules c | _ => incomeRules c end in
  Permutation (table (addCustomRule cz r)) (table cz ++ [r])
  /\ StronglySorted (notBelow priority) (table (addCustomRule cz r))
  /\ (forall k, List.filter (fun a => priority a =? k) (table (addCustomRule cz r))
               = List.filter (fun a => priority a =? k) (table cz ++ [r]))
  /\ other (addCustomRule cz r) = other cz.
Proof.
  intros table other.
  assert (E : table (addCustomRule cz r)
              = stableSort (descending priority) (table cz ++ [r])).
  { unfold table, addCustomRule. destruct (rtype r) as [[|]|]; reflexivity. }
  rewrite E. split; [apply stableSort_permutation|].
  split; [apply stableSort_sorted|]. split; [intros k; apply stableSort_stable|].
  unfold other, addCustomRule. destruct (rtype r) as [[|]|]; reflexivity.
Qed.

End CategorizerSpec.

(** ** The simple parser: outcomes of [parseFile] and of [createTransaction] *)

Module SimpleParserLaws.
Import SimpleParser JSFacts Examples.

Ltac run_parseFile :=
  unfold parseFile, guard, mbind, run_bind, mret, run_ret, bind, catch, call, throw, ret.

Lemma parseFile_cases
    (parseCSV parseText parsePDF : File -> Thrown + list Transaction) (file : File) :
  match parseFile parseCSV parseText parsePDF file with
  | (started, inr l) =>
      l <> [] /\ f_size file <> 0 /\ f_size file <= 10 * 1024 * 1024
      /\ ((started = [ParseCSV] /\ parseCSV file = inr l)
          \/ (started = [ParseText] /\ parseText file = inr l)
          \/ (started = [ParsePDF] /\ parsePDF file = inr l))
  | (started, inl e) =>
      (exists message, e = ErrorWith message) /\ (List.length started <= 1)%nat
  end.
Proof.
  run_parseFile.
  destruct (10 * 1024 * 1024 <? f_size file) eqn:Hbig;
    [cbn; split; [eexists; reflexivity | lia]|].
  apply Z.ltb_ge in Hbig.
  destruct (f_size file =? 0) eqn:Hzero;
    [cbn; split; [eexists; reflexivity | lia]|].
  apply Z.eqb_neq in Hzero.
  destruct (endsWith _ (str ".csv") || _).
  { destruct (parseCSV file) as [[m|]|[|t l]] eqn:E; cbn;
      try (split; [eexists; reflexivity | lia]).
    split; [discriminate|]. split; [exact Hzero|]. split; [exact Hbig|].
    left. split; reflexivity. }
  destruct (endsWith _ (str ".txt") || _).
  { destruct (parseText file) as [[m|]|[|t l]] eqn:E; cbn;
      try (split; [eexists; reflexivity | lia]).
    split; [discriminate|]. split; [exact Hzero|]. split; [exact Hbig|].
    right; left. split; reflexivity. }
  destruct (endsWith _ (str ".pdf") || _).
  { destruct (parsePDF file) as [[m|]|[|t l]] eqn:E; cbn;
      try (split; [eexists; reflexivity | lia]).
    split; [discriminate|]. split; [exact Hzero|]. split; [exact Hbig|].
    right; right. split; reflexivity. }
  cbn. split; [eexists; reflexivity | lia].
Qed.

(** X9.  What [parseFile] can give.  When it returns transactions, the
    list is not empty, the size of the file is neither 0 nor above 10 MB,
    and exactly one strategy was started, whose result is returned.  When
    it fails, it throws an error with a message, and at most one strategy
    was started. *)
Theorem parseFile_outcome
    (parseCSV parseText parsePDF : File -> Thrown + list Transaction) (file : File) :
  match parseFile parseCSV parseText parsePDF file with
  | (started, inr l) =>
      l <> [] /\ f_size file <> 0 /\ f_size file <= 10 * 1024 * 1024
      /\ ((started = [ParseCSV] /\ parseCSV file = inr l)
          \/ (started = [ParseText] /\ parseText file = inr l)
          \/ (started = [ParsePDF] /\ parsePDF file = inr l))
  | (started, inl e) =>
      (exists message, e = ErrorWith message) /\ (List.length started <= 1)%nat
  end.
Proof. apply parseFile_cases. Qed.

(** X10.  The rejections of [parseFile] that start no strategy: a file of
    more than 10 MB, and a file of an admissible size whose lower-cased
    name ends in none of .csv, .txt, .pdf and whose type is none of
    text/csv, text/plain, application/pdf.  And the name decides before the
    type: a name that ends in .csv sends the file to [parseCSV], whatever
    the type says. *)
Theorem parseFile_rejections
    (parseCSV parseText parsePDF : File -> Thrown + list Transaction) (file : File) :
  let fileName := toLowerCase (f_name file) in
  let admissible := f_size file <> 0 /\ f_size file <= 10 * 1024 * 1024 in
  (10 * 1024 * 1024 < f_size file ->
   parseFile parseCSV parseText parsePDF file
   = ([], inl (ErrorWith (str "File size too large. Maximum 10MB allowed."))))
  /\ (admissible ->
      endsWith fileName (str ".csv") || jeqb (f_type file) (str "text/csv") = false ->
      endsWith fileName (str ".txt") || jeqb (f_type file) (str "text/plain") = false ->
      endsWith fileName (str ".pdf") || jeqb (f_type file) (str "application/pdf")
      = false ->
      parseFile parseCSV parseText parsePDF file
      = ([], inl (ErrorWith
                    (str "Unsupported file type. Please upload CSV, TXT, or PDF files."))))
  /\ (admissible -> endsWith fileName (str ".csv") = true ->
      fst (parseFile parseCSV parseText parsePDF file) = [ParseCSV]).
Proof.
  intros fileName admissible. split; [|split].
  - intros H. apply Z.ltb_lt in H. run_parseFile. rewrite H. reflexivity.
  - intros [Hz Hb] Hcsv Htxt Hpdf. apply Z.eqb_neq in Hz. apply Z.ltb_ge in Hb.
    run_parseFile. fold fileName. rewrite Hb, Hz, Hcsv, Htxt, Hpdf. reflexivity.
  - intros [Hz Hb] Hcsv. apply Z.eqb_neq in Hz. apply Z.ltb_ge in Hb.
    run_parseFile. fold fileName. rewrite Hb, Hz, Hcsv. cbn [orb].
    destruct (parseCSV file) as [[m|]|[|t l]]; reflexivity.
Qed.

Lemma createTransaction_facts (h : Host) (cz : Categorizer.TransactionCategorizer)
    (newId dateStr description amountStr : jstring) (t : Transaction) :
  createTransaction h cz newId dateStr description amountStr = Some t ->
  isNonSpendingTransaction (t_description t) = false
  /\ t_id t = newId
  /\ t_source t = str "upload"
  /\ (exists originalAmount,
        t_originalAmount t = Some originalAmount
        /\ t_amount t = abs originalAmount
        /\ t_type t = determineTransactionType originalAmount (t_description t))
  /\ Store.recategorize cz t = t.
Proof.
  unfold createTransaction.
  destruct (parseDate _ _) as [date|]; [|discriminate].
  destruct (isNaN _ || strictEq _ _); [discriminate|].
  destruct (_ <? 3)%nat; [discriminate|].
  destruct (isNonSpendingTransaction _) eqn:E; [discriminate|].
  intros [= <-]. cbn [t_description t_id t_source t_type t_originalAmount t_amount].
  split; [exact E|]. split; [reflexivity|]. split; [reflexivity|].
  split; [|reflexivity]. eexists. repeat split.
Qed.

(** X11.  What [createTransaction] of the simple parser establishes.  The
    description of a transaction it returns passes the non-spending filter
    (it contains none of "refund", "salary", "payroll", "direct deposit",
    ...), its source is "upload", its type is the answer of
    [determineTransactionType] for the signed amount and that description,
    and its category is the answer of the categorizer for its description,
    amount and type, so that the re-categorisation of [addTransactions] by
    the same categorizer leaves it as it is. *)
Theorem createTransaction_established (h : Host) (cz : Categorizer.TransactionCategorizer)
    (newId dateStr description amountStr : jstring) (t : Transaction) :
  createTransaction h cz newId dateStr description amountStr = Some t ->
  isNonSpendingTransaction (t_description t) = false
  /\ t_id t = newId
  /\ t_source t = str "upload"
  /\ (exists originalAmount,
        t_originalAmount t = Some originalAmount
        /\ t_amount t = abs originalAmount
        /\ t_type t = determineTransactionType originalAmount (t_description t))
  /\ Store.recategorize cz t = t.
Proof. apply createTransaction_facts. Qed.

Lemma createTransaction_established_witness :
  exists t,
    createTransaction (UtcHost.host 2026 []) Categorizer.initial
      (str "u1") (str "03/15/2024") (str "Starbucks Coffee") (str "-5.75") = Some t
    /\ isNonSpendingTransaction (t_description t) = false
    /\ Store.recategorize Categorizer.initial t = t.
Proof.
  eexists. split; [vm_compute; reflexivity|].
  match goal with
  | |- isNonSpendingTransaction (t_description ?t) = false /\ _ =>
      destruct (createTransaction_established (UtcHost.host 2026 []) Categorizer.initial
                  (str "u1") (str "03/15/2024") (str "Starbucks Coffee") (str "-5.75") t)
        as (H1 & _ & _ & _ & H5)
  end.
  - vm_compute. reflexivity.
  - split; assumption.
Defined.

End SimpleParserLaws.

(** ** The store: the sorted view *)

Module StoreQueries.
Import Store SortFacts.

(** X8.  [getAllTransactions] returns the stored transactions, each as
    often as it is stored, ordered so that no transaction is followed by
    one of a later date; transactions of the same date keep the order in
    which they are stored. *)
Theorem getAllTransactions_sorted (s : TransactionStore) :
  Permutation (getAllTransactions s) (transactions s)
  /\ StronglySorted (notBelow t_date) (getAllTransactions s)
  /\ (forall d, List.filter (fun t => t_date t =? d) (getAllTransactions s)
              = List.filter (fun t => t_date t =? d) (transactions s)).
Proof.
  unfold getAllTransactions. split; [apply stableSort_permutation|].
  split; [apply stableSort_sorted | intros d; apply stableSort_stable].
Qed.

End StoreQueries.

(** ** The PDF parser: what its functions establish *)

Module PdfParserLaws.
Import PdfParser JSFacts PdfParserSpec.

Section Keys.
Variable toISOString : Z -> jstring.
Variable toFixed2 : number -> jstring.

Lemma keeps_unseen (seen : gmap jstring Transaction) (t : Transaction) :
  keeps toISOString toFixed2 seen t = true ->
  seen !! exactKey toISOString toFixed2 t = None.
Proof.
  unfold keeps. destruct (seen !! exactKey toISOString toFixed2 t); [discriminate|].
  reflexivity.
Qed.

Lemma dedupe_distinct (l : list Transaction) :
  forall seen : gmap jstring Transaction,
    NoDup (List.map (exactKey toISOString toFixed2) (dedupe toISOString toFixed2 seen l))
    /\ (forall t, In t (dedupe toISOString toFixed2 seen l) ->
                  seen !! exactKey toISOString toFixed2 t = None).
Proof.
  induction l as [|t l IH]; intros seen; cbn [dedupe].
  - split; [constructor | intros t []].
  - destruct (keeps toISOString toFixed2 seen t) eqn:K.
    + destruct (IH (<[exactKey toISOString toFixed2 t := t]> seen)) as [Hnd Hun].
      assert (Hne : forall u,
                 In u (dedupe toISOString toFixed2
                         (<[exactKey toISOString toFixed2 t := t]> seen) l) ->
                 exactKey toISOString toFixed2 u <> exactKey toISOString toFixed2 t).
      { intros u Hu E. specialize (Hun u Hu). rewrite E, lookup_insert_eq in Hun.
        discriminate. }
      split.
      * cbn [List.map]. apply NoDup_cons. split; [|exact Hnd].
        intros Hin. apply list_elem_of_In, List.in_map_iff in Hin as (u & E & Hu).
        exact (Hne u Hu E).
      * intros u [<- | Hu]; [apply keeps_unseen, K|].
        specialize (Hun u Hu). rewrite lookup_insert_ne in Hun; [exact Hun|].
        intros E. exact (Hne u Hu (eq_sym E)).
    + apply IH.
Qed.

(** X12.  The result of [removeDuplicates] is a sublist of its input
    (nothing is added, changed or reordered), it starts with the first
    transaction of the input, and no two of its transactions have the same
    exact key, that is the same date, amount to two decimals and
    description up to letter case and white space. *)
Theorem removeDuplicates_distinct (l : list Transaction) :
  sublist (removeDuplicates toISOString toFixed2 l) l
  /\ NoDup (List.map (exactKey toISOString toFixed2)
              (removeDuplicates toISOString toFixed2 l))
  /\ (forall t l', l = t :: l' ->
        exists rest, removeDuplicates toISOString toFixed2 l = t :: rest).
Proof.
  unfold removeDuplicates. split; [apply dedupe_sublist|].
  split; [apply dedupe_distinct|].
  intros t l' ->. cbn [dedupe]. unfold keeps. rewrite !lookup_empty.
  eexists. reflexivity.
Qed.
End Keys.

Lemma categorizeTransaction_income (description : jstring) :
  In (categorizeTransaction description true)
     (List.map str ["Salary"; "Freelance"; "Refunds"; "Investment Returns";
                    "Other Income"]%string).
Proof.
  unfold categorizeTransaction. cbn [List.map].
  repeat (destruct (SimpleParser.anyIncluded _ _);
          [repeat first [left; reflexivity | right]|]).
  repeat first [left; reflexivity | right].
Qed.

Lemma categorizeTransaction_expense (description : jstring) :
  In (categorizeTransaction description false)
     (List.map str ["Food & Dining"; "Transportation"; "Shopping"; "Bills & Utilities";
                    "Entertainment"; "Healthcare"; "Travel"; "Education";
                    "Fees & Charges"; "Other"]%string).
Proof.
  unfold categorizeTransaction. cbn [List.map].
  repeat (destruct (SimpleParser.anyIncluded _ _);
          [repeat first [left; reflexivity | right]|]).
  repeat first [left; reflexivity | right].
Qed.

(** X13.  What [createTransaction] of the PDF parser establishes.  The
    description of a transaction it returns is the trimmed description it
    was given; unless payments are allowed, that description passes the
    test for payment and summary lines.  The amount is the magnitude of the
    amount read; the type is income exactly when the return test holds for
    the description and the signed amount, in particular for every negative
    amount; and the category is one of the five income categories for an
    income and one of the ten expense categories for an expense. *)
Theorem pdf_createTransaction_established (h : Host)
    (newId dateStr description amountStr : jstring) (allowPayments : bool)
    (t : Transaction) :
  createTransaction h newId dateStr description amountStr allowPayments = Some t ->
  t_description t = trim description
  /\ (allowPayments = false -> isPaymentTransaction (t_description t) = false)
  /\ (exists originalAmount,
        parseAmount amountStr = Some originalAmount
        /\ t_amount t = abs originalAmount
        /\ (t_type t = income
            <-> isReturnTransaction (t_description t) originalAmount = true)
        /\ (lt originalAmount (Num 0) = true -> t_type t = income))
  /\ match t_type t with
     | income =>
         In (t_category t)
            (List.map str ["Salary"; "Freelance"; "Refunds"; "Investment Returns";
                           "Other Income"]%string)
     | expense =>
         In (t_category t)
            (List.map str ["Food & Dining"; "Transportation"; "Shopping";
                           "Bills & Utilities"; "Entertainment"; "Healthcare"; "Travel";
                           "Education"; "Fees & Charges"; "Other"]%string)
     end.
Proof.
  unfold createTransaction.
  destruct (parseAmount amountStr) as [originalAmount|]; [|discriminate].
  destruct (negb allowPayments && isPaymentTransaction (trim description)) eqn:Ep;
    [discriminate|].
  destruct (parseDate h (trim dateStr)) as [date|]; [|discriminate].
  destruct (_ <? 2)%nat; [discriminate|].
  intros [= <-]. cbn [t_description t_amount t_type t_category].
  split; [reflexivity|]. split.
  { intros ->. exact Ep. }
  split.
  { exists originalAmount. split; [reflexivity|]. split; [reflexivity|]. split.
    - destruct (isReturnTransaction (trim description) originalAmount);
        split; congruence.
    - intros Hneg. unfold isReturnTransaction. rewrite Hneg. reflexivity. }
  destruct (isReturnTransaction (trim description) originalAmount).
  - apply categorizeTransaction_income.
  - apply categorizeTransaction_expense.
Qed.

Lemma pdf_createTransaction_established_witness :
  exists t,
    createTransaction (UtcHost.host 2026 []) (str "p1") (str "06/03/2025")
      (str "STARBUCKS STORE 1234") (str "-28.21") false = Some t
    /\ t_description t = str "STARBUCKS STORE 1234"
    /\ t_type t = income.
Proof.
  eexists. split; [vm_compute; reflexivity|].
  match goal with
  | |- t_description ?t = _ /\ _ =>
      destruct (pdf_createTransaction_established (UtcHost.host 2026 []) (str "p1")
                  (str "06/03/2025") (str "STARBUCKS STORE 1234") (str "-28.21") false t)
        as (H1 & _ & (a & Ha & _ & _ & Hneg) & _)
  end.
  - vm_compute. reflexivity.
  - split; [exact H1|]. apply Hneg.
    vm_compute in Ha. injection Ha as <-. reflexivity.
Defined.

(** X14.  A line of a Bank of America statement.  A line that mentions a
    payment to the card ("payment from chk", "online payment from",
    "conf#", in any letter case) gives no transaction; in the credits
    section neither does a line that contains "367.09" or "940.83".  A
    transaction that is returned is typed by the section: an income filed
    under "Refunds" in the credits section, an expense in the expenses
    section. *)
Theorem tabular_line_by_section (h : Host) (newId line : jstring)
    (section : SectionName) :
  (mentionsCardPayment (toLowerCase (trim line)) = true ->
   parseBankOfAmericaTabularLine h newId line section = None)
  /\ (includes (trim line) (str "367.09") || includes (trim line) (str "940.83") = true ->
      parseBankOfAmericaTabularLine h newId line credits = None)
  /\ (forall t, parseBankOfAmericaTabularLine h newId line section = Some t ->
        t_type t = match section with credits => income | expenses => expense end
        /\ (section = credits -> t_category t = str "Refunds")).
Proof.
  split; [|split].
  - intros H. unfold parseBankOfAmericaTabularLine. rewrite H. reflexivity.
  - intros H. unfold parseBankOfAmericaTabularLine. rewrite H, orb_true_r. reflexivity.
  - intros t. apply tabular_line_forced.
Qed.

End PdfParserLaws.

(** ** The upload route *)

Module UploadRouteSpec.
Import SimpleParser UploadRoute Examples SimpleParserLaws.


(** X16.  The route admits more than the parser reads.  A file that
    passes the check of the route by its type or its extension (a
    spreadsheet, say) but whose name ends in none of .csv, .txt, .pdf and
    whose type is none of text/csv, text/plain, application/pdf is handed
    to [parseFile], which starts no strategy: an empty file is answered
    with 500 and the message that the file is empty, any other with 500
    and the message that the file type is not supported. *)
Theorem POST_admits_unparsed_types
    (parseCSV parseText parsePDF : File -> Thrown + list Transaction) (f : File) :
  let fileName := toLowerCase (f_name f) in
  f_size f <= 10 * 1024 * 1024 ->
  arrIncludes (List.map str allowedTypes) (f_type f)
  || arrIncludes (List.map str allowedExtensions) (fileExtension (f_name f)) = true ->
  endsWith fileName (str ".csv") || jeqb (f_type f) (str "text/csv") = false ->
  endsWith fileName (str ".txt") || jeqb (f_type f) (str "text/plain") = false ->
  endsWith fileName (str ".pdf") || jeqb (f_type f) (str "application/pdf") = false ->
  POST parseCSV parseText parsePDF true (Some f)
  = ([], Failure 500
           (if f_size f =? 0
            then str "File is empty. Please upload a file with transaction data."
            else str "Unsupported file type. Please upload CSV, TXT, or PDF files.")).
Proof.
  intros fileName Hsize Hroute Hcsv Htxt Hpdf.
  unfold POST. cbn [negb].
  apply Z.ltb_ge in Hsize. rewrite Hsize.
  apply orb_true_iff in Hroute.
  assert (Hpass : negb (arrIncludes (List.map str allowedTypes) (f_type f))
                  && negb (arrIncludes (List.map str allowedExtensions)
                             (fileExtension (f_name f))) = false).
  { destruct Hroute as [-> | ->]; [reflexivity | apply andb_false_r]. }
  rewrite Hpass.
  run_parseFile. fold fileName. rewrite Hsize.
  destruct (f_size f =? 0); [reflexivity|].
  rewrite Hcsv, Htxt, Hpdf. reflexivity.
Qed.

Lemma POST_admits_unparsed_types_witness :
  fileExtension (f_name spreadsheet) = str ".xlsx"
  /\ POST (fun _ => inr []) (fun _ => inr []) (fun _ => inr []) true (Some spreadsheet)
     = ([], Failure 500
              (str "Unsupported file type. Please upload CSV, TXT, or PDF files.")).
Proof.
  split; [vm_compute; reflexivity|].
  apply (POST_admits_unparsed_types (fun _ => inr []) (fun _ => inr [])
           (fun _ => inr []) spreadsheet);
    vm_compute; first [reflexivity | discriminate].
Defined.

End UploadRouteSpec.

(** ** Reading a CSV text *)

Module CsvSpec.
Import SimpleParser JSFacts RegexFacts Examples SimpleParserLaws.

Local Abbreviation noQuote := (fun x : N => x <> 34%N).

Lemma searchFrom_quoteAtEnd (rest : jstring) :
  Forall noQuote rest ->
  forall before, searchFrom false quoteAtEnd before rest = None.
Proof.
  induction 1 as [|y rest Hy Hrest IH]; intros before.
  - destruct before; reflexivity.
  - assert (E : N.eqb 34 y = false) by (apply N.eqb_neq; congruence).
    cbn [searchFrom]. unfold matchAt, quoteAtEnd. cbn [run fst snd]. unfold chrEq.
    rewrite E. destruct before; apply IH.
Qed.

(** The last step of [parseCSVLine] changes no cell without a double
    quote. *)
Lemma replaceAll_quoteAtEnd (cell : jstring) :
  Forall noQuote cell -> replaceAll false quoteAtEnd (fun _ => []) cell = cell.
Proof.
  intros H. unfold replaceAll. cbn [replaceFrom].
  rewrite searchFrom_quoteAtEnd by exact H. reflexivity.
Qed.

Lemma Forall_trimStart (P : N -> Prop) (s : jstring) :
  Forall P s -> Forall P (trimStart s).
Proof.
  induction 1 as [|c s Hc Hs IH]; cbn [trimStart]; [constructor|].
  destruct (isSpace c); [exact IH | constructor; assumption].
Qed.

Lemma Forall_trim (P : N -> Prop) (s : jstring) : Forall P s -> Forall P (trim s).
Proof.
  intros H. unfold trim, trimEnd.
  apply List.Forall_rev, Forall_trimStart, List.Forall_rev, Forall_trimStart, H.
Qed.

Lemma csvScan_noQuote (line : jstring) :
  forall current inQuotes,
    Forall noQuote current -> Forall (Forall noQuote) (csvScan line current inQuotes).
Proof.
  induction line as [|char line IH]; intros current inQuotes H; cbn [csvScan].
  - constructor; [apply Forall_trim, H | constructor].
  - destruct (N.eqb char 34) eqn:E; [apply IH, H|].
    apply N.eqb_neq in E.
    destruct (N.eqb char 44 && negb inQuotes).
    + constructor; [apply Forall_trim, H | apply IH; constructor].
    + apply IH. apply Forall_app. split; [exact H | constructor; [exact E | constructor]].
Qed.

Lemma parseCSVLine_scan (line : jstring) : parseCSVLine line = csvScan line [] false.
Proof.
  unfold parseCSVLine.
  pose proof (csvScan_noQuote line [] false ltac:(constructor)) as H.
  induction H as [|cell cells Hc Hcs IH]; cbn [List.map]; [reflexivity|].
  rewrite replaceAll_quoteAtEnd by exact Hc. f_equal. exact IH.
Qed.

Lemma csvScan_cons (line : jstring) :
  forall current inQuotes, csvScan line current inQuotes <> [].
Proof.
  induction line as [|char line IH]; intros current inQuotes; cbn [csvScan].
  - discriminate.
  - destruct (N.eqb char 34); [apply IH|].
    destruct (N.eqb char 44 && negb inQuotes); [discriminate | apply IH].
Qed.

(** X17.  [parseCSVLine] returns at least one cell for every line, no
    cell it returns contains a double quote (so that its final removal of
    a quote at either end of a cell never changes anything), and a line
    without a comma and without a double quote is one cell, its trimmed
    text. *)
Theorem parseCSVLine_cells (line : jstring) :
  parseCSVLine line <> []
  /\ Forall (Forall (fun x => x <> 34%N)) (parseCSVLine line)
  /\ parseCSVLine line = csvScan line [] false
  /\ (Forall (fun x => x <> 34%N /\ x <> 44%N) line -> parseCSVLine line = [trim line]).
Proof.
  rewrite parseCSVLine_scan. split; [apply csvScan_cons|].
  split; [apply csvScan_noQuote; constructor|]. split; [reflexivity|].
  intros H.
  assert (G : forall current, csvScan line current false = [trim (current ++ line)]).
  { induction H as [|x l [Hq Hc] Hl IH]; intros current; cbn [csvScan].
    - rewrite List.app_nil_r. reflexivity.
    - apply N.eqb_neq in Hq, Hc. rewrite Hq, Hc. cbn [andb].
      rewrite IH, <- List.app_assoc. reflexivity. }
  apply (G []).
Qed.

(** Outside quotes a run of units without comma and quote is appended to
    the current cell; inside quotes so is a run without quote. *)
Lemma csvScan_plain (cell rest : jstring) :
  Forall (fun x => x <> 34%N /\ x <> 44%N) cell ->
  forall current, csvScan (cell ++ rest) current false = csvScan rest (current ++ cell) false.
Proof.
  induction 1 as [|x l [Hq Hc] Hl IH]; intros current; cbn [List.app csvScan].
  - rewrite List.app_nil_r. reflexivity.
  - apply N.eqb_neq in Hq, Hc. rewrite Hq, Hc. cbn [andb].
    rewrite IH, <- List.app_assoc. reflexivity.
Qed.

Lemma csvScan_inside (cell rest : jstring) :
  Forall noQuote cell ->
  forall current, csvScan (cell ++ rest) current true = csvScan rest (current ++ cell) true.
Proof.
  induction 1 as [|x l Hq Hl IH]; intros current; cbn [List.app csvScan].
  - rewrite List.app_nil_r. reflexivity.
  - apply N.eqb_neq in Hq. rewrite Hq. cbn [negb]. rewrite andb_false_r.
    rewrite IH, <- List.app_assoc. reflexivity.
Qed.

Lemma Forall_and_comma (cell : jstring) :
  Forall noQuote cell -> Forall (fun x => x <> 44%N) cell ->
  Forall (fun x => x <> 34%N /\ x <> 44%N) cell.
Proof.
  intros H1 H2. apply List.Forall_forall. intros x Hx. split.
  - eapply List.Forall_forall in H1; eassumption.
  - eapply List.Forall_forall in H2; eassumption.
Qed.

Lemma join_cons2 (sep a b : jstring) (l : list jstring) :
  join sep (a :: b :: l) = a ++ sep ++ join sep (b :: l).
Proof. reflexivity. Qed.

Lemma quoted_cells_read (cells : list jstring) :
  forall cell,
    Forall (fun cell => trim cell = cell /\ Forall noQuote cell) (cell :: cells) ->
    csvScan (join [44%N] (List.map (fun cell => [34%N] ++ cell ++ [34%N]) (cell :: cells)))
      [] false
    = cell :: cells.
Proof.
  induction cells as [|cell' cells IH]; intros cell H;
    apply List.Forall_cons_iff in H as [[Ht Hq] H].
  - cbn [List.map join List.app csvScan N.eqb Pos.eqb negb].
    rewrite csvScan_inside by exact Hq. cbn [List.app csvScan N.eqb Pos.eqb negb].
    rewrite Ht. reflexivity.
  - specialize (IH cell' H). cbn [List.map] in *. rewrite join_cons2.
    remember (join [44%N] _) as tail eqn:Etail. clear Etail.
    rewrite <- !List.app_assoc.
    cbn [List.app csvScan N.eqb Pos.eqb negb].
    rewrite csvScan_inside by exact Hq.
    cbn [List.app csvScan N.eqb Pos.eqb negb andb].
    rewrite Ht, IH. reflexivity.
Qed.

Lemma plain_cells_read (cells : list jstring) :
  forall cell,
    Forall (fun cell => trim cell = cell /\ Forall noQuote cell) (cell :: cells) ->
    Forall (Forall (fun x => x <> 44%N)) (cell :: cells) ->
    csvScan (join [44%N] (cell :: cells)) [] false = cell :: cells.
Proof.
  induction cells as [|cell' cells IH]; intros cell H Hc;
    apply List.Forall_cons_iff in H as [[Ht Hq] H];
    apply List.Forall_cons_iff in Hc as [Hc Hcs];
    pose proof (Forall_and_comma cell Hq Hc) as Hplain.
  - cbn [join]. rewrite <- (List.app_nil_r cell) at 1.
    rewrite csvScan_plain by exact Hplain. cbn [List.app csvScan].
    rewrite Ht. reflexivity.
  - specialize (IH cell' H Hcs). rewrite join_cons2.
    remember (join [44%N] _) as tail eqn:Etail. clear Etail.
    rewrite csvScan_plain by exact Hplain.
    cbn [List.app csvScan N.eqb Pos.eqb negb andb].
    rewrite Ht, IH. reflexivity.
Qed.

(** X18.  Writing cells to a line and reading the line gives the cells
    back.  For a non-empty list of cells that are trimmed and contain no
    double quote: the cells, each wrapped in double quotes and joined with
    commas, are read back as they are, commas inside a cell included; and
    when no cell contains a comma, so are the cells joined with commas
    without any quoting. *)
Theorem parseCSVLine_round_trip (cells : list jstring) :
  cells <> [] ->
  Forall (fun cell => trim cell = cell /\ Forall (fun x => x <> 34%N) cell) cells ->
  parseCSVLine (join [44%N] (List.map (fun cell => [34%N] ++ cell ++ [34%N]) cells))
  = cells
  /\ (Forall (Forall (fun x => x <> 44%N)) cells ->
      parseCSVLine (join [44%N] cells) = cells).
Proof.
  intros Hne H. destruct cells as [|cell cells]; [contradiction|].
  rewrite !parseCSVLine_scan. split.
  - apply quoted_cells_read, H.
  - intros Hc. apply plain_cells_read; assumption.
Qed.

Lemma parseCSVLine_round_trip_witness :
  parseCSVLine (str "03/16/2024," ++ [34%N] ++ str "Shell, Gas Station" ++ [34%N]
                ++ str ",40.00")
  = [str "03/16/2024"; str "Shell, Gas Station"; str "40.00"]
  /\ parseCSVLine (str "03/16/2024,Shell Gas Station,40.00")
     = [str "03/16/2024"; str "Shell Gas Station"; str "40.00"].
Proof.
  split; [vm_compute; reflexivity|].
  apply (parseCSVLine_round_trip
           [str "03/16/2024"; str "Shell Gas Station"; str "40.00"]).
  - discriminate.
  - repeat constructor; vm_compute; discriminate.
  - repeat constructor; vm_compute; discriminate.
Defined.

Lemma findIndex_lt {A : Type} (p : A -> bool) (l : list A) (i : nat) :
  findIndex p l = Some i -> (i < List.length l)%nat.
Proof.
  revert i. induction l as [|x l IH]; intros i; cbn [findIndex List.length];
    [discriminate|].
  destruct (p x); [intros [= <-]; lia|].
  destruct (findIndex p l) as [j|]; [|discriminate].
  intros [= <-]. specialize (IH j eq_refl). lia.
Qed.

Lemma findIndex_none {A : Type} (p : A -> bool) (l : list A) :
  (forall x, In x l -> p x = false) -> findIndex p l = None.
Proof.
  induction l as [|x l IH]; intros H; cbn [findIndex]; [reflexivity|].
  rewrite (H x) by (left; reflexivity). rewrite IH; [reflexivity|].
  intros y Hy. apply H. right; exact Hy.
Qed.

(** X19.  [findColumnIndex] always answers with the index of a header
    when there is one; the answer is 0 when no header contains, or is
    contained in, any of the possible names; and a first header that is
    empty is contained in every name, so that the answer is 0 for every
    non-empty list of names. *)
Theorem findColumnIndex_answers (headers possibleNames : list jstring) :
  (headers <> [] -> (findColumnIndex headers possibleNames < List.length headers)%nat)
  /\ ((forall name header, In name possibleNames -> In header headers ->
       includes header name || includes name header = false) ->
      findColumnIndex headers possibleNames = 0%nat)
  /\ (forall rest, headers = [] :: rest -> findColumnIndex headers possibleNames = 0%nat).
Proof.
  split; [|split].
  - intros Hne. induction possibleNames as [|name names IH]; cbn [findColumnIndex].
    + destruct headers; [contradiction | cbn [List.length]; lia].
    + destruct (findIndex _ headers) as [i|] eqn:E; [|exact IH].
      apply findIndex_lt in E. exact E.
  - induction possibleNames as [|name names IH]; intros H; cbn [findColumnIndex];
      [reflexivity|].
    rewrite findIndex_none.
    + apply IH. intros n hd Hn Hh. apply H; [right; exact Hn | exact Hh].
    + intros hd Hh. apply H; [left; reflexivity | exact Hh].
  - intros rest ->. destruct possibleNames as [|name names]; [reflexivity|].
    cbn [findColumnIndex findIndex].
    assert (E : includes name [] = true) by (destruct name; reflexivity).
    rewrite E, orb_true_r. reflexivity.
Qed.

Section Rows.
Variable h : Host.
Variable cz : Categorizer.TransactionCategorizer.
Variable idOfLine : nat -> jstring.



End Rows.

End CsvSpec.
